(** * Capture, normalise, classify, persist: a model of the CCM sources

    The development follows the source files that carry the pipeline:
    [analyzer.py] (parsers, [TrafficDetector.detect_all] and
    [capture_and_save]), [models.py] ([TramoNorm], [nombre_hoja_seguro], the
    schedule and [fmt_restante]), [storage.py] (the workbook operations, the
    side files of the write-ahead log and [guardar_tramos]) and, of
    [gui.py], the capture that calls them ([_captura_ejecucion],
    [_clasif_from_raw]).

    Conventions.
    - Python [str] is [string]; the character classes, [strip], [lower] and
      slicing are the ones of Python on ASCII text.  A non-ASCII character is
      kept as its UTF-8 bytes, which are neither spaces, digits nor word
      characters here and have no lower case.  A statement that depends on
      more than that (the order and the comparison of titles without case,
      the cut of a name) is made for plain texts, see [DominioTerms].
    - Python [float] is IEEE binary64, taken from [SpecFloat] at precision 53.
    - [None] is [None]; [Optional[bool]] is [option bool].
    - openpyxl is outside the repository: a workbook is an ordered list of
      titled sheets, a sheet an ordered list of rows.
    - The browser is outside the model: a capture starts from the records
      that the extraction returned.  [alinear_a_intervalo] reads the clock of
      the machine through the local time zone and is not modelled. *)

From Stdlib Require Import ZArith List String Ascii Bool Lia.
From Stdlib Require Import SpecFloat DecimalString Decimal.
From Stdlib Require Import Sorted Permutation.
From Stdlib Require DecimalPos.
Import ListNotations.

Open Scope string_scope.
Open Scope Z_scope.

(* ------------------------------------------------------------------ *)
(** ** Python strings *)

Module PyStr.

Definition code (c : ascii) : Z := Z.of_nat (nat_of_ascii c).

Definition between (lo hi : Z) (c : ascii) : bool :=
  (lo <=? code c) && (code c <=? hi).

(** [str.isspace] on ASCII: TAB..CR, FS..US and the blank. *)
Definition is_space (c : ascii) : bool :=
  between 9 13 c || between 28 32 c.

(** [\d] *)
Definition is_digit (c : ascii) : bool := between 48 57 c.

Definition is_upper (c : ascii) : bool := between 65 90 c.
Definition is_lower (c : ascii) : bool := between 97 122 c.

(** [\w] *)
Definition is_word (c : ascii) : bool :=
  is_digit c || is_upper c || is_lower c || (code c =? 95).

Definition lower_char (c : ascii) : ascii :=
  if is_upper c then ascii_of_nat (nat_of_ascii c + 32) else c.

(** [s.lower()] *)
Fixpoint lower (s : string) : string :=
  match s with
  | EmptyString => EmptyString
  | String c t => String (lower_char c) (lower t)
  end.

Fixpoint rev_onto (s acc : string) : string :=
  match s with
  | EmptyString => acc
  | String c t => rev_onto t (String c acc)
  end.

Definition rev (s : string) : string := rev_onto s EmptyString.

(** The longest prefix whose characters satisfy [p], and what follows it. *)
Fixpoint span (p : ascii -> bool) (s : string) : string * string :=
  match s with
  | EmptyString => (EmptyString, EmptyString)
  | String c t =>
      if p c then let (a, b) := span p t in (String c a, b)
      else (EmptyString, s)
  end.

Definition lstrip (s : string) : string := snd (span is_space s).
Definition rstrip (s : string) : string := rev (lstrip (rev s)).

(** [s.strip()] *)
Definition strip (s : string) : string := rstrip (lstrip s).

(** [s[:n]] *)
Fixpoint take (n : nat) (s : string) : string :=
  match n, s with
  | O, _ => EmptyString
  | _, EmptyString => EmptyString
  | S k, String c t => String c (take k t)
  end.

(** [s.replace(c, by)] for a one-character pattern; with [by] of length one it
    is also [re.sub] of a character class given by [p]. *)
Fixpoint subst_chars (p : ascii -> bool) (by_ : string) (s : string) : string :=
  match s with
  | EmptyString => EmptyString
  | String c t =>
      if p c then by_ ++ subst_chars p by_ t
      else String c (subst_chars p by_ t)
  end.

(** Truth value of a string: [""] is false. *)
Definition truthy (s : string) : bool :=
  match s with EmptyString => false | _ => true end.

(** [a or b] on strings. *)
Definition or_else (a b : string) : string := if truthy a then a else b.

(** Code-point order on strings, which on UTF-8 bytes is the byte order. *)
Fixpoint leb (a b : string) : bool :=
  match a, b with
  | EmptyString, _ => true
  | String _ _, EmptyString => false
  | String x a', String y b' =>
      if code x <? code y then true
      else if code y <? code x then false
      else leb a' b'
  end.

(** Matches the literal [lit] ignoring case at the head of [s]; the rest of
    [s] on success.  [lit] is given in lower case. *)
Fixpoint match_ci (lit s : string) : option string :=
  match lit with
  | EmptyString => Some s
  | String l lit' =>
      match s with
      | EmptyString => None
      | String c t =>
          if Ascii.eqb (lower_char c) l then match_ci lit' t else None
      end
  end.

(** [\b] after a word character: the text ends or a non-word character
    follows. *)
Definition word_end (rest : string) : bool :=
  match rest with
  | EmptyString => true
  | String c _ => negb (is_word c)
  end.

(** [re.search]: the match attempted at every position from the left, the
    first success wins. *)
Fixpoint search {A : Type} (at_ : string -> option A) (s : string) : option A :=
  match at_ s with
  | Some x => Some x
  | None =>
      match s with
      | EmptyString => None
      | String _ t => search at_ t
      end
  end.

Definition digit_val (c : ascii) : Z := code c - 48.

(** [int(ds)] for a run of ASCII digits. *)
Definition int_of_digits (ds : string) : Z :=
  (fix go (s : string) (acc : Z) : Z :=
     match s with
     | EmptyString => acc
     | String c t => go t (10 * acc + digit_val c)
     end) ds 0.

(** [str(n)] for an integer. *)
Definition str_of_Z (n : Z) : string := NilZero.string_of_int (Z.to_int n).

Fixpoint zeros (n : nat) : string :=
  match n with
  | O => EmptyString
  | S k => String "0" (zeros k)
  end.

Definition zfill (w : nat) (ds : string) : string :=
  zeros (w - String.length ds) ++ ds.

(** [f"{n:0wd}"]: the sign first, then the digits padded with zeros to the
    width that is left. *)
Definition fmt_0d (w : nat) (n : Z) : string :=
  if n <? 0 then "-" ++ zfill (w - 1) (str_of_Z (Z.abs n))
  else zfill w (str_of_Z n).

End PyStr.

(* ------------------------------------------------------------------ *)
(** ** Python floats *)

Module PyFloat.

Definition float : Type := spec_float.

Definition prec : Z := 53.
Definition emax : Z := 1024.

Definition fdiv (x y : float) : float := SFdiv prec emax x y.
Definition fmul (x y : float) : float := SFmul prec emax x y.

(** The double nearest to [n / d] (ties to even), for naturals [n], [d > 0]. *)
Definition of_ratio (n d : Z) : float :=
  match n, d with
  | Zpos p, Zpos q => fdiv (S754_finite false p 0) (S754_finite false q 0)
  | _, _ => S754_zero false
  end.

Definition of_Z (n : Z) : float := of_ratio n 1.


(** [x <= y] and [x > y] of Python, false when either side is a NaN. *)
Definition le (x y : float) : bool := SFleb x y.
Definition gt (x y : float) : bool := SFltb y x.

(** [float(s)] for [s] made of digits and dots, the only strings the
    parsers hand to it: [digits [. digits]] with a digit somewhere, rounded to
    the nearest double; anything else is the [ValueError] ([None]). *)
Definition float_of_str (s : string) : option float :=
  let (ip, r) := PyStr.span PyStr.is_digit s in
  let fp_rest :=
    match r with
    | EmptyString => Some EmptyString
    | String c t =>
        if Ascii.eqb c "." then
          let (fp, r') := PyStr.span PyStr.is_digit t in
          match r' with EmptyString => Some fp | _ => None end
        else None
    end in
  match fp_rest with
  | None => None
  | Some fp =>
      match ip ++ fp with
      | EmptyString => None
      | ds =>
          Some (of_ratio (PyStr.int_of_digits ds)
                         (10 ^ Z.of_nat (String.length fp)))
      end
  end.

(** [round(x)] on a float: the nearest integer, ties to the even one;
    [None] is the [OverflowError] on an infinity and the [ValueError] on a
    NaN. *)
Definition round_half_even (x : float) : option Z :=
  match x with
  | S754_zero _ => Some 0
  | S754_infinity _ => None
  | S754_nan => None
  | S754_finite s m e =>
      let a :=
        if 0 <=? e then Zpos m * 2 ^ e
        else
          let d := 2 ^ (- e) in
          let q := Zpos m / d in
          let r2 := 2 * (Zpos m mod d) in
          if r2 <? d then q
          else if d <? r2 then q + 1
          else if Z.even q then q else q + 1 in
      Some (if s then - a else a)
  end.

End PyFloat.

(* ------------------------------------------------------------------ *)
(** ** models.py *)

Module Models.

Import PyStr.

(** [TramoNorm]: one normalised segment.  [es_usual] is [Some true] for a
    watchlist segment, [Some false] for an unusual one, [None] for unknown. *)
Record TramoNorm : Type := mkTramoNorm {
  nombre : string;
  dist_km : option PyFloat.float;
  tiempo_min : option Z;
  tiempo_seg : option Z;
  tiempo_mmss : string;
  vel_kmh : option PyFloat.float;
  jam : option Z;
  es_usual : option bool;
  current_raw : string;
  historic_raw : string;
  dist_raw : string;
  raw : string
}.

Definition is_char (x : ascii) (c : ascii) : bool := Ascii.eqb c x.

(** [_sheet_forbidden]: the class of colon, backslash, slash, star, question
    mark and the two square brackets. *)
Definition _sheet_forbidden (c : ascii) : bool :=
  is_char ":" c || is_char "\" c || is_char "/" c || is_char "*" c
  || is_char "?" c || is_char "[" c || is_char "]" c.

(** [nombre_hoja_seguro]; [py_hash] is the interpreter's [hash] on strings. *)
Definition nombre_hoja_seguro (py_hash : string -> Z) (nombre_original : string)
  : string :=
  let base := strip nombre_original in
  let base := subst_chars (is_char "/") " /" (subst_chars (is_char ":") " -" base) in
  let base := subst_chars _sheet_forbidden " " base in
  let base := take 27 base in
  let suf := "_" ++ fmt_0d 3 (Z.abs (py_hash nombre_original) mod 1000) in
  take 31 (base ++ suf).

End Models.

(* ------------------------------------------------------------------ *)
(** ** analyzer.py *)

Module Analyzer.

Import PyStr Models.

(** One record of the extractor: the dictionary with keys [name], [current],
    [historic], [dist], [jam], [section_flag].  A missing or null text is the
    empty string, as [r.get(k) or ""] makes it. *)
Record RawRec : Type := mkRawRec {
  name : string;
  current : string;
  historic : string;
  dist : string;
  raw_jam : option Z;
  section_flag : string
}.

(** [(\d+)\s*min(?:utos)?\b] tried at the head of [s]; group 1 on success. *)
Definition minutos_at (s : string) : option string :=
  let (ds, r1) := span is_digit s in
  if truthy ds then
    let (_, r2) := span is_space r1 in
    match match_ci "min" r2 with
    | None => None
    | Some r3 =>
        match match_ci "utos" r3 with
        | Some r4 =>
            if word_end r4 then Some ds
            else if word_end r3 then Some ds else None
        | None => if word_end r3 then Some ds else None
        end
    end
  else None.

Definition is_num_char (c : ascii) : bool :=
  is_digit c || is_char "." c || is_char "," c.

(** [([\d.,]+)\s*km/?h] tried at the head of [s]. *)
Definition kmh_at (s : string) : option string :=
  let (g, r1) := span is_num_char s in
  if truthy g then
    let (_, r2) := span is_space r1 in
    match match_ci "km" r2 with
    | None => None
    | Some r3 =>
        let sin_barra := match match_ci "h" r3 with Some _ => Some g | None => None end in
        match match_ci "/" r3 with
        | Some r4 =>
            match match_ci "h" r4 with
            | Some _ => Some g
            | None => sin_barra
            end
        | None => sin_barra
        end
    end
  else None.

(** [([\d.,]+)\s*km\b] tried at the head of [s]. *)
Definition km_at (s : string) : option string :=
  let (g, r1) := span is_num_char s in
  if truthy g then
    let (_, r2) := span is_space r1 in
    match match_ci "km" r2 with
    | None => None
    | Some r3 => if word_end r3 then Some g else None
    end
  else None.

Definition coma_a_punto (s : string) : string :=
  subst_chars (is_char ",") "." s.

Definition _parse_minutos (texto : string) : option Z :=
  if truthy texto then
    match search minutos_at texto with
    | None => None
    | Some g => Some (int_of_digits g)
    end
  else None.

Definition _parse_vel_kmh (texto : string) : option PyFloat.float :=
  if truthy texto then
    match search kmh_at texto with
    | None => None
    | Some g => PyFloat.float_of_str (coma_a_punto g)
    end
  else None.

Definition _parse_stat_to_min_vel (texto : string)
  : option Z * option PyFloat.float :=
  if truthy texto then (_parse_minutos texto, _parse_vel_kmh texto)
  else (None, None).

Definition _parse_dist_km (texto : string) : option PyFloat.float :=
  if truthy texto then
    match search km_at texto with
    | None => None
    | Some g => PyFloat.float_of_str (coma_a_punto g)
    end
  else None.

Definition f3600 : PyFloat.float := Eval vm_compute in PyFloat.of_Z 3600.
Definition f0 : PyFloat.float := S754_zero false.

(** [f"{mm:02d}:{ss:02d}"] of a number of seconds. *)
Definition mmss (total_seg : Z) : string :=
  fmt_0d 2 (total_seg / 60) ++ ":" ++ fmt_0d 2 (total_seg mod 60).

(** [_tiempo_desde_dist_y_vel]: the exception that [round] raises on an
    infinity or a NaN is caught by the function and gives [(None, "")]. *)
Definition _tiempo_desde_dist_y_vel
  (dist_km vel_kmh : option PyFloat.float) : option Z * string :=
  match dist_km, vel_kmh with
  | Some d, Some v =>
      if PyFloat.le v f0 then (None, "")
      else
        let horas := PyFloat.fdiv d v in
        match PyFloat.round_half_even (PyFloat.fmul horas f3600) with
        | Some total_seg => (Some total_seg, mmss total_seg)
        | None => (None, "")
        end
  | _, _ => (None, "")
  end.

(** The category from the panel flag: [flag = section_flag.strip().lower()]. *)
Definition clasificar (flag_raw : string) : option bool :=
  let flag := lower (strip flag_raw) in
  if String.eqb flag "unusual" then Some false
  else if String.eqb flag "watch" then Some true
  else None.

(** [a if a is not None else b] *)
Definition first_some {A : Type} (a b : option A) : option A :=
  match a with Some _ => a | None => b end.

(** The dedup key of a record, from its stripped texts. *)
Definition clave (r : RawRec) : string :=
  let curr := strip (current r) in
  let hist := strip (historic r) in
  let clave_curr := if truthy curr then curr else or_else hist "" in
  strip (name r) ++ "||" ++ strip (dist r) ++ "||" ++ clave_curr.

(** The body of the loop of [detect_all] after the two [continue]s: the
    [TramoNorm] built from one raw record. *)
Definition normalizar (r : RawRec) : TramoNorm :=
  let name := strip (name r) in
  let dist_raw := strip (dist r) in
  let curr := strip (current r) in
  let hist := strip (historic r) in
  let es_usual := clasificar (section_flag r) in
  let '(min_c, vel_c) := _parse_stat_to_min_vel curr in
  let '(min_h, vel_h) := _parse_stat_to_min_vel hist in
  let minutos := first_some min_c min_h in
  let vel := first_some vel_c vel_h in
  let d_km := _parse_dist_km dist_raw in
  let '(tiempo_seg, tiempo_mmss) :=
    match minutos with
    | Some m => (Some (m * 60), fmt_0d 2 m ++ ":00")
    | None => _tiempo_desde_dist_y_vel d_km vel
    end in
  let raw := name ++ " | " ++ strip (or_else curr (or_else hist ""))
             ++ " | " ++ dist_raw ++ " | tiempo=" ++ or_else tiempo_mmss "--:--" in
  mkTramoNorm name d_km minutos tiempo_seg (or_else tiempo_mmss "") vel
              (raw_jam r) es_usual curr hist dist_raw raw.

Definition visto (k : string) (vistos : list string) : bool :=
  existsb (String.eqb k) vistos.

(** One turn of the loop over [brut], on the pair [(vistos, lista)]. *)
Definition paso (acc : list string * list TramoNorm) (r : RawRec)
  : list string * list TramoNorm :=
  let '(vistos, lista) := acc in
  if negb (truthy (strip (name r))) then acc
  else if visto (clave r) vistos then acc
  else (clave r :: vistos, (lista ++ [normalizar r])%list).

(** [TrafficDetector.detect_all] from the extracted records on. *)
Definition detect_all (brut : list RawRec) : list TramoNorm :=
  snd (fold_left paso brut ([], [])).

End Analyzer.

(* ------------------------------------------------------------------ *)
(** ** storage.py *)

Module Storage.

Import PyStr Models.

(** *** The workbook *)

Inductive cell : Type :=
| CStr (s : string)
| CInt (n : Z)
| CFloat (x : PyFloat.float).

Definition row : Type := list cell.

(** A sheet: its title and its rows, oldest first: the rows it was loaded
    with and the rows that [append] has completed since (rows 1 to the row
    counter of openpyxl).  The row numbers are not part of the model, nor
    are the cells that a refused [append] leaves past the counter, which the
    next [append] to the sheet writes over. *)
Record Sheet : Type := mkSheet { title : string; rows : list row }.

(** [wb._sheets] *)
Definition Workbook : Type := list Sheet.

(** [wb.sheetnames] *)
Definition sheetnames (w : Workbook) : list string := map title w.

Definition mem (t : string) (l : list string) : bool := existsb (String.eqb t) l.

(** [wb[t]] *)
Fixpoint get_sheet (t : string) (w : Workbook) : option Sheet :=
  match w with
  | [] => None
  | sh :: w' => if String.eqb (title sh) t then Some sh else get_sheet t w'
  end.

(** [l.insert(i, x)] *)
Definition insert_at {A : Type} (i : nat) (x : A) (l : list A) : list A :=
  (firstn i l ++ x :: skipn i l)%list.

(** [wb.create_sheet(t, index)], for a valid title that no sheet carries
    yet, in any case of its letters: openpyxl then keeps the title as given
    (it adds a number to a title that is there in another case). *)
Definition create_sheet (t : string) (index : option nat) (w : Workbook)
  : Workbook :=
  match index with
  | None => (w ++ [mkSheet t []])%list
  | Some i => insert_at i (mkSheet t []) w
  end.

Definition append_row (t : string) (r : row) (w : Workbook) : Workbook :=
  map (fun sh => if String.eqb (title sh) t
                 then mkSheet (title sh) (rows sh ++ [r])%list else sh) w.

(** [l.remove(ws)]: the first sheet that is [ws]; sheets are told apart by
    their titles. *)
Fixpoint remove_first (t : string) (w : Workbook) : Workbook :=
  match w with
  | [] => []
  | sh :: w' => if String.eqb (title sh) t then w' else sh :: remove_first t w'
  end.

(** [[s for s in current if s is not ws]] *)
Definition without (t : string) (w : Workbook) : Workbook :=
  filter (fun sh => negb (String.eqb (title sh) t)) w.

(** The characters openpyxl refuses in a cell: the C0 controls other than
    TAB, LF and CR. *)
Definition illegal_char (c : ascii) : bool :=
  between 0 8 c || between 11 12 c || between 14 31 c.

Fixpoint has_illegal (s : string) : bool :=
  match s with
  | EmptyString => false
  | String c t => illegal_char c || has_illegal t
  end.

Definition cell_illegal (c : cell) : bool :=
  match c with CStr s => has_illegal s | _ => false end.

Definition row_illegal (r : row) : bool := existsb cell_illegal r.

Definition inus_name : string := "Tráfico inusual".
Definition desc_name : string := "Desconocidos".

Definition encabezados : row :=
  [CStr "Fecha"; CStr "Hora"; CStr "Tramo"; CStr "Tiempo (MM:SS)";
   CStr "Tiempo (s)"; CStr "Velocidad (km/h)"; CStr "Distancia (km)"].

(** [list.sort(key=lambda x: x.lower())]: stable, by the lower-cased title. *)
Definition key_lt (a b : string) : bool := negb (PyStr.leb (lower b) (lower a)).

Fixpoint insert_sorted (x : string) (l : list string) : list string :=
  match l with
  | [] => [x]
  | y :: l' => if key_lt y x then y :: insert_sorted x l' else x :: l
  end.

Definition sort_lower (l : list string) : list string :=
  fold_right insert_sorted [] l.

(** [l.index(x)] for an [x] that occurs in [l]. *)
Fixpoint index_of (x : string) (l : list string) : nat :=
  match l with
  | [] => O
  | y :: l' => if String.eqb y x then O else S (index_of x l')
  end.

Definition es_watchlist (s : string) : bool :=
  negb (String.eqb s inus_name || String.eqb s desc_name).

(** *** The process state *)

(** A line of the WAL file: the JSON text of one record, a line of blanks, or
    a text [json.loads] refuses. *)
Inductive wal_line : Type :=
| JsonLine (t : TramoNorm)
| BlankLine
| BadLine.

Inductive exn : Type :=
| TypeError | KeyError | ValueError | AttributeError
| IllegalCharacterError | OSError.

Inductive event : Type :=
| EvWalWrite (n : nat)
| EvMark
| EvClear
| EvAppend (t : string) (r : row)
| EvSave (ok : bool)
| EvSleep (s : PyFloat.float).

(** [_wal_paths_for]: the WAL file and the commit marker of a workbook path.
    The directory that the function also creates is not part of the state
    below. *)
Definition _wal_paths_for (excel_path : string) : string * string :=
  let wal := excel_path ++ ".wal.jsonl" in
  (wal, wal ++ ".commit").

(** The two globals of the module ([wb], [archivo_excel]); the content of the
    two side files of that path when they exist; the workbook file as last
    saved; what the coming calls of [workbook.save]/[os.replace] will do
    ([true]: succeed; past the end of the list they succeed); and the effects
    so far, oldest first.  Reading, writing and deleting the side files
    always go through. *)
Record World : Type := mkWorld {
  wb : option Workbook;
  archivo_excel : option string;
  wal_file : option (list wal_line);
  mark_file : option string;
  disk : option Workbook;
  saves : list bool;
  log : list event
}.

Definition set_wb (w : option Workbook) (st : World) : World :=
  mkWorld w (archivo_excel st) (wal_file st) (mark_file st) (disk st) (saves st) (log st).
Definition set_wal (x : option (list wal_line)) (st : World) : World :=
  mkWorld (wb st) (archivo_excel st) x (mark_file st) (disk st) (saves st) (log st).
Definition set_mark (x : option string) (st : World) : World :=
  mkWorld (wb st) (archivo_excel st) (wal_file st) x (disk st) (saves st) (log st).
Definition set_disk (x : option Workbook) (st : World) : World :=
  mkWorld (wb st) (archivo_excel st) (wal_file st) (mark_file st) x (saves st) (log st).
Definition set_saves (x : list bool) (st : World) : World :=
  mkWorld (wb st) (archivo_excel st) (wal_file st) (mark_file st) (disk st) x (log st).
Definition add_log (e : event) (st : World) : World :=
  mkWorld (wb st) (archivo_excel st) (wal_file st) (mark_file st) (disk st) (saves st)
          (log st ++ [e])%list.

(** A call either returns or raises, and leaves a state either way. *)
Inductive result (A : Type) : Type :=
| Ok (a : A)
| Raise (e : exn).
Arguments Ok {A} a.
Arguments Raise {A} e.

Definition M (A : Type) : Type := World -> result A * World.

Definition ret {A : Type} (a : A) : M A := fun st => (Ok a, st).
Definition raise {A : Type} (e : exn) : M A := fun st => (Raise e, st).
Definition bind {A B : Type} (m : M A) (k : A -> M B) : M B :=
  fun st => match m st with
            | (Ok a, st') => k a st'
            | (Raise e, st') => (Raise e, st')
            end.

Notation "x <- m ;; k" := (bind m (fun x => k))
  (at level 61, m at next level, right associativity).
Notation "m ;;; k" := (bind m (fun _ => k))
  (at level 61, right associativity).

(** [try: m  except Exception as e: h e] *)
Definition try_except {A : Type} (m : M A) (h : exn -> M A) : M A :=
  fun st => match m st with
            | (Ok a, st') => (Ok a, st')
            | (Raise e, st') => h e st'
            end.

(** [try: m  finally: fin] *)
Definition try_finally {A : Type} (m : M A) (fin : M unit) : M A :=
  fun st => match m st with
            | (r, st') =>
                match fin st' with
                | (Ok _, st'') => (r, st'')
                | (Raise e, st'') => (Raise e, st'')
                end
            end.

Definition modify (f : World -> World) : M unit := fun st => (Ok tt, f st).

(** The workbook behind the global [wb]; using [None] as a workbook is the
    [AttributeError]. *)
Definition get_wb : M Workbook :=
  fun st => match wb st with
            | Some w => (Ok w, st)
            | None => (Raise AttributeError, st)
            end.

Definition put_wb (w : Workbook) : M unit := modify (set_wb (Some w)).

(** [wb[t]], for its [KeyError] only: a sheet is named by its title. *)
Definition lookup (t : string) : M unit :=
  w <- get_wb ;;
  match get_sheet t w with
  | Some _ => ret tt
  | None => raise KeyError
  end.

(** Calling a function that has the parameters [params] with the keyword
    arguments [kwargs]: a keyword that is no parameter is the [TypeError]. *)
Definition call_kw {A : Type} (params kwargs : list string) (body : M A) : M A :=
  if forallb (fun k => mem k params) kwargs then body else raise TypeError.

(** [not archivo_excel] *)
Definition sin_ruta (st : World) : bool :=
  match archivo_excel st with
  | Some p => negb (truthy p)
  | None => true
  end.

(** *** The write-ahead log *)

(** The four helpers of the log.  [guardar_tramos] below calls none of them,
    and [recover_from_wal] only [_wal_clear]. *)
Definition _wal_write_transaction (tramos_norm : list TramoNorm) : M unit :=
  modify (fun st => add_log (EvWalWrite (List.length tramos_norm))
                      (set_wal (Some (map JsonLine tramos_norm)) st)).

Definition _wal_mark_committed : M unit :=
  modify (fun st => add_log EvMark (set_mark (Some "ok") st)).

Definition _wal_clear : M unit :=
  modify (fun st => add_log EvClear (set_mark None (set_wal None st))).

Definition set_workbook (workbook : Workbook) (excel_path : string) : M unit :=
  modify (fun st => mkWorld (Some workbook) (Some excel_path) (wal_file st)
                      (mark_file st) (disk st) (saves st) (log st)).

(** *** Saving *)

(** [atomic_save_workbook] of the global workbook: writes a temporary file
    and renames it over the target; the next outcome of [saves] says whether
    that goes through or raises. *)
Definition atomic_save_workbook (ruta : string) : M string :=
  if negb (truthy ruta) then raise ValueError
  else fun st =>
    match saves st with
    | false :: rest => (Raise OSError, add_log (EvSave false) (set_saves rest st))
    | true :: rest =>
        (Ok ruta, add_log (EvSave true) (set_saves rest (set_disk (wb st) st)))
    | [] => (Ok ruta, add_log (EvSave true) (set_disk (wb st) st))
    end.

Definition sleep (s : PyFloat.float) : M unit := modify (add_log (EvSleep s)).

(** The loop of [safe_save_workbook] with [resto] turns left to run: turn
    [i = intentos - resto], so that [i < intentos - 1] is [resto > 1]. *)
Fixpoint safe_save_turns (resto : nat) (ruta : string) (espera_s : PyFloat.float)
  : M string :=
  match resto with
  | O => ret ruta
  | S r =>
      try_except (atomic_save_workbook ruta)
        (fun e =>
           match r with
           | O => raise e
           | S _ => sleep espera_s ;;; safe_save_turns r ruta espera_s
           end)
  end.

Definition espera_def : PyFloat.float := Eval vm_compute in PyFloat.of_ratio 3 2.

Definition safe_save_workbook (ruta : string) (intentos : nat)
  (espera_s : PyFloat.float) : M string :=
  safe_save_turns intentos ruta espera_s.

(** *** Sheets *)

(** [ws.append(r)] on the sheet titled [t]: a row with an illegal character
    in one of its texts raises [IllegalCharacterError] and is not counted as
    appended. *)
Definition ws_append (t : string) (r : row) : M unit :=
  if row_illegal r then raise IllegalCharacterError
  else
    w <- get_wb ;;
    put_wb (append_row t r w) ;;;
    modify (add_log (EvAppend t r)).

(** [_poner_encabezados(ws)], [ws] being the sheet titled [t]: a sheet
    without rows (openpyxl: [max_row == 1] and every cell of row 1 empty)
    gets the header row. *)
Definition _poner_encabezados (t : string) : M unit :=
  w <- get_wb ;;
  match get_sheet t w with
  | Some sh =>
      match rows sh with
      | [] => ws_append t encabezados
      | _ :: _ => ret tt
      end
  | None => raise KeyError
  end.

(** [[wb[s] for s in names]] *)
Fixpoint pick_all (names : list string) (w : Workbook) : M Workbook :=
  match names with
  | [] => ret []
  | n :: ns =>
      match get_sheet n w with
      | Some sh => rest <- pick_all ns w ;; ret (sh :: rest)
      | None => raise KeyError
      end
  end.

Definition new_order_of (sheets : list string) : list string :=
  ([inus_name] ++ sort_lower (filter es_watchlist sheets)
   ++ (if mem desc_name sheets then [desc_name] else []))%list.

Definition _ordenar_hojas_watchlist : M unit :=
  fun st =>
    match wb st with
    | None => (Ok tt, st)
    | Some w0 =>
        ((if mem inus_name (sheetnames w0) then ret tt
          else put_wb (create_sheet inus_name (Some O) w0) ;;;
               _poner_encabezados inus_name) ;;;
         w <- get_wb ;;
         ordered <- pick_all (new_order_of (sheetnames w)) w ;;
         put_wb ordered) st
    end.

Definition _insertar_hoja_watchlist_en_posicion (title : string) : M unit :=
  fun st =>
    match wb st with
    | None => (Ok tt, st)
    | Some w0 =>
        (if mem title (sheetnames w0) then ret tt
         else
           let existing :=
             sort_lower (filter es_watchlist (sheetnames w0) ++ [title])%list in
           let target_index := S (index_of title existing) in
           put_wb (create_sheet title None w0) ;;;
           _poner_encabezados title ;;;
           w1 <- get_wb ;;
           match get_sheet title w1 with
           | None => raise KeyError
           | Some ws =>
               let current := insert_at target_index ws (remove_first title w1) in
               current <-
                 (if mem desc_name (sheetnames w1) then
                    match get_sheet desc_name w1 with
                    | Some ws_desc => ret (without desc_name current ++ [ws_desc])%list
                    | None => raise KeyError
                    end
                  else ret current) ;;
               match get_sheet inus_name w1 with
               | Some ws_inus => put_wb (insert_at O ws_inus (without inus_name current))
               | None => raise KeyError
               end
           end) st
    end.

(** *** Saving a batch *)

Record datetime : Type := mkDatetime {
  year : Z; month : Z; day : Z; hour : Z; minute : Z; second : Z
}.

(** [strftime("%d/%m/%Y")] and [strftime("%H:%M:%S")] *)
Definition fecha (d : datetime) : string :=
  fmt_0d 2 (day d) ++ "/" ++ fmt_0d 2 (month d) ++ "/" ++ fmt_0d 4 (year d).
Definition hora (d : datetime) : string :=
  fmt_0d 2 (hour d) ++ ":" ++ fmt_0d 2 (minute d) ++ ":" ++ fmt_0d 2 (second d).

(** The parameters of [guardar_tramos], by name. *)
Definition guardar_tramos_params : list string := ["tramos"].

Definition intentos_def : nat := 5.

Section Guardado.

(** [hash] of the interpreter on strings, and what [datetime.now()] gives. *)
Variable py_hash : string -> Z.
Variable ahora : datetime.

(** The row written for a record. *)
Definition fila (nombre : string) (t : TramoNorm) : row :=
  [CStr (fecha ahora);
   CStr (hora ahora);
   CStr nombre;
   CStr (or_else (or_else (tiempo_mmss t) "") "");
   match tiempo_seg t with Some n => CInt n | None => CStr "" end;
   match vel_kmh t with Some v => CFloat v | None => CStr "" end;
   match dist_km t with Some d => CFloat d | None => CStr "" end].

(** The [try] block of the loop, on the counters [(guardados, u, i)]. *)
Definition cuerpo (t : TramoNorm) (nombre : string) (c : Z * Z * Z)
  : M (Z * Z * Z) :=
  let '(guardados, u, i) := c in
  match es_usual t with
  | Some true =>
      let hoja := nombre_hoja_seguro py_hash nombre in
      w <- get_wb ;;
      (if mem hoja (sheetnames w) then ret tt
       else _insertar_hoja_watchlist_en_posicion hoja) ;;;
      lookup hoja ;;;
      _poner_encabezados hoja ;;;
      ws_append hoja (fila nombre t) ;;;
      ret (guardados + 1, u + 1, i)
  | Some false =>
      ws_append inus_name (fila nombre t) ;;;
      ret (guardados + 1, u, i + 1)
  | None =>
      w <- get_wb ;;
      (if mem desc_name (sheetnames w) then lookup desc_name
       else put_wb (create_sheet desc_name None w) ;;;
            _poner_encabezados desc_name) ;;;
      ws_append desc_name (fila nombre t) ;;;
      ret (guardados + 1, u, i)
  end.

(** [for t in tramos: try: ... except Exception: continue] *)
Fixpoint bucle (tramos : list TramoNorm) (c : Z * Z * Z) : M (Z * Z * Z) :=
  match tramos with
  | [] => ret c
  | t :: rest =>
      c' <- try_except (cuerpo t (strip (nombre t)) c) (fun _ => ret c) ;;
      bucle rest c'
  end.

Definition ruta_de (st : World) : string :=
  match archivo_excel st with Some p => p | None => "" end.

Definition guardar_tramos (tramos : list TramoNorm) : M (Z * Z * Z) :=
  fun st =>
    match wb st with
    | None => (Ok (0, 0, 0), st)
    | Some w0 =>
        if sin_ruta st then (Ok (0, 0, 0), st)
        else
          ((if mem inus_name (sheetnames w0) then ret tt
            else put_wb (create_sheet inus_name (Some O) w0)) ;;;
           _poner_encabezados inus_name ;;;
           w1 <- get_wb ;;
           (if mem desc_name (sheetnames w1) then _poner_encabezados desc_name
            else ret tt) ;;;
           c <- bucle tramos (0, 0, 0) ;;
           try_except
             (_ordenar_hojas_watchlist ;;;
              safe_save_workbook (ruta_de st) intentos_def espera_def ;;;
              ret tt)
             (fun _ => ret tt) ;;;
           ret c) st
    end.

(** [json.loads] over the lines of the WAL that are neither blank nor
    refused. *)
Definition leer_wal (lines : list wal_line) : list TramoNorm :=
  flat_map (fun l => match l with JsonLine t => [t] | _ => [] end) lines.

(** [recover_from_wal], on a WAL that can be read: [wal_file st] holds its
    lines as they were decoded.  (On a file that cannot be read the code
    returns at once and leaves it in place.) *)
Definition recover_from_wal : M unit :=
  fun st =>
    if sin_ruta st then (Ok tt, st)
    else
      match wal_file st with
      | None => (Ok tt, st)
      | Some lines =>
          match mark_file st with
          | Some _ => _wal_clear st
          | None =>
              match leer_wal lines with
              | [] => _wal_clear st
              | tramos =>
                  try_finally
                    (call_kw guardar_tramos_params ["_skip_wal"]
                       (guardar_tramos tramos) ;;; ret tt)
                    _wal_clear st
              end
          end
      end.

End Guardado.

End Storage.

(* ------------------------------------------------------------------ *)
(** ** models.py: the schedule *)

Module Horario.

Import PyStr.

(** The fields of [AppConfig] that the schedule reads. *)
Record AppConfig : Type := mkAppConfig {
  modo_247 : bool;
  hora_ini_h : Z;
  hora_ini_m : Z;
  hora_fin_h : Z;
  hora_fin_m : Z
}.

Definition hora_ini_tuple (cfg : AppConfig) : Z * Z :=
  (hora_ini_h cfg mod 24, hora_ini_m cfg mod 60).

Definition hora_fin_tuple (cfg : AppConfig) : Z * Z :=
  (hora_fin_h cfg mod 24, hora_fin_m cfg mod 60).

(** A naive [datetime]: its date as the proleptic Gregorian ordinal
    ([date.toordinal()], day 1 being 1 January of year 1), and its time of
    day. *)
Record datetime : Type := mkDatetime {
  ordinal : Z;
  hour : Z;
  minute : Z;
  second : Z;
  microsecond : Z
}.

(** [date.max.toordinal()], 31 December 9999. *)
Definition max_ordinal : Z := 3652059.

(** The order of [datetime]: by date, then hour, minute, second and
    microsecond. *)
Definition dt_cmp (a b : datetime) : comparison :=
  match ordinal a ?= ordinal b with
  | Eq =>
      match hour a ?= hour b with
      | Eq =>
          match minute a ?= minute b with
          | Eq =>
              match second a ?= second b with
              | Eq => microsecond a ?= microsecond b
              | c => c
              end
          | c => c
          end
      | c => c
      end
  | c => c
  end.

Definition dt_le (a b : datetime) : bool :=
  match dt_cmp a b with Gt => false | _ => true end.
Definition dt_lt (a b : datetime) : bool :=
  match dt_cmp a b with Lt => true | _ => false end.

(** [base.replace(hour=hh, minute=mm, second=0, microsecond=0)], for an hour
    and a minute within their ranges. *)
Definition _dt_con_hora (base : datetime) (hh mm : Z) : datetime :=
  mkDatetime (ordinal base) hh mm 0 0.

(** [dt + timedelta(days=1)]; [None] is the [OverflowError] past the last
    date. *)
Definition mas_un_dia (dt : datetime) : option datetime :=
  if ordinal dt <? max_ordinal
  then Some (mkDatetime (ordinal dt + 1) (hour dt) (minute dt) (second dt)
                        (microsecond dt))
  else None.

Definition esta_dentro_horario (cfg : AppConfig) (dt : datetime) : bool :=
  if modo_247 cfg then true
  else
    let '(ih, im) := hora_ini_tuple cfg in
    let '(fh, fm) := hora_fin_tuple cfg in
    let hi := _dt_con_hora dt ih im in
    let hf := _dt_con_hora dt fh fm in
    if dt_le hi hf then dt_le hi dt && dt_lt dt hf
    else negb (dt_le hf dt && dt_lt dt hi).

Definition tuple_eqb (a b : Z * Z) : bool :=
  (fst a =? fst b) && (snd a =? snd b).

Definition proximo_inicio_desde (cfg : AppConfig) (dt : datetime)
  : option datetime :=
  let '(hi_h, hi_m) := hora_ini_tuple cfg in
  if esta_dentro_horario cfg dt then Some dt
  else if tuple_eqb (hi_h, hi_m) (hora_fin_tuple cfg) then
    match mas_un_dia dt with
    | Some d => Some (_dt_con_hora d hi_h hi_m)
    | None => None
    end
  else if dt_lt dt (_dt_con_hora dt hi_h hi_m) then Some (_dt_con_hora dt hi_h hi_m)
  else
    match mas_un_dia dt with
    | Some d => Some (_dt_con_hora d hi_h hi_m)
    | None => None
    end.

(** [fmt_restante]; [gui._fmt_restante] is the same function. *)
Definition fmt_restante (segundos : Z) : string :=
  let segundos := if segundos <? 0 then 0 else segundos in
  let h := segundos / 3600 in
  let rem := segundos mod 3600 in
  let m := rem / 60 in
  let s := rem mod 60 in
  if h =? 0 then fmt_0d 2 m ++ ":" ++ fmt_0d 2 s
  else fmt_0d 2 h ++ ":" ++ fmt_0d 2 m ++ ":" ++ fmt_0d 2 s.

End Horario.

(* ------------------------------------------------------------------ *)
(** ** gui.py and analyzer.py: the capture as its callers run it *)

Module Captura.

Import PyStr Models Analyzer Storage.

(** What [_clasif_from_raw] reads of a dictionary: the texts under
    "section_flag" and "section" ([None] when the key is missing or its
    value is [None]), and under "es_usual" the value when it is [True] or
    [False] ([None] when the key is missing or holds anything else). *)
Record Item : Type := mkItem {
  it_section_flag : option string;
  it_section : option string;
  it_es_usual : option bool
}.

(** [x or y] with [x] a text or [None]. *)
Definition texto_o (x : option string) (y : string) : string :=
  match x with
  | Some s => or_else s y
  | None => y
  end.

Definition _clasif_from_raw (item : Item) : option bool :=
  let flag :=
    lower (strip (texto_o (it_section_flag item) (texto_o (it_section item) ""))) in
  if String.eqb flag "unusual" then Some false
  else if String.eqb flag "watch" then Some true
  else it_es_usual item.

(** [t.__dict__] of a [TramoNorm], as [_clasif_from_raw] reads it. *)
Definition dict_de_tramo (t : TramoNorm) : Item :=
  mkItem None None (es_usual t).

(** A record of the extractor, as [_clasif_from_raw] reads it. *)
Definition dict_de_crudo (r : RawRec) : Item :=
  mkItem (Some (section_flag r)) None None.

(** [sum(1 for t in tramos if p(t))] *)
Definition cuenta (p : TramoNorm -> bool) (tramos : list TramoNorm) : Z :=
  Z.of_nat (List.length (filter p tramos)).

Definition es_True (t : TramoNorm) : bool :=
  match es_usual t with Some true => true | _ => false end.
Definition es_False (t : TramoNorm) : bool :=
  match es_usual t with Some false => true | _ => false end.
Definition es_None (t : TramoNorm) : bool :=
  match es_usual t with None => true | _ => false end.

(** [analyzer.capture_and_save], from the records that [detect_all] gives:
    it counts, and saves nothing. *)
Definition capture_and_save (brut : list RawRec) : Z * Z * Z :=
  let tramos := detect_all brut in
  let usuales := cuenta es_True tramos in
  let inusuales := cuenta es_False tramos in
  let guardados := usuales + inusuales in
  (guardados, usuales, inusuales).

Section Ejecucion.

Variable py_hash : string -> Z.
Variable ahora : Storage.datetime.

(** [gui._captura_ejecucion], from the extracted records on and without
    what it shows: the records of [detect_all], the count of the unknown
    ones, then [guardar_tramos]. *)
Definition _captura_ejecucion (brut : list RawRec) : M (Z * Z * Z * Z) :=
  let tramos_crudos := detect_all brut in
  let desconocidos := cuenta es_None tramos_crudos in
  c <- guardar_tramos py_hash ahora tramos_crudos ;;
  let '(guardados, cont_usuales, cont_inusuales) := c in
  ret (guardados, cont_usuales, cont_inusuales, desconocidos).

End Ejecucion.

End Captura.

(* ------------------------------------------------------------------ *)
(** * What the statements speak of *)

Module AnalyzerTerms.

Import PyStr Models Analyzer.

(** The fields of [normalizar r] that the duration rules speak of. *)
Definition minutos_de (r : RawRec) : option Z :=
  first_some (fst (_parse_stat_to_min_vel (strip (current r))))
             (fst (_parse_stat_to_min_vel (strip (historic r)))).

(** The speed, from the current text or else the historic one. *)
Definition vel_de (r : RawRec) : option PyFloat.float :=
  first_some (snd (_parse_stat_to_min_vel (strip (current r))))
             (snd (_parse_stat_to_min_vel (strip (historic r)))).

(** The two duration fields. *)
Definition duracion_de (r : RawRec) : option Z * string :=
  match minutos_de r with
  | Some m => (Some (m * 60), fmt_0d 2 m ++ ":00")
  | None => _tiempo_desde_dist_y_vel (_parse_dist_km (strip (dist r))) (vel_de r)
  end.

(** Raw records for the examples. *)
Definition tramo_12min : RawRec := mkRawRec "Ave X" "12 min" "" "4.5 km" None "watch".
Definition tramo_30kmh : RawRec := mkRawRec "Ave Y" "30 km/h" "" "4.5 km" None "".
Definition tramo_parado : RawRec := mkRawRec "Ave Z" "0 km/h" "" "4.5 km" None "".
Definition tramo_sin_dist : RawRec := mkRawRec "Ave W" "30 km/h" "" "" None "".

(** The records that [detect_all] keeps, as a recursion on the batch: the
    loop of [paso] without its accumulator of results. *)
Fixpoint dedup (vistos : list string) (brut : list RawRec) : list RawRec :=
  match brut with
  | [] => []
  | r :: rest =>
      if negb (truthy (strip (name r))) then dedup vistos rest
      else if visto (clave r) vistos then dedup vistos rest
      else r :: dedup (clave r :: vistos) rest
  end.

(** The first record of the batch, in capture order, that has a name and the
    key [k]. *)
Definition primera (brut : list RawRec) (k : string) : option RawRec :=
  find (fun x => truthy (strip (name x)) && String.eqb (clave x) k) brut.

(** The key as read off a normalised record. *)
Definition clave_tramo (t : TramoNorm) : string :=
  nombre t ++ "||" ++ dist_raw t ++ "||"
  ++ (if truthy (current_raw t) then current_raw t else or_else (historic_raw t) "").

(** [l1] is [l2] with some elements left out, the others in their order. *)
Inductive Subseq {A : Type} : list A -> list A -> Prop :=
| Subseq_nil : Subseq [] []
| Subseq_skip (x : A) (l1 l2 : list A) : Subseq l1 l2 -> Subseq l1 (x :: l2)
| Subseq_keep (x : A) (l1 l2 : list A) : Subseq l1 l2 -> Subseq (x :: l1) (x :: l2).

Definition tramo_repetido : RawRec := mkRawRec "Ave X" "12 min" "" "4.5 km" (Some 3) "watch".
Definition tramo_otro : RawRec := mkRawRec "Ave Y" "30 km/h" "" "2 km" None "unusual".

Definition tramo_sin_nombre : RawRec := mkRawRec "  " "12 min" "" "4.5 km" None "watch".
Definition tramo_a : RawRec := mkRawRec "a||b" "x" "" "c" None "watch".
Definition tramo_b : RawRec := mkRawRec "a" "x" "" "b||c" None "watch".

End AnalyzerTerms.

Module StorageTerms.

Import PyStr Models Storage.

Local Open Scope list_scope.

(** The order of the titles: by the titles in lower case. *)
Definition key_le (a b : string) : Prop := PyStr.leb (lower a) (lower b) = true.

(** [m] relates the state it starts in to the state it leaves, whether it
    returns or raises. *)
Definition preserves {A : Type} (R : World -> World -> Prop) (m : M A) : Prop :=
  forall st r st', m st = (r, st') -> R st st'.

(** A relation between states that can be followed along a run. *)
Class Marco (R : World -> World -> Prop) : Prop := {
  marco_refl : forall st, R st st;
  marco_trans : forall a b c, R a b -> R b c -> R a c
}.

(** An effect that is none on the side files. *)
Definition sin_wal (e : event) : Prop :=
  match e with
  | EvWalWrite _ | EvMark | EvClear => False
  | _ => True
  end.

(** What the operations on sheets leave as it was: the path, the two side
    files, the saved file and the coming outcomes of saving; a workbook stays
    a workbook, and the effects added are none on the side files. *)
Definition hojas (st st' : World) : Prop :=
  archivo_excel st' = archivo_excel st
  /\ wal_file st' = wal_file st
  /\ mark_file st' = mark_file st
  /\ disk st' = disk st
  /\ saves st' = saves st
  /\ (wb st <> None -> wb st' <> None)
  /\ exists evs, log st' = log st ++ evs /\ Forall sin_wal evs.

(** The same without the saved file and the outcomes of saving. *)
Definition lado_wal (st st' : World) : Prop :=
  archivo_excel st' = archivo_excel st
  /\ wal_file st' = wal_file st
  /\ mark_file st' = mark_file st
  /\ (wb st <> None -> wb st' <> None)
  /\ exists evs, log st' = log st ++ evs /\ Forall sin_wal evs.

(** What saving leaves as it was: the workbook in memory, the path and the
    two side files; the effects added are none on the side files. *)
Definition guardado (st st' : World) : Prop :=
  wb st' = wb st
  /\ archivo_excel st' = archivo_excel st
  /\ wal_file st' = wal_file st
  /\ mark_file st' = mark_file st
  /\ exists evs, log st' = log st ++ evs /\ Forall sin_wal evs.


(** The unknown records of a batch whose rows the workbook takes. *)
Definition desconocido_legal (ahora : datetime) (t : TramoNorm) : bool :=
  match es_usual t with
  | None => negb (row_illegal (fila ahora (strip (nombre t)) t))
  | Some _ => false
  end.

(** Their number. *)
Definition desconocidos_guardados (ahora : datetime) (tramos : list TramoNorm) : Z :=
  Z.of_nat (List.length (filter (desconocido_legal ahora) tramos)).

(** An example clock (3 May 2024, 09:07:00), an example hash, the workbook
    that the application creates, and the record of "Ave X". *)
Definition ahora_ej : datetime := mkDatetime 2024 5 3 9 7 0.
Definition hash_ej (s : string) : Z := 0.

Definition libro_ej : Workbook := [mkSheet inus_name [encabezados]].

Definition tramo_ej : TramoNorm :=
  Analyzer.normalizar (Analyzer.mkRawRec "Ave X" "12 min" "" "4.5 km" None "watch").

(** A state with a workbook and a path, a WAL of one record and a marker. *)
Definition mundo_con_marca : World :=
  mkWorld (Some libro_ej) (Some "Captura_Waze.xlsx")
          (Some [JsonLine tramo_ej]) (Some "ok") (Some libro_ej) [] [].

(** The same without WAL. *)
Definition mundo_limpio : World :=
  mkWorld (Some libro_ej) (Some "Captura_Waze.xlsx") None None (Some libro_ej) [] [].

(** A state with a workbook and a path, and what a crash between "WAL
    written" and "marker written" leaves: a WAL of one record, no marker. *)
Definition mundo_tras_caida : World :=
  mkWorld (Some libro_ej) (Some "Captura_Waze.xlsx")
          (Some [JsonLine tramo_ej]) None (Some libro_ej) [] [].


(** Three decimal digits. *)
Definition tres_digitos (d : string) : bool :=
  match d with
  | String a (String b (String c EmptyString)) =>
      is_digit a && is_digit b && is_digit c
  | _ => false
  end.

(** The part of a sheet name before the suffix. *)
Definition base_de (nombre_original : string) : string :=
  take 27
    (subst_chars _sheet_forbidden " "
       (subst_chars (is_char "/") " /"
          (subst_chars (is_char ":") " -" (strip nombre_original)))).

(** The three digits after the underscore. *)
Definition sufijo_de (py_hash : string -> Z) (nombre_original : string) : string :=
  fmt_0d 3 (Z.abs (py_hash nombre_original) mod 1000).


(** Equality tests, to check a run by computation. *)
Definition float_eqb (x y : PyFloat.float) : bool :=
  match x, y with
  | S754_zero a, S754_zero b => Bool.eqb a b
  | S754_infinity a, S754_infinity b => Bool.eqb a b
  | S754_nan, S754_nan => true
  | S754_finite a m e, S754_finite b m' e' =>
      Bool.eqb a b && Pos.eqb m m' && Z.eqb e e'
  | _, _ => false
  end.

Definition cell_eqb (a b : cell) : bool :=
  match a, b with
  | CStr s, CStr s' => String.eqb s s'
  | CInt n, CInt n' => Z.eqb n n'
  | CFloat x, CFloat y => float_eqb x y
  | _, _ => false
  end.

Fixpoint list_eqb {A : Type} (eqb : A -> A -> bool) (l l' : list A) : bool :=
  match l, l' with
  | [], [] => true
  | x :: t, y :: t' => eqb x y && list_eqb eqb t t'
  | _, _ => false
  end.








(** Whether a character of [s] is one that a sheet title may not hold. *)
Fixpoint con_prohibidos (s : string) : bool :=
  match s with
  | EmptyString => false
  | String c t => _sheet_forbidden c || con_prohibidos t
  end.

(** The record of the segment [n] with the hint [flag], 10 min and 1 km. *)
Definition tramo_de (n flag : string) : TramoNorm :=
  Analyzer.normalizar (Analyzer.mkRawRec n "10 min" "" "1 km" None flag).

(** Three segments of the watchlist, an unusual one and an unknown one. *)
Definition lote_orden : list TramoNorm :=
  [tramo_de "Z-Ave" "watch"; tramo_de "a-Blvd" "watch"; tramo_de "Main St" "watch";
   tramo_de "Centro" "unusual"; tramo_de "Sur" ""].

(** Whether a row is the header row. *)
Definition es_encabezado (r : row) : bool := list_eqb cell_eqb r encabezados.

(** An effect that appends a row of data, not the header, to the sheet of
    the unknown segments. *)
Definition dato_desconocido (e : event) : bool :=
  match e with
  | EvAppend t r => String.eqb t desc_name && negb (es_encabezado r)
  | _ => false
  end.

(** How many such rows were appended so far. *)
Definition n_datos (st : World) : nat :=
  List.length (filter dato_desconocido (log st)).

(** No such row was appended between two states. *)
Definition mismos_datos (st st' : World) : Prop := n_datos st' = n_datos st.

End StorageTerms.

Module ParserTerms.

Import PyStr Models Analyzer AnalyzerTerms.

(** Every character of [s] is an ASCII character; on such texts the classes
    of characters of this development are exactly those of Python. *)
Fixpoint solo_ascii (s : string) : bool :=
  match s with
  | EmptyString => true
  | String c t => (code c <? 128) && solo_ascii t
  end.

(** No character of [s] is a digit. *)
Fixpoint sin_digitos (s : string) : bool :=
  match s with
  | EmptyString => true
  | String c t => negb (is_digit c) && sin_digitos t
  end.

(** No character of [s] is a digit, a dot or a comma. *)
Fixpoint sin_numericos (s : string) : bool :=
  match s with
  | EmptyString => true
  | String c t => negb (is_num_char c) && sin_numericos t
  end.

(** Every character of [s] is white space. *)
Fixpoint solo_espacios (s : string) : bool :=
  match s with
  | EmptyString => true
  | String c t => is_space c && solo_espacios t
  end.

(** The inner loop of [int_of_digits], from the value [acc]. *)
Fixpoint digitos_desde (s : string) (acc : Z) : Z :=
  match s with
  | EmptyString => acc
  | String c t => digitos_desde t (10 * acc + digit_val c)
  end.

(** Every record of [extra] that has a name has the key of a named record of
    [brut]. *)
Definition ya_vistos (brut extra : list RawRec) : bool :=
  forallb (fun r =>
             negb (truthy (strip (name r)))
             || existsb (fun r0 => truthy (strip (name r0))
                                   && String.eqb (clave r0) (clave r)) brut)
          extra.

(** The keys of the records that [dedup] keeps, with those seen before. *)
Definition claves_tras (vistos : list string) (brut : list RawRec) : list string :=
  (List.rev (map clave (dedup vistos brut)) ++ vistos)%list.

End ParserTerms.

Module SaveTerms.

Import PyStr Models Storage StorageTerms.

Local Open Scope list_scope.

(** The effects of [k] failed attempts each followed by its delay. *)
Fixpoint reintentos (k : nat) (espera_s : PyFloat.float) : list event :=
  match k with
  | O => []
  | S k' => EvSave false :: EvSleep espera_s :: reintentos k' espera_s
  end.

(** The coming outcomes of saving start with a success. *)
Definition sale_bien (resto : list bool) : bool := hd true resto.

(** The state after a save that went through at the first of the outcomes
    [resto], following the effects [evs]. *)
Definition tras_guardar (st : World) (resto : list bool) (evs : list event) : World :=
  mkWorld (wb st) (archivo_excel st) (wal_file st) (mark_file st) (wb st)
          (tl resto) (log st ++ evs ++ [EvSave true]).

(** The state with the effects [evs] added, nothing else changed. *)
Definition con_efectos (st : World) (evs : list event) : World :=
  mkWorld (wb st) (archivo_excel st) (wal_file st) (mark_file st) (disk st)
          (saves st) (log st ++ evs).

(** A state in which the next two saves fail and the third goes through. *)
Definition mundo_dos_fallos : World :=
  mkWorld (Some libro_ej) (Some "Captura_Waze.xlsx"%string) None None None
          [false; false; true; false] [].

End SaveTerms.

Module SheetTerms.

Import PyStr Models Storage StorageTerms.

Local Open Scope list_scope.

(** The sheet titled [t] of the workbook in memory. *)
Definition hoja_de (st : World) (t : string) : option Sheet :=
  match wb st with
  | Some w => get_sheet t w
  | None => None
  end.

(** Every sheet of [st] is still there in [st'], under its title, its rows
    of before first and in their order. *)
Definition crece (st st' : World) : Prop :=
  forall t sh, hoja_de st t = Some sh ->
    exists sh' mas, hoja_de st' t = Some sh' /\ rows sh' = rows sh ++ mas.

(** The titles of the workbook in memory. *)
Definition titulos (st : World) : list string :=
  match wb st with
  | Some w => sheetnames w
  | None => []
  end.

(** No title of [names] differs from [t] in the case of its letters only;
    openpyxl then gives a new sheet the title [t] as asked, where it would
    otherwise add a number to it. *)
Definition sin_choque (t : string) (names : list string) : bool :=
  forallb (fun s => String.eqb s t || negb (String.eqb (lower s) (lower t))) names.

(** The same for every title of the list against the others. *)
Definition sin_choques (names : list string) : bool :=
  forallb (fun t => sin_choque t names) names.

(** The titles that [_insertar_hoja_watchlist_en_posicion] leaves, from the
    titles it finds: the same steps on the titles of the sheets. *)
Definition orden_tras_insertar (names : list string) (title : string) : list string :=
  let existing := sort_lower (filter es_watchlist names ++ [title]) in
  let target_index := S (index_of title existing) in
  let current := insert_at target_index title names in
  let current :=
    if mem desc_name (names ++ [title])
    then filter (fun s => negb (String.eqb s desc_name)) current ++ [desc_name]
    else current in
  insert_at O inus_name (filter (fun s => negb (String.eqb s inus_name)) current).

(** The order of the sheets that the module keeps: the sheet of the unusual
    traffic, the sheets of the watchlist sorted by their titles in lower
    case, then the sheet of the unknown segments if there is one. *)
Definition canonico (names watch fin : list string) : Prop :=
  names = inus_name :: watch ++ fin
  /\ StronglySorted key_le watch
  /\ Forall (fun s => es_watchlist s = true) watch
  /\ (fin = [] \/ fin = [desc_name]).

(** The row of a record is one the workbook takes. *)
Definition legal (ahora : datetime) (t : TramoNorm) : bool :=
  negb (row_illegal (fila ahora (strip (nombre t)) t)).

Definition es_de (clase : option bool) (t : TramoNorm) : bool :=
  match es_usual t, clase with
  | Some a, Some b => Bool.eqb a b
  | None, None => true
  | _, _ => false
  end.

(** How many records of the batch are of the class [clase] and have a row
    the workbook takes. *)
Definition aceptados (ahora : datetime) (clase : option bool)
  (tramos : list TramoNorm) : Z :=
  Z.of_nat (List.length (filter (fun t => legal ahora t && es_de clase t) tramos)).

(** The titles of the sheets that a batch asks for: the two fixed ones and
    the sheet names of its records of the watchlist. *)
Definition titulos_del_lote (py_hash : string -> Z) (tramos : list TramoNorm)
  : list string :=
  inus_name :: desc_name
  :: map (fun t => nombre_hoja_seguro py_hash (strip (nombre t)))
         (filter (es_de (Some true)) tramos).

(** The counters after one record. *)
Definition contar (t : TramoNorm) (c : Z * Z * Z) : Z * Z * Z :=
  let '(g, u, i) := c in
  match es_usual t with
  | Some true => (g + 1, u + 1, i)
  | Some false => (g + 1, u, i + 1)
  | None => (g + 1, u, i)
  end.

(** How many records of the batch have a row the workbook takes. *)
Definition aceptados_todos (ahora : datetime) (tramos : list TramoNorm) : Z :=
  Z.of_nat (List.length (filter (legal ahora) tramos)).

(** A workbook in the order of the module, with two sheets of the watchlist
    and the sheet of the unknown segments, and a state that holds it. *)
Definition libro_en_orden : Workbook :=
  [mkSheet inus_name [encabezados]; mkSheet "a-Blvd" [encabezados];
   mkSheet "Z-Ave" [encabezados]; mkSheet desc_name [encabezados]].

Definition mundo_en_orden : World :=
  mkWorld (Some libro_en_orden) (Some "Captura_Waze.xlsx"%string) None None
          (Some libro_en_orden) [] [].


(** [[wb[s] for s in names]] as a function, for titles that are all there. *)
Definition elegir (names : list string) (w : Workbook) : Workbook :=
  flat_map (fun n => match get_sheet n w with Some sh => [sh] | None => [] end) names.

(** A workbook whose sheets are out of order and lack the sheet of the
    unusual traffic, and a state that holds it. *)
Definition libro_desordenado : Workbook :=
  [mkSheet "Z-Ave" [encabezados]; mkSheet desc_name [encabezados];
   mkSheet "a-Blvd" [encabezados]].

Definition mundo_desordenado : World :=
  mkWorld (Some libro_desordenado) (Some "Captura_Waze.xlsx"%string) None None
          None [] [].

(** The workbook with the sheet of the unusual traffic, created first and
    given its header row when it was missing. *)
Definition con_inusual (w : Workbook) : Workbook :=
  if mem inus_name (sheetnames w) then w
  else mkSheet inus_name [encabezados] :: w.

(** The state after that sheet was made sure of. *)
Definition asegurar_inusual (st : World) : World :=
  match wb st with
  | Some w =>
      if mem inus_name (sheetnames w) then st
      else add_log (EvAppend inus_name encabezados)
             (set_wb (Some (con_inusual w)) st)
  | None => st
  end.

End SheetTerms.

Module DominioTerms.

Import PyStr Models Analyzer Storage StorageTerms ParserTerms SheetTerms.

(** A plain title: written in ASCII, or the title of the sheet of the
    unusual traffic itself.  On plain titles [lower] is [str.lower], the
    order of [key_lt] is the one of [sort(key=str.lower)], and [sin_choque]
    compares what openpyxl compares when it names a new sheet; a title in
    ASCII never differs from "Tráfico inusual" in the case of its letters
    only. *)
Definition titulo_llano (t : string) : bool :=
  solo_ascii t || String.eqb t inus_name.

Definition titulos_llanos (names : list string) : bool :=
  forallb titulo_llano names.

(** A title that [create_sheet] takes as it is given, when no sheet carries
    it yet: not empty (openpyxl would name the sheet "Sheet"), in ASCII, of
    at most 31 characters, none of them forbidden in a title. *)
Definition titulo_valido (t : string) : bool :=
  truthy t && solo_ascii t && negb (con_prohibidos t)
  && (String.length t <=? 31)%nat.

(** A plain text: in ASCII, where [strip], the classes of characters and the
    slices of this development are Python's, and of at most 4300 characters,
    within what [int] reads of digits and what openpyxl keeps of the text of
    a cell. *)
Definition texto_llano (s : string) : bool :=
  solo_ascii s && (Z.of_nat (String.length s) <=? 4300).

(** A record whose texts reach the workbook as they are: a plain name, and a
    duration text within the 32767 characters that openpyxl keeps. *)
Definition tramo_llano (t : TramoNorm) : bool :=
  texto_llano (nombre t) && (Z.of_nat (String.length (tiempo_mmss t)) <=? 32767).

Definition lote_llano (tramos : list TramoNorm) : bool :=
  forallb tramo_llano tramos.

(** An extracted record whose texts are plain. *)
Definition crudo_llano (r : RawRec) : bool :=
  texto_llano (name r) && texto_llano (dist r) && texto_llano (current r)
  && texto_llano (historic r) && texto_llano (section_flag r).

Definition crudos_llanos (brut : list RawRec) : bool :=
  forallb crudo_llano brut.

End DominioTerms.

Module HorarioTerms.

Import PyStr Horario.

(** A [datetime] whose time of day is one: hour, minute, second and
    microsecond within their ranges. *)
Definition hora_valida (dt : datetime) : bool :=
  (0 <=? hour dt) && (hour dt <? 24) && (0 <=? minute dt) && (minute dt <? 60)
  && (0 <=? second dt) && (second dt <? 60)
  && (0 <=? microsecond dt) && (microsecond dt <? 1000000).

(** The microseconds from the start of day 0 to a [datetime]. *)
Definition instante (dt : datetime) : Z :=
  (((ordinal dt * 24 + hour dt) * 60 + minute dt) * 60 + second dt) * 1000000
  + microsecond dt.

(** Within the window from [ih]:[im] to [fh]:[fm], for the instant [X] of
    the day [o]: from the start of the window on that day to its end, or
    outside the span from its end to its start when the window passes
    midnight. *)
Definition dentro_Z (ih im fh fm o X : Z) : bool :=
  let I := ((o * 24 + ih) * 60 + im) * 60000000 in
  let F := ((o * 24 + fh) * 60 + fm) * 60000000 in
  if I <=? F then (I <=? X) && (X <? F)
  else negb ((F <=? X) && (X <? I)).

(** A window from 22:00 to 06:00, a time outside it and a time inside. *)
Definition cfg_nocturno : AppConfig := mkAppConfig false 22 0 6 0.
Definition mediodia : datetime := mkDatetime 739000 12 30 15 0.
Definition madrugada : datetime := mkDatetime 739000 1 5 0 0.

(** A window whose start and end are the same time. *)
Definition cfg_vacio : AppConfig := mkAppConfig false 30 60 6 0.

End HorarioTerms.

(* ------------------------------------------------------------------ *)
(** * Properties of the normaliser, the classifier and the deduplicator *)

Module AnalyzerFacts.

Import PyStr Models Analyzer AnalyzerTerms.

(** *** The primitives on the values Python gives *)

Example strip_lower_ej :
  strip "  Ave X  " = "Ave X" /\ lower "Main St" = "main st".
Proof. vm_compute. split; reflexivity. Qed.

Example fmt_0d_ej :
  fmt_0d 2 5 = "05" /\ fmt_0d 2 123 = "123" /\ fmt_0d 3 7 = "007"
  /\ fmt_0d 2 (-5) = "-5" /\ fmt_0d 3 (-5) = "-05".
Proof. vm_compute. repeat split. Qed.

Example parse_minutos_ej :
  _parse_minutos "about 12 MINUTOS" = Some 12
  /\ _parse_minutos "12 minutosx" = None
  /\ _parse_minutos "12 mins 7min" = Some 7
  /\ _parse_minutos "" = None.
Proof. vm_compute. repeat split. Qed.

Example parse_vel_dist_ej :
  _parse_vel_kmh "35,5 km/h" = _parse_vel_kmh "35.5kmh"
  /\ _parse_vel_kmh "35.5 km/ h" = None
  /\ _parse_vel_kmh "1.2.3 km/h" = None
  /\ _parse_dist_km "4.5 kms 3 km" = Some (PyFloat.of_Z 3)
  /\ _parse_dist_km "4.5 km" = Some (S754_finite false 5066549580791808 (-50)).
Proof. vm_compute. repeat split. Qed.

Example float_of_str_ej :
  PyFloat.float_of_str "0.1" = Some (S754_finite false 7205759403792794 (-56))
  /\ PyFloat.float_of_str "2.675" = Some (S754_finite false 6023564501608038 (-51))
  /\ PyFloat.float_of_str "9007199254740993"
      = Some (S754_finite false 4503599627370496 1)
  /\ PyFloat.float_of_str "5." = Some (PyFloat.of_Z 5)
  /\ PyFloat.float_of_str "." = None.
Proof. vm_compute. repeat split. Qed.

Example round_half_even_ej :
  PyFloat.round_half_even (PyFloat.of_ratio 1 2) = Some 0
  /\ PyFloat.round_half_even (PyFloat.of_ratio 3 2) = Some 2
  /\ PyFloat.round_half_even (PyFloat.of_ratio 5 2) = Some 2
  /\ PyFloat.round_half_even (PyFloat.of_ratio 7 4) = Some 2
  /\ PyFloat.round_half_even (S754_infinity false) = None.
Proof. vm_compute. repeat split. Qed.

Example nombre_hoja_seguro_ej :
  nombre_hoja_seguro (fun _ => 5) "Av: a/b [c] 0123456789012345678901234567890"
    = "Av - a  b  c  0123456789012_005"
  /\ nombre_hoja_seguro (fun _ => -1234567) "Ave X" = "Ave X_567".
Proof. vm_compute. split; reflexivity. Qed.

Lemma or_else_empty (s : string) : or_else s "" = s.
Proof. destruct s; reflexivity. Qed.

Lemma normalizar_campos (r : RawRec) :
  nombre (normalizar r) = strip (name r)
  /\ dist_km (normalizar r) = _parse_dist_km (strip (dist r))
  /\ tiempo_min (normalizar r) = minutos_de r
  /\ vel_kmh (normalizar r) = vel_de r
  /\ tiempo_seg (normalizar r) = fst (duracion_de r)
  /\ tiempo_mmss (normalizar r) = snd (duracion_de r)
  /\ es_usual (normalizar r) = clasificar (section_flag r)
  /\ current_raw (normalizar r) = strip (current r)
  /\ historic_raw (normalizar r) = strip (historic r)
  /\ dist_raw (normalizar r) = strip (dist r)
  /\ jam (normalizar r) = raw_jam r.
Proof.
  unfold normalizar, duracion_de, minutos_de, vel_de.
  destruct (_parse_stat_to_min_vel (strip (current r))) as [min_c vel_c].
  destruct (_parse_stat_to_min_vel (strip (historic r))) as [min_h vel_h].
  cbn [fst snd].
  destruct (first_some min_c min_h) as [m|].
  - cbn. rewrite or_else_empty. repeat split; reflexivity.
  - destruct (_tiempo_desde_dist_y_vel _ _) as [ts tm].
    cbn. rewrite or_else_empty. repeat split; reflexivity.
Qed.

(** A speed above zero is not at most zero. *)
Lemma gt_zero_not_le (v : PyFloat.float) :
  PyFloat.gt v f0 = true -> PyFloat.le v f0 = false.
Proof.
  unfold PyFloat.gt, PyFloat.le, SFltb, SFleb, f0.
  destruct v as [s | s | | s m e]; cbn; try destruct s; cbn; congruence.
Qed.

(** *** Classification *)

(** C5 (as amended): the category of a record is a function of its hint
    alone, whatever its name, texts and jam level: the hint, trimmed and put
    in lower case, gives Unusual when it is "unusual", Usual when it is
    "watch" and Unknown otherwise; so the hints "unusual", "watch" and the
    empty hint give Unusual, Usual and Unknown. *)
Theorem clasificacion_por_flag :
  forall (n c h d : string) (j : option Z) (flag : string),
    es_usual (normalizar (mkRawRec n c h d j flag)) =
      (if String.eqb (lower (strip flag)) "unusual" then Some false
       else if String.eqb (lower (strip flag)) "watch" then Some true
       else None)
    /\ es_usual (normalizar (mkRawRec n c h d j "unusual")) = Some false
    /\ es_usual (normalizar (mkRawRec n c h d j "watch")) = Some true
    /\ es_usual (normalizar (mkRawRec n c h d j "")) = None.
Proof.
  intros n c h d j flag.
  repeat split;
    match goal with
    | |- es_usual (normalizar ?r) = _ =>
        destruct (normalizar_campos r) as (_ & _ & _ & _ & _ & _ & E & _);
        rewrite E; reflexivity
    end.
Qed.

(** C5, as stated, fails: a hint other than "watch" and "unusual" that is not
    classified Unknown. *)
Lemma clasificacion_otro_flag :
  es_usual (normalizar (mkRawRec "Ave X" "12 min" "" "4.5 km" None "WATCH")) = Some true
  /\ es_usual (normalizar (mkRawRec "Ave X" "12 min" "" "4.5 km" None " Unusual ")) = Some false
  /\ String.eqb "WATCH" "watch" = false
  /\ String.eqb "WATCH" "unusual" = false
  /\ String.eqb " Unusual " "unusual" = false
  /\ String.eqb " Unusual " "watch" = false.
Proof. vm_compute. repeat split. Qed.

(** *** Derived durations *)

(** C7: in every normalised record, a known [tiempo_min] fixes
    [tiempo_seg = tiempo_min * 60] and [tiempo_mmss = "MM:00"]; with no
    [tiempo_min], a distance and a speed above zero give
    [tiempo_seg = round(dist_km / vel_kmh * 3600)] with its MM:SS text (both
    unset where [round] has no value); and with no [tiempo_min], a missing
    distance, a missing speed or a speed at most zero leave both unset. *)
Theorem duracion_derivada :
  forall r : RawRec,
    let t := normalizar r in
    (forall m, tiempo_min t = Some m ->
       tiempo_seg t = Some (m * 60) /\ tiempo_mmss t = fmt_0d 2 m ++ ":00")
    /\ (forall d v,
          tiempo_min t = None -> dist_km t = Some d -> vel_kmh t = Some v ->
          PyFloat.gt v f0 = true ->
          let redondeo :=
            PyFloat.round_half_even (PyFloat.fmul (PyFloat.fdiv d v) f3600) in
          tiempo_seg t = redondeo
          /\ tiempo_mmss t = match redondeo with Some s => mmss s | None => "" end)
    /\ (tiempo_min t = None ->
        (dist_km t = None \/ vel_kmh t = None
         \/ exists v, vel_kmh t = Some v /\ PyFloat.le v f0 = true) ->
        tiempo_seg t = None /\ tiempo_mmss t = "").
Proof.
  intros r t.
  destruct (normalizar_campos r) as (_ & Ed & Em & Ev & Es & Ems & _).
  fold t in Ed, Em, Ev, Es, Ems.
  rewrite Es, Ems. unfold duracion_de. rewrite <- Em, <- Ed, <- Ev.
  split; [|split].
  - intros m Hm. rewrite Hm. cbn. split; reflexivity.
  - intros d v Hm Hd Hv Hgt. rewrite Hm, Hd, Hv. cbn zeta.
    unfold _tiempo_desde_dist_y_vel. rewrite (gt_zero_not_le v Hgt).
    destruct (PyFloat.round_half_even _); cbn; split; reflexivity.
  - intros Hm H. rewrite Hm. unfold _tiempo_desde_dist_y_vel.
    destruct H as [Hd | [Hv | (v & Hv & Hle)]].
    + rewrite Hd. split; reflexivity.
    + rewrite Hv. destruct (dist_km t); split; reflexivity.
    + rewrite Hv, Hle. destruct (dist_km t); split; reflexivity.
Qed.

(** The three rules of C7 at work: 12 min; 4.5 km at 30 km/h; a speed of 0;
    and no distance. *)
Lemma duracion_derivada_witness :
  (tiempo_seg (normalizar tramo_12min) = Some 720
   /\ tiempo_mmss (normalizar tramo_12min) = "12:00")
  /\ (tiempo_seg (normalizar tramo_30kmh) = Some 540
      /\ tiempo_mmss (normalizar tramo_30kmh) = "09:00")
  /\ (tiempo_seg (normalizar tramo_parado) = None
      /\ tiempo_mmss (normalizar tramo_parado) = "")
  /\ (tiempo_seg (normalizar tramo_sin_dist) = None
      /\ tiempo_mmss (normalizar tramo_sin_dist) = "").
Proof.
  split; [|split; [|split]].
  - apply (proj1 (duracion_derivada tramo_12min) 12). reflexivity.
  - exact (proj1 (proj2 (duracion_derivada tramo_30kmh))
             (S754_finite false 5066549580791808 (-50))
             (S754_finite false 8444249301319680 (-48))
             eq_refl eq_refl eq_refl eq_refl).
  - apply (proj2 (proj2 (duracion_derivada tramo_parado))).
    + reflexivity.
    + right. right. exists (S754_zero false). split; reflexivity.
  - apply (proj2 (proj2 (duracion_derivada tramo_sin_dist))).
    + reflexivity.
    + left. reflexivity.
Defined.

(** *** Deduplication *)

Lemma fold_paso (brut : list RawRec) :
  forall vistos lista,
    snd (fold_left paso brut (vistos, lista)) =
      (lista ++ map normalizar (dedup vistos brut))%list.
Proof.
  induction brut as [|r rest IH]; intros vistos lista; cbn [fold_left dedup].
  - cbn. now rewrite app_nil_r.
  - unfold paso at 2.
    destruct (negb (truthy (strip (name r)))); [apply IH|].
    destruct (visto (clave r) vistos); [apply IH|].
    rewrite IH. cbn [map]. now rewrite <- app_assoc.
Qed.

Lemma detect_all_dedup (brut : list RawRec) :
  detect_all brut = map normalizar (dedup [] brut).
Proof. unfold detect_all. now rewrite fold_paso. Qed.

Lemma dedup_subseq (brut : list RawRec) :
  forall vistos, Subseq (dedup vistos brut) brut.
Proof.
  induction brut as [|r rest IH]; intros vistos; cbn [dedup].
  - constructor.
  - destruct (negb _); [constructor; apply IH|].
    destruct (visto _ _); constructor; apply IH.
Qed.

Lemma clave_tramo_normalizar (r : RawRec) :
  clave_tramo (normalizar r) = clave r.
Proof.
  destruct (normalizar_campos r)
    as (En & _ & _ & _ & _ & _ & _ & Ec & Eh & Edr & _).
  unfold clave_tramo, clave. now rewrite En, Ec, Eh, Edr.
Qed.

Lemma visto_cons (k k' : string) (vistos : list string) :
  visto k (k' :: vistos) = String.eqb k k' || visto k vistos.
Proof. reflexivity. Qed.

(** The kept records with key [k]: none when [k] was seen before the batch,
    else the first record of the batch with that key, alone. *)
Lemma dedup_por_clave (k : string) (brut : list RawRec) :
  forall vistos,
    filter (fun r => String.eqb (clave r) k) (dedup vistos brut) =
      if visto k vistos then []
      else match primera brut k with Some r0 => [r0] | None => [] end.
Proof.
  unfold primera.
  induction brut as [|r rest IH]; intros vistos; cbn [dedup find].
  - cbn. now destruct (visto k vistos).
  - destruct (truthy (strip (name r))) eqn:Hn; cbn [negb andb].
    2: apply IH.
    destruct (String.eqb (clave r) k) eqn:Hk.
    + apply String.eqb_eq in Hk. subst k.
      destruct (visto (clave r) vistos) eqn:Hv.
      * rewrite IH, Hv. reflexivity.
      * cbn [filter]. rewrite String.eqb_refl, IH, visto_cons, String.eqb_refl.
        reflexivity.
    + destruct (visto (clave r) vistos) eqn:Hv.
      * apply IH.
      * cbn [filter]. rewrite Hk, IH, visto_cons.
        rewrite String.eqb_sym, Hk. reflexivity.
Qed.

Lemma filter_map_normalizar (k : string) (l : list RawRec) :
  filter (fun t => String.eqb (clave_tramo t) k) (map normalizar l) =
    map normalizar (filter (fun r => String.eqb (clave r) k) l).
Proof.
  induction l as [|r l IH]; cbn [map filter]; [reflexivity|].
  rewrite clave_tramo_normalizar.
  destruct (String.eqb (clave r) k); cbn [map]; now rewrite IH.
Qed.

Lemma primera_existe (brut : list RawRec) (r : RawRec) :
  In r brut -> truthy (strip (name r)) = true ->
  exists r0, primera brut (clave r) = Some r0.
Proof.
  intros Hin Hn. unfold primera.
  destruct (find _ brut) as [r0|] eqn:Hf; [now exists r0|].
  exfalso.
  pose proof (find_none _ _ Hf r Hin) as Hr. cbn in Hr.
  now rewrite Hn, String.eqb_refl in Hr.
Qed.

(** C8 (as amended): the batch of normalised records is the normalisation of
    a subsequence of the raw batch, so capture order is kept; and for every
    raw record with a non-empty trimmed name, the normalised records that
    carry its key (the trimmed name, distance text and current-or-historic
    text joined by "||") are exactly one, the normalisation of the first
    named raw record of the batch with that key. *)
Theorem dedup_primera_ocurrencia :
  forall brut : list RawRec,
    exists sub : list RawRec,
      Subseq sub brut
      /\ detect_all brut = map normalizar sub
      /\ forall r, In r brut -> truthy (strip (name r)) = true ->
           exists r0,
             primera brut (clave r) = Some r0
             /\ filter (fun t => String.eqb (clave_tramo t) (clave r))
                       (detect_all brut) = [normalizar r0].
Proof.
  intros brut. exists (dedup [] brut).
  split; [apply dedup_subseq|].
  split; [apply detect_all_dedup|].
  intros r Hin Hn.
  destruct (primera_existe brut r Hin Hn) as (r0 & H0).
  exists r0. split; [exact H0|].
  rewrite detect_all_dedup, filter_map_normalizar, dedup_por_clave.
  cbn [visto existsb]. rewrite H0. reflexivity.
Qed.

(** Two records with one key between two copies of another record. *)
Lemma dedup_primera_ocurrencia_witness :
  exists sub : list RawRec,
    Subseq sub [tramo_repetido; tramo_otro; tramo_repetido]
    /\ detect_all [tramo_repetido; tramo_otro; tramo_repetido] = map normalizar sub
    /\ exists r0,
         primera [tramo_repetido; tramo_otro; tramo_repetido] (clave tramo_repetido)
           = Some r0
         /\ filter (fun t => String.eqb (clave_tramo t) (clave tramo_repetido))
                   (detect_all [tramo_repetido; tramo_otro; tramo_repetido])
            = [normalizar r0].
Proof.
  destruct (dedup_primera_ocurrencia [tramo_repetido; tramo_otro; tramo_repetido])
    as (sub & Hs & Hd & Hk).
  exists sub. split; [exact Hs|]. split; [exact Hd|].
  apply (Hk tramo_repetido).
  - left. reflexivity.
  - reflexivity.
Defined.

(** C8, as stated, fails: two records that share name, distance text and
    current text and leave no normalised record; and two records that share
    them while the record kept is one with another name. *)
Lemma dedup_sin_nombre :
  detect_all [tramo_sin_nombre; tramo_sin_nombre] = []
  /\ map nombre (detect_all [tramo_a; tramo_b; tramo_b]) = ["a||b"]
  /\ name tramo_b = "a".
Proof. vm_compute. repeat split. Qed.

End AnalyzerFacts.

(* ------------------------------------------------------------------ *)
(** * Properties of the store and of the write-ahead log *)

Module StorageFacts.

Import PyStr Models Storage StorageTerms.
Local Open Scope list_scope.

(** *** Titles and sheets *)

Example sort_lower_ej :
  sort_lower ["Z-Ave"; "a-Blvd"; "Main St"]%string = ["a-Blvd"; "Main St"; "Z-Ave"]%string
  /\ sort_lower ["b"; "B"; "a"; "A"]%string = ["a"; "A"; "b"; "B"]%string.
Proof. vm_compute. split; reflexivity. Qed.

Lemma mem_In (t : string) (l : list string) : mem t l = true <-> In t l.
Proof.
  unfold mem. rewrite existsb_exists. split.
  - intros (x & Hx & E). apply String.eqb_eq in E. now subst.
  - intros H. exists t. split; [exact H | apply String.eqb_refl].
Qed.

Lemma get_sheet_title (t : string) (w : Workbook) (sh : Sheet) :
  get_sheet t w = Some sh -> title sh = t.
Proof.
  induction w as [|s w IH]; cbn; [discriminate|].
  destruct (String.eqb (title s) t) eqn:E.
  - intros [= <-]. now apply String.eqb_eq.
  - exact IH.
Qed.

Lemma get_sheet_mem (t : string) (w : Workbook) :
  mem t (sheetnames w) = true -> exists sh, get_sheet t w = Some sh.
Proof.
  induction w as [|s w IH]; cbn; [discriminate|].
  rewrite String.eqb_sym.
  destruct (String.eqb (title s) t); cbn; [now exists s | exact IH].
Qed.

Lemma get_sheet_none (t : string) (w : Workbook) :
  mem t (sheetnames w) = false -> get_sheet t w = None.
Proof.
  induction w as [|s w IH]; cbn; [reflexivity|].
  rewrite String.eqb_sym.
  destruct (String.eqb (title s) t); cbn; [discriminate | exact IH].
Qed.

Lemma get_sheet_app_new (t : string) (w : Workbook) :
  mem t (sheetnames w) = false ->
  get_sheet t (w ++ [mkSheet t []]) = Some (mkSheet t []).
Proof.
  induction w as [|s w IH]; cbn.
  - now rewrite String.eqb_refl.
  - rewrite String.eqb_sym.
    destruct (String.eqb (title s) t); cbn; [discriminate | exact IH].
Qed.

Lemma sheetnames_append_row (t : string) (r : row) (w : Workbook) :
  sheetnames (append_row t r w) = sheetnames w.
Proof.
  unfold sheetnames, append_row. rewrite map_map. apply map_ext.
  intros sh. now destruct (String.eqb (title sh) t).
Qed.

(** *** The order of the titles *)

Lemma leb_total (a : string) : forall b, PyStr.leb a b = false -> PyStr.leb b a = true.
Proof.
  induction a as [|x a IH]; intros [|y b]; cbn; try congruence.
  destruct (code x <? code y) eqn:E1; [discriminate|].
  destruct (code y <? code x) eqn:E2; [reflexivity|].
  apply IH.
Qed.

Lemma leb_trans (a : string) :
  forall b c, PyStr.leb a b = true -> PyStr.leb b c = true -> PyStr.leb a c = true.
Proof.
  induction a as [|x a IH]; intros [|y b] [|z c]; cbn; try congruence.
  destruct (code x <? code y) eqn:E1, (code y <? code x) eqn:E2;
    destruct (code y <? code z) eqn:E3, (code z <? code y) eqn:E4;
    destruct (code x <? code z) eqn:E5, (code z <? code x) eqn:E6;
    try congruence; try lia.
  apply IH.
Qed.

Lemma key_le_trans (a b c : string) : key_le a b -> key_le b c -> key_le a c.
Proof. unfold key_le. apply leb_trans. Qed.

Lemma key_lt_false (y x : string) : key_lt y x = false -> key_le x y.
Proof. unfold key_lt, key_le. now destruct (PyStr.leb (lower x) (lower y)). Qed.

Lemma key_lt_true (y x : string) : key_lt y x = true -> key_le y x.
Proof.
  unfold key_lt, key_le. intros H. apply leb_total.
  now destruct (PyStr.leb (lower x) (lower y)).
Qed.

Lemma insert_sorted_perm (x : string) (l : list string) :
  Permutation (insert_sorted x l) (x :: l).
Proof.
  induction l as [|y l IH]; cbn; [reflexivity|].
  destruct (key_lt y x); [|reflexivity].
  rewrite IH. apply perm_swap.
Qed.

Lemma sort_lower_perm (l : list string) : Permutation (sort_lower l) l.
Proof.
  induction l as [|x l IH]; cbn; [reflexivity|].
  rewrite insert_sorted_perm. now constructor.
Qed.

Lemma insert_sorted_hdrel (a x : string) (l : list string) :
  HdRel key_le a l -> key_le a x -> HdRel key_le a (insert_sorted x l).
Proof.
  destruct l as [|y l]; cbn; intros H Hx.
  - now constructor.
  - destruct (key_lt y x); constructor; [now inversion H | exact Hx].
Qed.

Lemma insert_sorted_sorted (x : string) (l : list string) :
  Sorted key_le l -> Sorted key_le (insert_sorted x l).
Proof.
  induction l as [|y l IH]; cbn; intros H.
  - repeat constructor.
  - inversion H as [|? ? Hs Hh]; subst.
    destruct (key_lt y x) eqn:E.
    + constructor; [now apply IH|].
      apply insert_sorted_hdrel; [exact Hh | now apply key_lt_true].
    + constructor; [exact H|]. constructor. now apply key_lt_false.
Qed.

Lemma sort_lower_sorted (l : list string) : StronglySorted key_le (sort_lower l).
Proof.
  apply Sorted_StronglySorted; [exact key_le_trans|].
  induction l as [|x l IH]; cbn; [constructor|].
  now apply insert_sorted_sorted.
Qed.

Lemma sort_lower_In (x : string) (l : list string) : In x (sort_lower l) <-> In x l.
Proof.
  split; apply Permutation_in; [|symmetry]; apply sort_lower_perm.
Qed.

(** *** What a call leaves untouched *)

Section Preserva.

Context (R : World -> World -> Prop) `{HR : Marco R}.

Lemma preserves_ret {A : Type} (a : A) : preserves R (ret a).
Proof. intros st r st' [= _ <-]. apply marco_refl. Qed.

Lemma preserves_raise {A : Type} (e : exn) : preserves R (@raise A e).
Proof. intros st r st' [= _ <-]. apply marco_refl. Qed.

Lemma preserves_bind {A B : Type} (m : M A) (k : A -> M B) :
  preserves R m -> (forall a, preserves R (k a)) -> preserves R (bind m k).
Proof.
  intros Hm Hk st r st'. unfold bind.
  destruct (m st) as [[a|e] st1] eqn:E; intros H.
  - eapply marco_trans; [eapply Hm, E | eapply Hk, H].
  - injection H as _ <-. eapply Hm, E.
Qed.

Lemma preserves_try_except {A : Type} (m : M A) (h : exn -> M A) :
  preserves R m -> (forall e, preserves R (h e)) -> preserves R (try_except m h).
Proof.
  intros Hm Hh st r st'. unfold try_except.
  destruct (m st) as [[a|e] st1] eqn:E; intros H.
  - injection H as _ <-. eapply Hm, E.
  - eapply marco_trans; [eapply Hm, E | eapply Hh, H].
Qed.

Lemma preserves_try_finally {A : Type} (m : M A) (fin : M unit) :
  preserves R m -> preserves R fin -> preserves R (try_finally m fin).
Proof.
  intros Hm Hf st r st'. unfold try_finally.
  destruct (m st) as [r1 st1] eqn:E.
  destruct (fin st1) as [[u|e] st2] eqn:F; intros [= _ <-];
    (eapply marco_trans; [eapply Hm, E | eapply Hf, F]).
Qed.

Lemma preserves_modify (f : World -> World) :
  (forall st, R st (f st)) -> preserves R (modify f).
Proof. intros Hf st r st' [= _ <-]. apply Hf. Qed.

Lemma preserves_get_wb : preserves R get_wb.
Proof.
  intros st r st'. unfold get_wb.
  destruct (wb st); intros [= _ <-]; apply marco_refl.
Qed.

(** A function that starts with [if wb is None: return]. *)
Lemma preserves_si_wb {A : Type} (a : A) (k : Workbook -> M A) :
  (forall w, preserves R (k w)) ->
  preserves R (fun st => match wb st with
                         | None => (Ok a, st)
                         | Some w => k w st
                         end).
Proof.
  intros Hk st r st'. destruct (wb st) as [w|].
  - apply Hk.
  - intros [= _ <-]. apply marco_refl.
Qed.

End Preserva.

#[export] Instance hojas_marco : Marco hojas.
Proof.
  split.
  - intros st. repeat split; auto. exists []. now rewrite app_nil_r.
  - intros a b c (A1 & A2 & A3 & A4 & A5 & A6 & e1 & A7 & A8)
                 (B1 & B2 & B3 & B4 & B5 & B6 & e2 & B7 & B8).
    repeat split; try congruence; auto.
    exists (e1 ++ e2). split; [now rewrite B7, A7, app_assoc|].
    apply Forall_app. now split.
Qed.

#[export] Instance lado_wal_marco : Marco lado_wal.
Proof.
  split.
  - intros st. repeat split; auto. exists []. now rewrite app_nil_r.
  - intros a b c (A1 & A2 & A3 & A6 & e1 & A7 & A8)
                 (B1 & B2 & B3 & B6 & e2 & B7 & B8).
    repeat split; try congruence; auto.
    exists (e1 ++ e2). split; [now rewrite B7, A7, app_assoc|].
    apply Forall_app. now split.
Qed.

Lemma hojas_lado_wal (st st' : World) : hojas st st' -> lado_wal st st'.
Proof. intros (A1 & A2 & A3 & _ & _ & A6 & A7). now repeat split. Qed.

Lemma preserves_weaken {A : Type} (m : M A) :
  preserves hojas m -> preserves lado_wal m.
Proof. intros H st r st' E. apply hojas_lado_wal. eapply H, E. Qed.

Lemma hojas_put_wb (w : Workbook) : preserves hojas (put_wb w).
Proof.
  apply preserves_modify. intros st. cbn. repeat split; try discriminate.
  exists []. now rewrite app_nil_r.
Qed.

Lemma hojas_add_log (e : event) : sin_wal e -> preserves hojas (modify (add_log e)).
Proof.
  intros He. apply preserves_modify. intros st. cbn. repeat split; auto.
  exists [e]. split; [reflexivity | now constructor].
Qed.

(** Splits a goal [preserves R m] along the shape of [m]. *)
Ltac marco :=
  repeat first
    [ exact _
    | apply preserves_ret
    | apply preserves_raise
    | apply preserves_get_wb
    | apply hojas_put_wb
    | apply hojas_add_log; exact I
    | apply preserves_bind; [| | intros ?]
    | apply preserves_try_except; [| | intros ?]
    | apply preserves_si_wb; [| intros ?]
    | match goal with
      | |- preserves ?R (fun st => ?f st) => change (preserves R f)
      | |- preserves _ (if ?b then _ else _) => destruct b
      | |- preserves _ (match ?x with _ => _ end) => destruct x
      end ].

Lemma hojas_lookup (t : string) : preserves hojas (lookup t).
Proof. unfold lookup. marco. Qed.

Lemma hojas_ws_append (t : string) (r : row) : preserves hojas (ws_append t r).
Proof. unfold ws_append. marco. Qed.

Lemma hojas_poner_encabezados (t : string) : preserves hojas (_poner_encabezados t).
Proof. unfold _poner_encabezados. marco; apply hojas_ws_append. Qed.

Lemma hojas_pick_all (names : list string) (w : Workbook) :
  preserves hojas (pick_all names w).
Proof. induction names as [|n ns IH]; cbn [pick_all]; marco. exact IH. Qed.

Lemma hojas_ordenar : preserves hojas _ordenar_hojas_watchlist.
Proof.
  unfold _ordenar_hojas_watchlist.
  marco; try apply hojas_poner_encabezados; apply hojas_pick_all.
Qed.

Lemma hojas_insertar (title : string) :
  preserves hojas (_insertar_hoja_watchlist_en_posicion title).
Proof.
  unfold _insertar_hoja_watchlist_en_posicion.
  marco; apply hojas_poner_encabezados.
Qed.

Lemma hojas_cuerpo (py_hash : string -> Z) (ahora : datetime)
  (t : TramoNorm) (nombre : string) (c : Z * Z * Z) :
  preserves hojas (cuerpo py_hash ahora t nombre c).
Proof.
  unfold cuerpo. destruct c as [[g u] i].
  marco;
    first [ apply hojas_insertar | apply hojas_lookup
          | apply hojas_poner_encabezados | apply hojas_ws_append ].
Qed.

Lemma hojas_bucle (py_hash : string -> Z) (ahora : datetime)
  (tramos : list TramoNorm) :
  forall c, preserves hojas (bucle py_hash ahora tramos c).
Proof.
  induction tramos as [|t rest IH]; intros c; cbn [bucle]; marco.
  - apply hojas_cuerpo.
  - apply IH.
Qed.

(** *** Calls that go through *)

Lemma bind_ok {A B : Type} (m : M A) (k : A -> M B) (st st1 : World) (a : A) :
  m st = (Ok a, st1) -> bind m k st = k a st1.
Proof. intros H. unfold bind. now rewrite H. Qed.

Lemma get_wb_ok (st : World) (w : Workbook) :
  wb st = Some w -> get_wb st = (Ok w, st).
Proof. intros H. unfold get_wb. now rewrite H. Qed.

Lemma ws_append_ok (t : string) (r : row) (st : World) (w : Workbook) :
  wb st = Some w -> row_illegal r = false ->
  ws_append t r st =
    (Ok tt, add_log (EvAppend t r) (set_wb (Some (append_row t r w)) st)).
Proof.
  intros Hw Hr. unfold ws_append. rewrite Hr.
  now rewrite (bind_ok _ _ _ _ _ (get_wb_ok st w Hw)).
Qed.

Lemma ws_append_illegal (t : string) (r : row) (st : World) :
  row_illegal r = true -> ws_append t r st = (Raise IllegalCharacterError, st).
Proof. intros Hr. unfold ws_append. now rewrite Hr. Qed.

Lemma poner_encabezados_ok (t : string) (st : World) (w : Workbook) :
  wb st = Some w -> mem t (sheetnames w) = true ->
  exists st' w',
    _poner_encabezados t st = (Ok tt, st')
    /\ wb st' = Some w' /\ sheetnames w' = sheetnames w.
Proof.
  intros Hw Hm. unfold _poner_encabezados.
  rewrite (bind_ok _ _ _ _ _ (get_wb_ok st w Hw)).
  destruct (get_sheet_mem t w Hm) as (sh & ->).
  destruct (rows sh).
  - rewrite (ws_append_ok t encabezados st w Hw eq_refl).
    eexists _, _. split; [reflexivity|]. split; [reflexivity|].
    apply sheetnames_append_row.
  - exists st, w. now repeat split.
Qed.

Lemma lookup_ok (t : string) (st : World) (w : Workbook) :
  wb st = Some w -> mem t (sheetnames w) = true -> lookup t st = (Ok tt, st).
Proof.
  intros Hw Hm. unfold lookup.
  rewrite (bind_ok _ _ _ _ _ (get_wb_ok st w Hw)).
  now destruct (get_sheet_mem t w Hm) as (sh & ->).
Qed.

Lemma pick_all_ok (names : list string) (w : Workbook) (st : World) :
  (forall n, In n names -> mem n (sheetnames w) = true) ->
  exists ws, pick_all names w st = (Ok ws, st) /\ sheetnames ws = names.
Proof.
  induction names as [|n ns IH]; intros H; cbn [pick_all].
  - now exists [].
  - destruct (get_sheet_mem n w (H n (or_introl eq_refl))) as (sh & E).
    rewrite E.
    destruct IH as (ws & Hp & Hn); [intros m Hm; apply H; now right|].
    exists (sh :: ws). split.
    + now rewrite (bind_ok _ _ _ _ _ Hp).
    + unfold sheetnames in *. cbn [map]. rewrite Hn. f_equal.
      eapply get_sheet_title, E.
Qed.

Lemma new_order_mem (names : list string) :
  mem inus_name names = true ->
  forall n, In n (new_order_of names) -> mem n names = true.
Proof.
  intros Hi n. unfold new_order_of. rewrite !in_app_iff. cbn [In].
  intros [[<- | []] | [H | H]].
  - exact Hi.
  - rewrite sort_lower_In, filter_In in H. now apply mem_In.
  - destruct (mem desc_name names) eqn:Hd; [|contradiction].
    destruct H as [<- | []]. exact Hd.
Qed.

(** Reordering goes through on every workbook, and the titles it leaves are
    the new order computed from the titles it found (after the sheet of the
    unusual traffic was added, when missing). *)
Lemma ordenar_ok (st : World) (w0 : Workbook) :
  wb st = Some w0 ->
  exists st' w' names,
    _ordenar_hojas_watchlist st = (Ok tt, st')
    /\ wb st' = Some w'
    /\ sheetnames w' = new_order_of names
    /\ (forall n, In n names <-> n = inus_name \/ In n (sheetnames w0)).
Proof.
  intros Hw. unfold _ordenar_hojas_watchlist. rewrite Hw.
  destruct (mem inus_name (sheetnames w0)) eqn:Hi.
  - cbn [bind ret].
    rewrite (bind_ok _ _ _ _ _ (get_wb_ok st w0 Hw)).
    destruct (pick_all_ok (new_order_of (sheetnames w0)) w0 st
                (new_order_mem _ Hi)) as (ws & Hp & Hn).
    rewrite (bind_ok _ _ _ _ _ Hp).
    eexists _, ws, (sheetnames w0). split; [reflexivity|].
    split; [reflexivity|]. split; [exact Hn|].
    intros n. split; [now right|]. intros [-> | H]; [now apply mem_In | exact H].
  - set (w1 := create_sheet inus_name (Some O) w0).
    assert (Hm1 : mem inus_name (sheetnames w1) = true).
    { reflexivity. }
    destruct (poner_encabezados_ok inus_name (set_wb (Some w1) st) w1 eq_refl Hm1)
      as (st2 & w2 & Hp2 & Hw2 & Hn2).
    unfold bind at 1. unfold bind at 1. unfold put_wb at 1, modify at 1.
    rewrite Hp2.
    rewrite (bind_ok _ _ _ _ _ (get_wb_ok st2 w2 Hw2)).
    assert (Hm2 : mem inus_name (sheetnames w2) = true) by now rewrite Hn2.
    destruct (pick_all_ok (new_order_of (sheetnames w2)) w2 st2
                (new_order_mem _ Hm2)) as (ws & Hp & Hn).
    rewrite (bind_ok _ _ _ _ _ Hp).
    eexists _, ws, (sheetnames w2). split; [reflexivity|].
    split; [reflexivity|]. split; [exact Hn|].
    intros n. rewrite Hn2. cbn. split.
    + intros [<- | H]; [now left | now right].
    + intros [-> | H]; [now left | now right].
Qed.

(** The shape [new_order_of] gives: the unusual sheet, the sorted block of
    the watchlist, then the unknown sheet when there is one. *)
Lemma new_order_forma (names : list string) :
  exists watch,
    new_order_of names =
      inus_name :: watch ++ (if mem desc_name names then [desc_name] else [])
    /\ StronglySorted key_le watch
    /\ Forall (fun s => s <> inus_name /\ s <> desc_name) watch
    /\ (forall s, In s watch <-> In s names /\ s <> inus_name /\ s <> desc_name).
Proof.
  exists (sort_lower (filter es_watchlist names)).
  assert (Hw : forall s, es_watchlist s = true <-> s <> inus_name /\ s <> desc_name).
  { intros s. unfold es_watchlist.
    rewrite negb_true_iff, orb_false_iff, !String.eqb_neq. tauto. }
  split; [reflexivity|]. split; [apply sort_lower_sorted|]. split.
  - apply Forall_forall. intros s Hs.
    rewrite sort_lower_In, filter_In in Hs. now apply Hw.
  - intros s. rewrite sort_lower_In, filter_In, Hw. tauto.
Qed.

(** *** Saving *)

#[export] Instance guardado_marco : Marco guardado.
Proof.
  split.
  - intros st. repeat split; auto. exists []. now rewrite app_nil_r.
  - intros a b c (A1 & A2 & A3 & A4 & e1 & A7 & A8)
                 (B1 & B2 & B3 & B4 & e2 & B7 & B8).
    repeat split; try congruence.
    exists (e1 ++ e2). split; [now rewrite B7, A7, app_assoc|].
    apply Forall_app. now split.
Qed.

Lemma guardado_lado_wal (st st' : World) : guardado st st' -> lado_wal st st'.
Proof.
  intros (A1 & A2 & A3 & A4 & A5). repeat split; auto. now rewrite A1.
Qed.

Lemma guardado_atomic (ruta : string) : preserves guardado (atomic_save_workbook ruta).
Proof.
  unfold atomic_save_workbook. destruct (negb (truthy ruta)).
  - marco.
  - intros st r st'. destruct (saves st) as [|[|] rest]; intros [= _ <-]; cbn;
      repeat split; eexists [_]; split; try reflexivity; now repeat constructor.
Qed.

Lemma guardado_sleep (s : PyFloat.float) : preserves guardado (sleep s).
Proof.
  apply preserves_modify; try exact _. intros st. cbn. repeat split.
  exists [EvSleep s]. split; [reflexivity | now repeat constructor].
Qed.

Lemma guardado_safe_save (ruta : string) (intentos : nat) (espera_s : PyFloat.float) :
  preserves guardado (safe_save_workbook ruta intentos espera_s).
Proof.
  unfold safe_save_workbook.
  induction intentos as [|r IH]; cbn [safe_save_turns].
  - marco.
  - apply preserves_try_except; try exact _; [apply guardado_atomic|].
    intros e. destruct r; [marco|].
    apply preserves_bind; try exact _; [apply guardado_sleep | intros _; exact IH].
Qed.

Lemma atomic_save_falla (ruta : string) (st : World) (s : list bool) :
  truthy ruta = true -> saves st = false :: s ->
  atomic_save_workbook ruta st =
    (Raise OSError, add_log (EvSave false) (set_saves s st)).
Proof.
  intros Hr Hs. unfold atomic_save_workbook. rewrite Hr. cbn [negb].
  now rewrite Hs.
Qed.


Lemma safe_save_otro (ruta : string) (e : PyFloat.float) (r : nat)
  (st : World) (s : list bool) :
  truthy ruta = true -> saves st = false :: s ->
  safe_save_turns (S (S r)) ruta e st =
    safe_save_turns (S r) ruta e
      (add_log (EvSleep e) (add_log (EvSave false) (set_saves s st))).
Proof.
  intros Hr Hs.
  change (safe_save_turns (S (S r)) ruta e)
    with (try_except (atomic_save_workbook ruta)
            (fun _ => sleep e ;;; safe_save_turns (S r) ruta e)).
  unfold try_except. now rewrite (atomic_save_falla ruta st s Hr Hs).
Qed.


(** *** The loop of [guardar_tramos] *)

Lemma bind_inv {A B : Type} (m : M A) (k : A -> M B) (st st' : World) (b : B) :
  bind m k st = (Ok b, st') ->
  exists a st1, m st = (Ok a, st1) /\ k a st1 = (Ok b, st').
Proof.
  unfold bind. destruct (m st) as [[a|e] st1]; [|discriminate].
  intros H. now exists a, st1.
Qed.

Lemma bucle_ok (py_hash : string -> Z) (ahora : datetime) (tramos : list TramoNorm) :
  forall c st, exists c' st', bucle py_hash ahora tramos c st = (Ok c', st').
Proof.
  induction tramos as [|t rest IH]; intros c st; cbn [bucle].
  - now exists c, st.
  - unfold bind, try_except.
    destruct (cuerpo py_hash ahora t (strip (nombre t)) c st) as [[c1|e] st1].
    + apply IH.
    + cbn [ret]. apply IH.
Qed.

Lemma cuerpo_desconocido (py_hash : string -> Z) (ahora : datetime)
  (t : TramoNorm) (n : string) (g u i : Z) (st : World) :
  wb st <> None -> es_usual t = None ->
  exists st',
    cuerpo py_hash ahora t n (g, u, i) st =
      (if row_illegal (fila ahora n t) then Raise IllegalCharacterError
       else Ok (g + 1, u, i), st').
Proof.
  intros Hw He. unfold cuerpo. rewrite He.
  destruct (wb st) as [w|] eqn:Ew; [clear Hw | contradiction].
  rewrite (bind_ok _ _ _ _ _ (get_wb_ok st w Ew)).
  assert (Hfin : forall st1 w1, wb st1 = Some w1 ->
            exists st',
              (ws_append desc_name (fila ahora n t) ;;; ret (g + 1, u, i)) st1 =
                (if row_illegal (fila ahora n t) then Raise IllegalCharacterError
                 else Ok (g + 1, u, i), st')).
  { intros st1 w1 E1. unfold bind at 1.
    destruct (row_illegal (fila ahora n t)) eqn:Hr.
    - rewrite (ws_append_illegal _ _ _ Hr). now eexists.
    - rewrite (ws_append_ok _ _ _ _ E1 Hr). now eexists. }
  destruct (mem desc_name (sheetnames w)) eqn:Hm.
  - rewrite (bind_ok _ _ _ _ _ (lookup_ok desc_name st w Ew Hm)).
    eapply Hfin, Ew.
  - set (w1 := create_sheet desc_name None w).
    assert (Hm1 : mem desc_name (sheetnames w1) = true).
    { apply mem_In. unfold w1, create_sheet, sheetnames.
      rewrite map_app, in_app_iff. right. now left. }
    destruct (poner_encabezados_ok desc_name (set_wb (Some w1) st) w1 eq_refl Hm1)
      as (st2 & w2 & Hp2 & Hw2 & _).
    unfold bind at 1. unfold bind at 1. unfold put_wb at 1, modify at 1.
    rewrite Hp2. eapply Hfin, Hw2.
Qed.

Lemma cuerpo_clasificado (py_hash : string -> Z) (ahora : datetime)
  (t : TramoNorm) (n : string) (g u i : Z) (b : bool)
  (st st' : World) (c' : Z * Z * Z) :
  es_usual t = Some b ->
  cuerpo py_hash ahora t n (g, u, i) st = (Ok c', st') ->
  c' = if b then (g + 1, u + 1, i) else (g + 1, u, i + 1).
Proof.
  intros He. unfold cuerpo. rewrite He. destruct b; intros H.
  - repeat (apply bind_inv in H; destruct H as (? & ? & _ & H)).
    now injection H as <- _.
  - apply bind_inv in H. destruct H as (? & ? & _ & H).
    now injection H as <- _.
Qed.

(** The counters of the loop: what [guardados] gains beyond [u] and [i] is
    the number of unknown records whose rows were taken. *)
Lemma bucle_cuenta (py_hash : string -> Z) (ahora : datetime)
  (tramos : list TramoNorm) :
  forall g u i st g' u' i' st',
    wb st <> None ->
    bucle py_hash ahora tramos (g, u, i) st = (Ok (g', u', i'), st') ->
    g' - u' - i' = g - u - i + desconocidos_guardados ahora tramos
    /\ u <= u' /\ i <= i'.
Proof.
  unfold desconocidos_guardados.
  induction tramos as [|t rest IH]; intros g u i st g' u' i' st' Hw; cbn [bucle].
  - intros [= <- <- <- _]. cbn. lia.
  - intros H. apply bind_inv in H. destruct H as ([[g1 u1] i1] & st1 & H1 & H2).
    assert (Hw1 : wb st1 <> None).
    { assert (Hp : preserves hojas
                (try_except (cuerpo py_hash ahora t (strip (nombre t)) (g, u, i))
                            (fun _ => ret (g, u, i)))).
      { apply preserves_try_except; try exact _; [apply hojas_cuerpo|].
        intros e. marco. }
      now apply (Hp _ _ _ H1). }
    specialize (IH _ _ _ _ _ _ _ _ Hw1 H2).
    cbn [filter]. unfold desconocido_legal at 1.
    unfold try_except in H1.
    destruct (es_usual t) as [b|] eqn:He.
    + destruct (cuerpo py_hash ahora t (strip (nombre t)) (g, u, i) st)
        as [[c1|e] stc] eqn:Ec.
      * injection H1 as H1 _. subst c1.
        apply (cuerpo_clasificado _ _ _ _ _ _ _ _ _ _ _ He) in Ec.
        destruct b; injection Ec as -> -> ->; lia.
      * injection H1 as -> -> -> _. lia.
    + destruct (cuerpo_desconocido py_hash ahora t (strip (nombre t)) g u i st Hw He)
        as (stc & Ec).
      rewrite Ec in H1.
      destruct (row_illegal (fila ahora (strip (nombre t)) t)); cbn [negb].
      * injection H1 as -> -> -> _. lia.
      * injection H1 as <- <- <- _. cbn [List.length]. lia.
Qed.

(** *** The steps of [guardar_tramos] *)

Lemma cola_guardar (ruta : string) (c : Z * Z * Z) (st2 st3 st4 : World)
  (r : result string) :
  _ordenar_hojas_watchlist st2 = (Ok tt, st3) ->
  safe_save_workbook ruta intentos_def espera_def st3 = (r, st4) ->
  (try_except
     (_ordenar_hojas_watchlist ;;;
      safe_save_workbook ruta intentos_def espera_def ;;; ret tt)
     (fun _ => ret tt) ;;; ret c) st2 = (Ok c, st4).
Proof.
  intros Ho Hs. unfold bind, try_except. rewrite Ho, Hs.
  now destruct r.
Qed.

(** With a workbook and a path, [guardar_tramos] prepares the fixed sheets,
    runs the loop, reorders, tries to save, and returns the counters of the
    loop whatever the save did. *)
Lemma guardar_tramos_pasos (py_hash : string -> Z) (ahora : datetime)
  (tramos : list TramoNorm) (st : World) (w0 : Workbook) :
  wb st = Some w0 -> sin_ruta st = false ->
  exists st1 c st2 st3 r st4,
    hojas st st1 /\ wb st1 <> None
    /\ bucle py_hash ahora tramos (0, 0, 0) st1 = (Ok c, st2)
    /\ _ordenar_hojas_watchlist st2 = (Ok tt, st3)
    /\ safe_save_workbook (ruta_de st) intentos_def espera_def st3 = (r, st4)
    /\ guardar_tramos py_hash ahora tramos st = (Ok c, st4).
Proof.
  intros Hw Hr.
  (* the sheet of the unusual traffic *)
  assert (HA : exists stA wA,
             (if mem inus_name (sheetnames w0) then ret tt
              else put_wb (create_sheet inus_name (Some O) w0)) st = (Ok tt, stA)
             /\ wb stA = Some wA
             /\ mem inus_name (sheetnames wA) = true
             /\ hojas st stA).
  { destruct (mem inus_name (sheetnames w0)) eqn:Hi.
    - exists st, w0. split; [reflexivity|]. split; [exact Hw|].
      split; [exact Hi | apply marco_refl].
    - eexists _, _. split; [reflexivity|]. split; [reflexivity|].
      split; [reflexivity|].
      eapply hojas_put_wb. reflexivity. }
  destruct HA as (stA & wA & EA & HwA & HiA & HhA).
  destruct (poner_encabezados_ok inus_name stA wA HwA HiA)
    as (stB & wB & EB & HwB & HnB).
  pose proof (hojas_poner_encabezados inus_name _ _ _ EB) as HhB.
  (* the sheet of the unknown ones, when there is one *)
  assert (HC : exists stC,
             (if mem desc_name (sheetnames wB) then _poner_encabezados desc_name
              else ret tt) stB = (Ok tt, stC)
             /\ hojas stB stC).
  { destruct (mem desc_name (sheetnames wB)) eqn:HdB.
    - destruct (poner_encabezados_ok desc_name stB wB HwB HdB)
        as (stC & wC & EC & _).
      exists stC. split; [exact EC|].
      eapply hojas_poner_encabezados, EC.
    - exists stB. split; [reflexivity | apply marco_refl]. }
  destruct HC as (stC & EC & HhC).
  assert (Hh1 : hojas st stC).
  { eapply marco_trans; [exact HhA|]. eapply marco_trans; [exact HhB | exact HhC]. }
  assert (Hw1 : wb stC <> None).
  { destruct Hh1 as (_ & _ & _ & _ & _ & H & _). apply H. now rewrite Hw. }
  destruct (bucle_ok py_hash ahora tramos (0, 0, 0) stC) as (c & st2 & Eb).
  assert (Hw2 : wb st2 <> None).
  { destruct (hojas_bucle py_hash ahora tramos _ _ _ _ Eb)
      as (_ & _ & _ & _ & _ & H & _). now apply H. }
  destruct (wb st2) as [w2|] eqn:Ew2; [clear Hw2 | contradiction].
  destruct (ordenar_ok st2 w2 Ew2) as (st3 & w3 & names & Eo & _).
  destruct (safe_save_workbook (ruta_de st) intentos_def espera_def st3)
    as [r st4] eqn:Es.
  exists stC, c, st2, st3, r, st4.
  repeat (split; [assumption|]).
  unfold guardar_tramos. rewrite Hw, Hr.
  rewrite (bind_ok _ _ _ _ _ EA), (bind_ok _ _ _ _ _ EB).
  rewrite (bind_ok _ _ _ _ _ (get_wb_ok stB wB HwB)), (bind_ok _ _ _ _ _ EC).
  rewrite (bind_ok _ _ _ _ _ Eb).
  apply (cola_guardar _ _ _ _ _ _ Eo Es).
Qed.

Lemma guardar_tramos_sin_libro (py_hash : string -> Z) (ahora : datetime)
  (tramos : list TramoNorm) (st : World) :
  wb st = None \/ sin_ruta st = true ->
  guardar_tramos py_hash ahora tramos st = (Ok (0, 0, 0), st).
Proof.
  unfold guardar_tramos. intros [H | H].
  - now rewrite H.
  - rewrite H. now destruct (wb st).
Qed.

(** [guardar_tramos] never raises, and never touches the side files. *)
Lemma guardar_tramos_lado (py_hash : string -> Z) (ahora : datetime)
  (tramos : list TramoNorm) (st : World) :
  exists c st',
    guardar_tramos py_hash ahora tramos st = (Ok c, st') /\ lado_wal st st'.
Proof.
  destruct (wb st) as [w0|] eqn:Hw.
  - destruct (sin_ruta st) eqn:Hr.
    + exists (0, 0, 0), st. split; [|apply marco_refl].
      apply guardar_tramos_sin_libro. now right.
    + destruct (guardar_tramos_pasos py_hash ahora tramos st w0 Hw Hr)
        as (st1 & c & st2 & st3 & r & st4 & H1 & _ & Hb & Ho & Hs & Hg).
      exists c, st4. split; [exact Hg|].
      eapply marco_trans; [apply hojas_lado_wal, H1|].
      eapply marco_trans; [eapply hojas_lado_wal, hojas_bucle, Hb|].
      eapply marco_trans; [eapply hojas_lado_wal, hojas_ordenar, Ho|].
      eapply guardado_lado_wal, guardado_safe_save, Hs.
  - exists (0, 0, 0), st. split; [|apply marco_refl].
    apply guardar_tramos_sin_libro. now left.
Qed.

(** *** Recovery *)

Section Recuperacion.

Variable py_hash : string -> Z.
Variable ahora : datetime.

(** C9: with a path set, when the WAL file and the commit marker both exist,
    recovery returns after deleting the two files and leaves the workbook, in
    memory and as saved, as it was; and when no WAL file exists, recovery
    changes nothing at all. *)
Theorem recuperacion_sin_reaplicar :
  forall (st : World),
    (forall lines m,
       sin_ruta st = false ->
       wal_file st = Some lines -> mark_file st = Some m ->
       exists st',
         recover_from_wal py_hash ahora st = (Ok tt, st')
         /\ wb st' = wb st /\ disk st' = disk st
         /\ wal_file st' = None /\ mark_file st' = None
         /\ log st' = log st ++ [EvClear])
    /\ (wal_file st = None ->
        recover_from_wal py_hash ahora st = (Ok tt, st)).
Proof.
  intros st. split.
  - intros lines m Hr Hw Hm. unfold recover_from_wal.
    rewrite Hr, Hw, Hm. eexists. split; [reflexivity|].
    cbn. now repeat split.
  - intros Hw. unfold recover_from_wal. rewrite Hw.
    now destruct (sin_ruta st).
Qed.

End Recuperacion.

Lemma recuperacion_sin_reaplicar_witness :
  (exists st',
     recover_from_wal hash_ej ahora_ej mundo_con_marca = (Ok tt, st')
     /\ wb st' = wb mundo_con_marca /\ disk st' = disk mundo_con_marca
     /\ wal_file st' = None /\ mark_file st' = None
     /\ log st' = log mundo_con_marca ++ [EvClear])
  /\ recover_from_wal hash_ej ahora_ej mundo_limpio = (Ok tt, mundo_limpio).
Proof.
  split.
  - apply (proj1 (recuperacion_sin_reaplicar hash_ej ahora_ej mundo_con_marca)
             [JsonLine tramo_ej] "ok"%string); reflexivity.
  - apply (proj2 (recuperacion_sin_reaplicar hash_ej ahora_ej mundo_limpio)).
    reflexivity.
Defined.

(** C1, on the code: whenever a WAL with a readable record and no marker is
    found, recovery raises the [TypeError] of calling [guardar_tramos] with
    the keyword [_skip_wal], which is none of its parameters; the workbook
    is left as it was, in memory and as saved, and the WAL is deleted.  After
    the crash of the example the uninterrupted transaction would have left
    two sheets, recovery leaves the one there was. *)
Theorem recuperacion_no_reaplica :
  (forall py_hash ahora libro c ruta_resto t lines guardado_ previos eventos,
     recover_from_wal py_hash ahora
       (mkWorld libro (Some (String c ruta_resto)) (Some (JsonLine t :: lines))
                None guardado_ previos eventos)
     = (Raise TypeError,
        mkWorld libro (Some (String c ruta_resto)) None None guardado_ previos
                (eventos ++ [EvClear])))
  /\ option_map sheetnames
       (wb (snd (recover_from_wal hash_ej ahora_ej mundo_tras_caida)))
     = Some [inus_name]
  /\ option_map sheetnames
       (wb (snd (guardar_tramos hash_ej ahora_ej [tramo_ej] mundo_limpio)))
     = Some [inus_name; "Ave X_000"%string].
Proof.
  split; [|split; vm_compute; reflexivity].
  intros. reflexivity.
Qed.

(** *** The write-ahead log in [guardar_tramos] *)

(** C2, on the code: [guardar_tramos] always returns, leaves the WAL file and
    the commit marker exactly as it found them, and none of its effects is a
    write of the WAL, of the marker, or their removal: the transaction never
    is in the state Logged.  In the example the rows are appended and the
    workbook saved while no WAL file ever existed. *)
Theorem guardar_tramos_sin_wal :
  (forall py_hash ahora tramos st,
     exists c st' evs,
       guardar_tramos py_hash ahora tramos st = (Ok c, st')
       /\ wal_file st' = wal_file st
       /\ mark_file st' = mark_file st
       /\ log st' = log st ++ evs
       /\ Forall sin_wal evs)
  /\ (let '(r, st') := guardar_tramos hash_ej ahora_ej [tramo_ej] mundo_limpio in
      r = Ok (1, 1, 0)
      /\ wal_file st' = None /\ mark_file st' = None
      /\ log st' =
           [EvAppend "Ave X_000"%string encabezados;
            EvAppend "Ave X_000"%string (fila ahora_ej "Ave X"%string tramo_ej);
            EvSave true]).
Proof.
  split.
  - intros py_hash ahora tramos st.
    destruct (guardar_tramos_lado py_hash ahora tramos st)
      as (c & st' & Hg & _ & Hw & Hm & _ & evs & Hl & He).
    now exists c, st', evs.
  - vm_compute. repeat split.
Qed.

(** *** A save that keeps failing *)




(** *** Sheet names *)

Lemma take_length (n : nat) (s : string) : (String.length (take n s) <= n)%nat.
Proof.
  revert s. induction n as [|n IH]; intros [|c s]; cbn; try lia.
  specialize (IH s). lia.
Qed.

Lemma take_all (n : nat) (s : string) :
  (String.length s <= n)%nat -> take n s = s.
Proof.
  revert s. induction n as [|n IH]; intros [|c s]; cbn; intros H;
    try reflexivity; try lia.
  f_equal. apply IH. lia.
Qed.

Lemma string_length_app (a b : string) :
  String.length (a ++ b)%string = (String.length a + String.length b)%nat.
Proof. induction a as [|c a IH]; cbn; [reflexivity | now rewrite IH]. Qed.

Lemma fmt_03d_mil : forallb (fun n => tres_digitos (fmt_0d 3 (Z.of_nat n))) (seq 0 1000) = true.
Proof. vm_compute. reflexivity. Qed.

Lemma fmt_03d (k : Z) : 0 <= k < 1000 -> tres_digitos (fmt_0d 3 k) = true.
Proof.
  intros Hk. pose proof fmt_03d_mil as H.
  rewrite forallb_forall in H. specialize (H (Z.to_nat k)).
  rewrite Z2Nat.id in H by lia. apply H. apply in_seq. lia.
Qed.

(** Every sheet name that [nombre_hoja_seguro] gives is a base of at most 27
    characters followed by an underscore and three digits; the cut at 31
    characters never removes anything. *)
Lemma nombre_hoja_seguro_forma (py_hash : string -> Z) (s : string) :
  nombre_hoja_seguro py_hash s
    = (base_de s ++ "_" ++ sufijo_de py_hash s)%string
  /\ tres_digitos (sufijo_de py_hash s) = true.
Proof.
  assert (H3 : tres_digitos (sufijo_de py_hash s) = true).
  { apply fmt_03d. apply Z.mod_pos_bound. lia. }
  split; [|exact H3].
  unfold nombre_hoja_seguro. fold (base_de s). fold (sufijo_de py_hash s).
  apply take_all.
  rewrite string_length_app.
  pose proof (take_length 27 (subst_chars _sheet_forbidden " "
       (subst_chars (is_char "/") " /"
          (subst_chars (is_char ":") " -" (strip s))))) as Hb.
  fold (base_de s) in Hb.
  destruct (sufijo_de py_hash s) as [|a [|b [|c [|? ?]]]]; try discriminate.
  change (String.length ("_" ++ String a (String b (String c "")))%string)
    with 4%nat.
  lia.
Qed.

(** No such name is the title of one of the two fixed sheets. *)
Lemma nombre_hoja_seguro_no_fija (py_hash : string -> Z) (s : string) :
  nombre_hoja_seguro py_hash s <> inus_name
  /\ nombre_hoja_seguro py_hash s <> desc_name.
Proof.
  destruct (nombre_hoja_seguro_forma py_hash s) as (E & H3).
  rewrite E. clear E.
  destruct (sufijo_de py_hash s) as [|a [|b [|c [|? ?]]]]; try discriminate.
  cbn in H3. apply andb_prop in H3. destruct H3 as [H3 Hc].
  generalize (base_de s). intros base.
  split; intros H.
  - do 17 (destruct base as [|? base]; cbn in H; try discriminate;
           injection H as _ H).
    all: try (subst; discriminate).
    all: destruct base; discriminate.
  - do 13 (destruct base as [|? base]; cbn in H; try discriminate;
           injection H as _ H).
    all: try (subst; discriminate).
    all: destruct base; discriminate.
Qed.

(** *** The hash enters through the sheet name only *)









(** *** The scenario of the repeated record *)






(** *** The order of the sheets *)

Lemma mem_desc_new_order (names : list string) :
  mem desc_name (new_order_of names) = mem desc_name names.
Proof.
  destruct (new_order_forma names) as (watch & E & _ & Hf & _).
  rewrite E. destruct (mem desc_name names) eqn:Hd.
  - apply mem_In. right. apply in_or_app. right. now left.
  - destruct (mem desc_name (inus_name :: watch ++ [])) eqn:Hm; [|reflexivity].
    apply mem_In in Hm. rewrite app_nil_r in Hm.
    destruct Hm as [Hm | Hm]; [discriminate|].
    rewrite Forall_forall in Hf. now destruct (Hf _ Hm).
Qed.

(** X22: on a workbook with plain titles and a batch of plain records, no
    two of the titles involved differing in the case of their letters only
    (openpyxl then creates every sheet under the title asked for), after the
    batch that [guardar_tramos] appends the titles of the sheets are: the
    sheet of the unusual traffic first, then all the other sheets but the
    one of the unknown segments, sorted by their titles in lower case, then
    the sheet of the unknown segments when there is one.  Sheets "Z-Ave",
    "a-Blvd" and "Main St" inserted before a batch of one unusual and one
    unknown record come out in the order unusual, a-Blvd, Main St, Z-Ave,
    unknown; so do, under their sheet names, the sheets of a batch with
    these three segments of the watchlist. *)
Theorem orden_de_hojas :
  (forall py_hash ahora tramos st w0,
     wb st = Some w0 -> sin_ruta st = false ->
     DominioTerms.titulos_llanos (sheetnames w0) = true ->
     DominioTerms.lote_llano tramos = true ->
     SheetTerms.sin_choques
       (sheetnames w0 ++ SheetTerms.titulos_del_lote py_hash tramos) = true ->
     exists c st' w' watch,
       guardar_tramos py_hash ahora tramos st = (Ok c, st')
       /\ wb st' = Some w'
       /\ sheetnames w' =
            inus_name :: watch
            ++ (if mem desc_name (sheetnames w') then [desc_name] else [])
       /\ StronglySorted key_le watch
       /\ Forall (fun s => s <> inus_name /\ s <> desc_name) watch)
  /\ option_map sheetnames
       (wb (snd ((_insertar_hoja_watchlist_en_posicion "Z-Ave" ;;;
                  _insertar_hoja_watchlist_en_posicion "a-Blvd" ;;;
                  _insertar_hoja_watchlist_en_posicion "Main St" ;;;
                  guardar_tramos hash_ej ahora_ej
                    [tramo_de "Centro" "unusual"; tramo_de "Sur" ""])
                 mundo_limpio)))
     = Some [inus_name; "a-Blvd"; "Main St"; "Z-Ave"; desc_name]%string
  /\ option_map sheetnames
       (wb (snd (guardar_tramos hash_ej ahora_ej lote_orden mundo_limpio)))
     = Some [inus_name; nombre_hoja_seguro hash_ej "a-Blvd";
             nombre_hoja_seguro hash_ej "Main St";
             nombre_hoja_seguro hash_ej "Z-Ave"; desc_name].
Proof.
  split; [|split; vm_compute; reflexivity].
  intros py_hash ahora tramos st w0 Hw Hr _ _ _.
  destruct (guardar_tramos_pasos py_hash ahora tramos st w0 Hw Hr)
    as (st1 & c & st2 & st3 & r & st4 & H1 & Hw1 & Hb & Ho & Hs & Hg).
  assert (Hw2 : wb st2 <> None).
  { destruct (hojas_bucle py_hash ahora tramos _ _ _ _ Hb)
      as (_ & _ & _ & _ & _ & H & _). now apply H. }
  destruct (wb st2) as [w2|] eqn:Ew2; [clear Hw2 | contradiction].
  destruct (ordenar_ok st2 w2 Ew2) as (st3' & w3 & names & Eo & Hw3 & Hn3 & _).
  rewrite Ho in Eo. injection Eo as <-.
  destruct (guardado_safe_save _ _ _ _ _ _ Hs) as (Hw4 & _).
  destruct (new_order_forma names) as (watch & E & Hsorted & Hf & _).
  exists c, st4, w3, watch.
  split; [exact Hg|]. split; [now rewrite Hw4|].
  split; [|split; assumption].
  now rewrite Hn3, mem_desc_new_order.
Qed.

Lemma orden_de_hojas_witness :
  exists c st' w' watch,
    guardar_tramos hash_ej ahora_ej lote_orden mundo_limpio = (Ok c, st')
    /\ wb st' = Some w'
    /\ sheetnames w' =
         inus_name :: watch
         ++ (if mem desc_name (sheetnames w') then [desc_name] else [])
    /\ StronglySorted key_le watch
    /\ Forall (fun s => s <> inus_name /\ s <> desc_name) watch.
Proof.
  apply (proj1 orden_de_hojas hash_ej ahora_ej lote_orden mundo_limpio libro_ej);
    vm_compute; reflexivity.
Defined.

(** *** Rows of data on the sheet of the unknown segments *)

#[export] Instance mismos_datos_marco : Marco mismos_datos.
Proof.
  split.
  - intros st. reflexivity.
  - intros a b c H1 H2. unfold mismos_datos in *. congruence.
Qed.

Lemma n_datos_add_log (e : event) (st : World) :
  n_datos (add_log e st) = (n_datos st + if dato_desconocido e then 1 else 0)%nat.
Proof.
  unfold n_datos. cbn [log add_log]. rewrite filter_app, List.length_app.
  cbn [filter]. now destruct (dato_desconocido e).
Qed.

Lemma datos_put_wb (w : Workbook) : preserves mismos_datos (put_wb w).
Proof. apply preserves_modify; try exact _. intros st. reflexivity. Qed.

Lemma datos_add_log (e : event) :
  dato_desconocido e = false -> preserves mismos_datos (modify (add_log e)).
Proof.
  intros He. apply preserves_modify; try exact _. intros st.
  unfold mismos_datos. rewrite n_datos_add_log, He. lia.
Qed.

Lemma fila_no_encabezado (ahora : datetime) (n : string) (t : TramoNorm) :
  es_encabezado (fila ahora n t) = false.
Proof.
  unfold es_encabezado, fila. cbn [list_eqb encabezados].
  destruct (tiempo_seg t); cbn [cell_eqb]; cbn;
    repeat rewrite andb_false_r; reflexivity.
Qed.

Ltac marco_datos :=
  repeat first
    [ exact _
    | apply preserves_ret
    | apply preserves_raise
    | apply preserves_get_wb
    | apply datos_put_wb
    | apply preserves_bind; [| | intros ?]
    | apply preserves_try_except; [| | intros ?]
    | apply preserves_si_wb; [| intros ?]
    | match goal with
      | |- preserves ?R (fun st => ?f st) => change (preserves R f)
      | |- preserves _ (if ?b then _ else _) => destruct b
      | |- preserves _ (match ?x with _ => _ end) => destruct x
      end ].

Lemma datos_ws_append (t : string) (r : row) :
  String.eqb t desc_name && negb (es_encabezado r) = false ->
  preserves mismos_datos (ws_append t r).
Proof. intros H. unfold ws_append. marco_datos. now apply datos_add_log. Qed.

Lemma datos_lookup (t : string) : preserves mismos_datos (lookup t).
Proof. unfold lookup. marco_datos. Qed.

Lemma datos_poner_encabezados (t : string) :
  preserves mismos_datos (_poner_encabezados t).
Proof.
  unfold _poner_encabezados. marco_datos.
  apply datos_add_log. cbn [dato_desconocido].
  change (es_encabezado encabezados) with true. apply andb_false_r.
Qed.

Lemma datos_pick_all (names : list string) (w : Workbook) :
  preserves mismos_datos (pick_all names w).
Proof. induction names as [|n ns IH]; cbn [pick_all]; marco_datos. exact IH. Qed.

(** [marco_datos], the calls of the lemmas above taken whole. *)
Ltac marco_hojas_datos :=
  repeat first
    [ exact _
    | apply datos_poner_encabezados
    | apply datos_lookup
    | apply datos_pick_all
    | apply preserves_ret
    | apply preserves_raise
    | apply preserves_get_wb
    | apply datos_put_wb
    | apply preserves_bind; [| | intros ?]
    | apply preserves_try_except; [| | intros ?]
    | apply preserves_si_wb; [| intros ?]
    | match goal with
      | |- preserves ?R (fun st => ?f st) => change (preserves R f)
      | |- preserves _ (if ?b then _ else _) => destruct b
      | |- preserves _ (match ?x with _ => _ end) => destruct x
      end ].

Lemma datos_ordenar : preserves mismos_datos _ordenar_hojas_watchlist.
Proof. unfold _ordenar_hojas_watchlist. marco_hojas_datos. Qed.

Lemma datos_insertar (title : string) :
  preserves mismos_datos (_insertar_hoja_watchlist_en_posicion title).
Proof. unfold _insertar_hoja_watchlist_en_posicion. marco_hojas_datos. Qed.

Lemma datos_safe_save (ruta : string) (intentos : nat) (espera_s : PyFloat.float) :
  preserves mismos_datos (safe_save_workbook ruta intentos espera_s).
Proof.
  assert (Ha : preserves mismos_datos (atomic_save_workbook ruta)).
  { unfold atomic_save_workbook. destruct (negb (truthy ruta)); [marco_datos|].
    intros st r st'. unfold mismos_datos.
    destruct (saves st) as [|[|] rest]; intros [= _ <-];
      now rewrite n_datos_add_log, Nat.add_0_r. }
  unfold safe_save_workbook.
  induction intentos as [|r IH]; cbn [safe_save_turns]; [marco_datos|].
  apply preserves_try_except; try exact _; [exact Ha|].
  intros e. destruct r; [marco_datos|].
  apply preserves_bind; try exact _; [|intros _; exact IH].
  now apply datos_add_log.
Qed.

(** A record that is not unknown adds no row to that sheet. *)
Lemma datos_cuerpo_clasificado (py_hash : string -> Z) (ahora : datetime)
  (t : TramoNorm) (n : string) (c : Z * Z * Z) (b : bool) :
  es_usual t = Some b ->
  preserves mismos_datos (cuerpo py_hash ahora t n c).
Proof.
  intros He. unfold cuerpo. destruct c as [[g u] i]. rewrite He.
  destruct b.
  - apply preserves_bind; try exact _; [marco_datos | intros w].
    apply preserves_bind; try exact _; [|intros _].
    { destruct (mem _ _); [marco_datos | apply datos_insertar]. }
    apply preserves_bind; try exact _; [apply datos_lookup | intros _].
    apply preserves_bind; try exact _; [apply datos_poner_encabezados | intros _].
    apply preserves_bind; try exact _; [|intros _; marco_datos].
    apply datos_ws_append.
    destruct (nombre_hoja_seguro_no_fija py_hash n) as (_ & H).
    apply String.eqb_neq in H. now rewrite H.
  - apply preserves_bind; try exact _; [|intros _; marco_datos].
    apply datos_ws_append. reflexivity.
Qed.

(** An unknown record adds one, when its row is taken. *)
Lemma datos_cuerpo_desconocido (py_hash : string -> Z) (ahora : datetime)
  (t : TramoNorm) (n : string) (c : Z * Z * Z) (st st' : World)
  (r : result (Z * Z * Z)) :
  wb st <> None -> es_usual t = None ->
  cuerpo py_hash ahora t n c st = (r, st') ->
  n_datos st' =
    (n_datos st + if row_illegal (fila ahora n t) then 0 else 1)%nat.
Proof.
  intros Hw He. unfold cuerpo. destruct c as [[g u] i]. rewrite He.
  destruct (wb st) as [w|] eqn:Ew; [clear Hw | contradiction].
  rewrite (bind_ok _ _ _ _ _ (get_wb_ok st w Ew)).
  assert (Hfin : forall st1 w1, wb st1 = Some w1 ->
            (ws_append desc_name (fila ahora n t) ;;; ret (g + 1, u, i)) st1 = (r, st') ->
            n_datos st' =
              (n_datos st1 + if row_illegal (fila ahora n t) then 0 else 1)%nat).
  { intros st1 w1 E1. unfold bind at 1.
    destruct (row_illegal (fila ahora n t)) eqn:Hr.
    - rewrite (ws_append_illegal _ _ _ Hr). intros [= _ <-]. lia.
    - rewrite (ws_append_ok _ _ _ _ E1 Hr). intros [= _ <-].
      rewrite n_datos_add_log. cbn [dato_desconocido].
      rewrite fila_no_encabezado. reflexivity. }
  destruct (mem desc_name (sheetnames w)) eqn:Hm.
  - rewrite (bind_ok _ _ _ _ _ (lookup_ok desc_name st w Ew Hm)).
    eapply Hfin, Ew.
  - set (w1 := create_sheet desc_name None w).
    assert (Hm1 : mem desc_name (sheetnames w1) = true).
    { apply mem_In. unfold w1, create_sheet, sheetnames.
      rewrite map_app, in_app_iff. right. now left. }
    destruct (poner_encabezados_ok desc_name (set_wb (Some w1) st) w1 eq_refl Hm1)
      as (st2 & w2 & Hp2 & Hw2 & _).
    unfold bind at 1. unfold bind at 1. unfold put_wb at 1, modify at 1.
    rewrite Hp2. intros H.
    rewrite (Hfin st2 w2 Hw2 H).
    now rewrite (datos_poner_encabezados desc_name _ _ _ Hp2).
Qed.

Lemma bucle_datos (py_hash : string -> Z) (ahora : datetime)
  (tramos : list TramoNorm) :
  forall c st c' st',
    wb st <> None ->
    bucle py_hash ahora tramos c st = (Ok c', st') ->
    Z.of_nat (n_datos st') =
      Z.of_nat (n_datos st) + desconocidos_guardados ahora tramos.
Proof.
  unfold desconocidos_guardados.
  induction tramos as [|t rest IH]; intros c st c' st' Hw; cbn [bucle].
  - intros [= _ <-]. cbn. lia.
  - intros H. apply bind_inv in H. destruct H as (c1 & st1 & H1 & H2).
    assert (Hw1 : wb st1 <> None).
    { assert (Hp : preserves hojas
                (try_except (cuerpo py_hash ahora t (strip (nombre t)) c)
                            (fun _ => ret c))).
      { apply preserves_try_except; try exact _; [apply hojas_cuerpo|].
        intros e. marco. }
      now apply (Hp _ _ _ H1). }
    rewrite (IH _ _ _ _ Hw1 H2). cbn [filter]. unfold desconocido_legal at 2.
    destruct (es_usual t) as [b|] eqn:He.
    + assert (Hp : preserves mismos_datos
                (try_except (cuerpo py_hash ahora t (strip (nombre t)) c)
                            (fun _ => ret c))).
      { apply preserves_try_except; try exact _.
        - eapply datos_cuerpo_clasificado, He.
        - intros e. marco_datos. }
      rewrite (Hp _ _ _ H1). lia.
    + unfold try_except in H1.
      destruct (cuerpo py_hash ahora t (strip (nombre t)) c st) as [r stc] eqn:Ec.
      pose proof (datos_cuerpo_desconocido _ _ _ _ _ _ _ _ Hw He Ec) as Hn.
      assert (stc = st1) by (destruct r; now injection H1).
      subst stc. rewrite Hn.
      destruct (row_illegal (fila ahora (strip (nombre t)) t)); cbn [negb List.length]; lia.
Qed.

Lemma guardar_tramos_inv (py_hash : string -> Z) (ahora : datetime)
  (tramos : list TramoNorm) (st st' : World) (w0 : Workbook) (c : Z * Z * Z) :
  wb st = Some w0 -> sin_ruta st = false ->
  guardar_tramos py_hash ahora tramos st = (Ok c, st') ->
  exists st1 st2,
    mismos_datos st st1 /\ wb st1 <> None
    /\ bucle py_hash ahora tramos (0, 0, 0) st1 = (Ok c, st2)
    /\ mismos_datos st2 st'.
Proof.
  intros Hw Hr. unfold guardar_tramos. rewrite Hw, Hr. intros H.
  apply bind_inv in H. destruct H as (? & stA & EA & H).
  apply bind_inv in H. destruct H as (? & stB & EB & H).
  apply bind_inv in H. destruct H as (w1 & stB' & EG & H).
  apply bind_inv in H. destruct H as (? & stC & EC & H).
  apply bind_inv in H. destruct H as (c' & st2 & Eb & H).
  apply bind_inv in H. destruct H as (? & st3 & Et & H).
  injection H as <- <-.
  assert (PA : forall R, Marco R -> (forall w, preserves R (put_wb w)) ->
                preserves R (if mem inus_name (sheetnames w0) then ret tt
                             else put_wb (create_sheet inus_name (Some O) w0))).
  { intros R HR Hp. destruct (mem inus_name (sheetnames w0));
      [apply preserves_ret; exact _ | apply Hp]. }
  assert (PC : forall R, Marco R -> preserves R (_poner_encabezados desc_name) ->
                preserves R (if mem desc_name (sheetnames w1)
                             then _poner_encabezados desc_name else ret tt)).
  { intros R HR Hp. destruct (mem desc_name (sheetnames w1));
      [exact Hp | apply preserves_ret; exact _]. }
  assert (stB' = stB).
  { unfold get_wb in EG. destruct (wb stB); now injection EG. }
  subst stB'.
  exists stC, st2. split; [|split; [|split]].
  - eapply marco_trans; [eapply (PA mismos_datos _ datos_put_wb), EA|].
    eapply marco_trans; [eapply datos_poner_encabezados, EB|].
    eapply (PC mismos_datos _ (datos_poner_encabezados _)), EC.
  - assert (Hh : hojas st stC).
    { eapply marco_trans; [eapply (PA hojas _ hojas_put_wb), EA|].
      eapply marco_trans; [eapply hojas_poner_encabezados, EB|].
      eapply (PC hojas _ (hojas_poner_encabezados _)), EC. }
    destruct Hh as (_ & _ & _ & _ & _ & Hh & _). apply Hh. now rewrite Hw.
  - exact Eb.
  - revert Et. apply preserves_try_except; try exact _.
    + apply preserves_bind; try exact _; [apply datos_ordenar | intros _].
      apply preserves_bind; try exact _; [apply datos_safe_save | intros _].
      apply preserves_ret; exact _.
    + intros e. apply preserves_ret; exact _.
Qed.

(** C10: [guardar_tramos] always returns its three counters, and the total
    is the count of the watchlist plus the count of the unusual ones plus the
    number of rows of data that the call appended to the sheet of the unknown
    segments, which, with a workbook and a path, is the number of unknown
    records of the batch whose rows the workbook takes; a batch of one
    unknown record gives the total 1 with both counts 0. *)
Theorem total_guardados :
  (forall py_hash ahora tramos st,
     exists g u i st',
       guardar_tramos py_hash ahora tramos st = (Ok (g, u, i), st')
       /\ g = u + i + (Z.of_nat (n_datos st') - Z.of_nat (n_datos st))
       /\ 0 <= u /\ 0 <= i /\ (n_datos st <= n_datos st')%nat
       /\ (wb st <> None -> sin_ruta st = false ->
           Z.of_nat (n_datos st') - Z.of_nat (n_datos st)
             = desconocidos_guardados ahora tramos))
  /\ guardar_tramos hash_ej ahora_ej [tramo_de "Sur" ""] mundo_limpio
     = (Ok (1, 0, 0),
        snd (guardar_tramos hash_ej ahora_ej [tramo_de "Sur" ""] mundo_limpio))
  /\ n_datos (snd (guardar_tramos hash_ej ahora_ej [tramo_de "Sur" ""] mundo_limpio))
     = 1%nat.
Proof.
  split; [|split; vm_compute; reflexivity].
  intros py_hash ahora tramos st.
  destruct (guardar_tramos_lado py_hash ahora tramos st) as ([[g u] i] & st' & Hg & _).
  exists g, u, i, st'. split; [exact Hg|].
  destruct (wb st) as [w0|] eqn:Hw.
  - destruct (sin_ruta st) eqn:Hr.
    + rewrite (guardar_tramos_sin_libro py_hash ahora tramos st) in Hg
        by now right.
      injection Hg as <- <- <- <-. repeat split; try lia; try congruence.
    + destruct (guardar_tramos_inv _ _ _ _ _ _ _ Hw Hr Hg)
        as (st1 & st2 & D1 & Hw1 & Eb & D2).
      pose proof (bucle_cuenta _ _ _ _ _ _ _ _ _ _ _ Hw1 Eb) as (Hc & Hu & Hi).
      pose proof (bucle_datos _ _ _ _ _ _ _ Hw1 Eb) as Hd.
      unfold mismos_datos in D1, D2. rewrite D1 in Hd. rewrite D2.
      assert (0 <= desconocidos_guardados ahora tramos)
        by (unfold desconocidos_guardados; lia).
      repeat split; try lia.
  - rewrite (guardar_tramos_sin_libro py_hash ahora tramos st) in Hg
      by now left.
    injection Hg as <- <- <- <-. repeat split; try lia; try congruence.
Qed.

Lemma total_guardados_witness :
  exists g u i st',
    guardar_tramos hash_ej ahora_ej lote_orden mundo_limpio = (Ok (g, u, i), st')
    /\ g = u + i + (Z.of_nat (n_datos st') - Z.of_nat (n_datos mundo_limpio))
    /\ Z.of_nat (n_datos st') - Z.of_nat (n_datos mundo_limpio)
       = desconocidos_guardados ahora_ej lote_orden.
Proof.
  destruct (proj1 total_guardados hash_ej ahora_ej lote_orden mundo_limpio)
    as (g & u & i & st' & Hg & He & _ & _ & _ & Hd).
  exists g, u, i, st'. split; [exact Hg|]. split; [exact He|].
  apply Hd; [discriminate | reflexivity].
Defined.

End StorageFacts.

(* ------------------------------------------------------------------ *)
(** * Further properties of the parsers *)

Module ParserFacts.

Import PyStr Models Analyzer AnalyzerTerms ParserTerms.

(** *** Decimal texts *)

Lemma digitos_desde_acc (d : Decimal.uint) :
  forall acc : positive,
    digitos_desde (NilEmpty.string_of_uint d) (Zpos acc)
      = Zpos (Pos.of_uint_acc d acc).
Proof.
  induction d; intros acc; cbn [NilEmpty.string_of_uint digitos_desde Pos.of_uint_acc];
    [reflexivity | ..];
    match goal with
    | |- digitos_desde _ ?z = Zpos (Pos.of_uint_acc _ ?p) =>
        replace z with (Zpos p)
          by (unfold digit_val, code; simpl (Z.of_nat _); lia)
    end; apply IHd.
Qed.

Lemma digitos_desde_cero (d : Decimal.uint) :
  digitos_desde (NilEmpty.string_of_uint d) 0 = Z.of_N (Pos.of_uint d).
Proof.
  induction d; cbn [NilEmpty.string_of_uint digitos_desde Pos.of_uint];
    [reflexivity | exact IHd | ..];
    match goal with
    | |- digitos_desde _ ?z = _ =>
        let p := constr:(Z.to_pos z) in
        change z with (Zpos (Z.to_pos z))
    end; rewrite digitos_desde_acc; reflexivity.
Qed.

(** [int(str(n)) == n] for a natural number. *)
Lemma int_of_digits_str (n : Z) : 0 <= n -> int_of_digits (str_of_Z n) = n.
Proof.
  intros Hn. change (int_of_digits (str_of_Z n)) with (digitos_desde (str_of_Z n) 0).
  destruct n as [|p|p]; [reflexivity | | lia].
  unfold str_of_Z. cbn [Z.to_int NilZero.string_of_int].
  pose proof (DecimalPos.Unsigned.to_uint_nonnil p) as Hnil.
  unfold NilZero.string_of_uint.
  destruct (Pos.to_uint p) eqn:E; [congruence | ..];
    rewrite <- E, digitos_desde_cero, DecimalPos.Unsigned.of_to; reflexivity.
Qed.

Lemma str_of_Z_uint (n : Z) :
  0 <= n -> exists d, d <> Nil /\ str_of_Z n = NilEmpty.string_of_uint d.
Proof.
  intros Hn. destruct n as [|p|p]; [now exists (D0 Nil) | | lia].
  exists (Pos.to_uint p). split; [apply DecimalPos.Unsigned.to_uint_nonnil|].
  unfold str_of_Z. cbn [Z.to_int NilZero.string_of_int].
  pose proof (DecimalPos.Unsigned.to_uint_nonnil p).
  unfold NilZero.string_of_uint. now destruct (Pos.to_uint p).
Qed.

Lemma uint_truthy (d : Decimal.uint) :
  d <> Nil -> truthy (NilEmpty.string_of_uint d) = true.
Proof. destruct d; [congruence | reflexivity ..]. Qed.

Lemma truthy_app_r (a b : string) : truthy b = true -> truthy (a ++ b) = true.
Proof. destruct a; [trivial | reflexivity]. Qed.

Lemma truthy_app_l (a b : string) : truthy a = true -> truthy (a ++ b) = true.
Proof. destruct a; [discriminate | reflexivity]. Qed.

(** The digits of a number are cut off by [span] where a character of
    another class follows. *)
Lemma span_uint (p : ascii -> bool) (d : Decimal.uint) (rest : string) :
  (forall c, is_digit c = true -> p c = true) ->
  match rest with EmptyString => True | String c _ => p c = false end ->
  span p (NilEmpty.string_of_uint d ++ rest) = (NilEmpty.string_of_uint d, rest).
Proof.
  intros Hp Hr.
  induction d; cbn [NilEmpty.string_of_uint append span];
    [ destruct rest as [|c rest]; cbn [span]; [reflexivity | now rewrite Hr] | ..];
    rewrite Hp by reflexivity; now rewrite IHd.
Qed.

Lemma span_espacios (sep rest : string) :
  solo_espacios sep = true ->
  match rest with EmptyString => True | String c _ => is_space c = false end ->
  span is_space (sep ++ rest) = (sep, rest).
Proof.
  intros Hs Hr. induction sep as [|c sep IH]; cbn [append span].
  - destruct rest as [|c rest]; cbn [span]; [reflexivity | now rewrite Hr].
  - cbn in Hs. apply andb_prop in Hs. destruct Hs as [Hc Hs].
    rewrite Hc. now rewrite IH.
Qed.

Lemma search_pre {A : Type} (at_ : string -> option A) (pre s : string) :
  (forall c t, In c (list_ascii_of_string pre) -> at_ (String c t) = None) ->
  search at_ (pre ++ s) = search at_ s.
Proof.
  induction pre as [|c pre IH]; intros H; [reflexivity|].
  cbn [append]. cbn [search]. rewrite (H c) by now left.
  apply IH. intros c' t Hc'. apply H. now right.
Qed.

Lemma sin_digitos_In (pre : string) (c : ascii) :
  sin_digitos pre = true -> In c (list_ascii_of_string pre) -> is_digit c = false.
Proof.
  induction pre as [|x pre IH]; cbn; [tauto|].
  intros H [<- | Hc].
  - apply andb_prop in H. now destruct (is_digit x).
  - apply andb_prop in H. now apply IH.
Qed.

Lemma sin_numericos_In (pre : string) (c : ascii) :
  sin_numericos pre = true -> In c (list_ascii_of_string pre) -> is_num_char c = false.
Proof.
  induction pre as [|x pre IH]; cbn [sin_numericos list_ascii_of_string In]; [tauto|].
  intros H [<- | Hc].
  - apply andb_prop in H. now destruct (is_num_char x).
  - apply andb_prop in H. now apply IH.
Qed.

Lemma minutos_at_no_digito (c : ascii) (t : string) :
  is_digit c = false -> minutos_at (String c t) = None.
Proof. intros H. unfold minutos_at. cbn [span]. now rewrite H. Qed.

Lemma kmh_at_no_num (c : ascii) (t : string) :
  is_num_char c = false -> kmh_at (String c t) = None.
Proof. intros H. unfold kmh_at. cbn [span]. now rewrite H. Qed.

Lemma km_at_no_num (c : ascii) (t : string) :
  is_num_char c = false -> km_at (String c t) = None.
Proof. intros H. unfold km_at. cbn [span]. now rewrite H. Qed.

Lemma search_some {A : Type} (at_ : string -> option A) (s : string) (x : A) :
  at_ s = Some x -> search at_ s = Some x.
Proof. intros H. destruct s; cbn [search]; now rewrite H. Qed.

Lemma space_no_num (c : ascii) : is_space c = true -> is_num_char c = false.
Proof. destruct c as [[] [] [] [] [] [] [] []]; vm_compute; intros; congruence. Qed.

Lemma num_digit (c : ascii) : is_digit c = true -> is_num_char c = true.
Proof. unfold is_num_char. now intros ->. Qed.

Lemma no_num_no_digit (c : ascii) : is_num_char c = false -> is_digit c = false.
Proof. unfold is_num_char. now destruct (is_digit c). Qed.

(** What follows the digits, a run of white space and then a letter, does
    not start with a character of the number. *)
Lemma tras_digitos (sep : string) (l : ascii) (rest : string) :
  solo_espacios sep = true -> is_num_char l = false ->
  match (sep ++ String l rest)%string with
  | EmptyString => True
  | String c _ => is_num_char c = false
  end.
Proof.
  intros Hs Hl. destruct sep as [|c sep]; cbn [append]; [exact Hl|].
  cbn in Hs. apply andb_prop in Hs. now apply space_no_num.
Qed.

Lemma tras_espacios (l : ascii) (rest : string) :
  is_space l = false ->
  match String l rest with
  | EmptyString => True
  | String c _ => is_space c = false
  end.
Proof. trivial. Qed.

Lemma match_ci_lit (post : string) :
  match_ci "min" ("min" ++ post) = Some post
  /\ match_ci "min" ("minutos" ++ post) = Some ("utos" ++ post)
  /\ match_ci "utos" ("utos" ++ post) = Some post
  /\ match_ci "km" ("km" ++ post) = Some post
  /\ match_ci "km" ("km/h" ++ post) = Some ("/h" ++ post)
  /\ match_ci "h" ("/h" ++ post) = None
  /\ match_ci "/" ("/h" ++ post) = Some ("h" ++ post)
  /\ match_ci "h" ("h" ++ post) = Some post.
Proof. repeat split. Qed.

Lemma minutos_at_uint (d : Decimal.uint) (sep post : string) :
  d <> Nil -> solo_espacios sep = true -> word_end post = true ->
  minutos_at (NilEmpty.string_of_uint d ++ sep ++ "min" ++ post)
    = Some (NilEmpty.string_of_uint d)
  /\ minutos_at (NilEmpty.string_of_uint d ++ sep ++ "minutos" ++ post)
    = Some (NilEmpty.string_of_uint d).
Proof.
  intros Hd Hs Hp. unfold minutos_at.
  rewrite !(span_uint is_digit) by
    (trivial; change ("min" ++ post) with (String "m" ("in" ++ post));
     change ("minutos" ++ post) with (String "m" ("inutos" ++ post));
     pose proof (tras_digitos sep "m" ("in" ++ post) Hs eq_refl) as H1;
     pose proof (tras_digitos sep "m" ("inutos" ++ post) Hs eq_refl) as H2;
     first [ destruct (sep ++ String "m" ("in" ++ post)); [trivial | now apply no_num_no_digit]
           | destruct (sep ++ String "m" ("inutos" ++ post)); [trivial | now apply no_num_no_digit] ]).
  rewrite (uint_truthy d Hd).
  rewrite !span_espacios by (trivial; reflexivity).
  destruct (match_ci_lit post) as (E1 & E2 & E3 & _).
  rewrite E1, E2, E3, Hp. split; [|reflexivity].
  destruct (match_ci "utos" post) as [r4|]; [|reflexivity].
  now destruct (word_end r4).
Qed.

Lemma km_at_uint (d : Decimal.uint) (sep post : string) :
  d <> Nil -> solo_espacios sep = true ->
  (word_end post = true ->
   km_at (NilEmpty.string_of_uint d ++ sep ++ "km" ++ post)
     = Some (NilEmpty.string_of_uint d))
  /\ kmh_at (NilEmpty.string_of_uint d ++ sep ++ "km/h" ++ post)
     = Some (NilEmpty.string_of_uint d).
Proof.
  intros Hd Hs. unfold km_at, kmh_at.
  rewrite !(span_uint is_num_char) by
    (try apply num_digit;
     first [ exact (tras_digitos sep "k" ("m" ++ post) Hs eq_refl)
           | exact (tras_digitos sep "k" ("m/h" ++ post) Hs eq_refl) ]).
  rewrite (uint_truthy d Hd).
  rewrite !span_espacios by (trivial; reflexivity).
  destruct (match_ci_lit post) as (_ & _ & _ & E4 & E5 & E6 & E7 & E8).
  rewrite E4, E5, E6, E7, E8. split; [|reflexivity].
  now intros ->.
Qed.

Lemma coma_a_punto_uint (d : Decimal.uint) :
  coma_a_punto (NilEmpty.string_of_uint d) = NilEmpty.string_of_uint d.
Proof.
  unfold coma_a_punto.
  induction d; cbn [NilEmpty.string_of_uint subst_chars]; [reflexivity | ..];
    match goal with
    | |- (if ?b then _ else _) = _ => change b with false; cbv iota
    end; now rewrite IHd.
Qed.

Lemma append_vacio (s : string) : (s ++ "")%string = s.
Proof. induction s as [|c s IH]; cbn; [reflexivity | now rewrite IH]. Qed.

(** [float] of the digits of a number is the double nearest to it. *)
Lemma float_of_str_uint (d : Decimal.uint) :
  d <> Nil ->
  PyFloat.float_of_str (NilEmpty.string_of_uint d)
    = Some (PyFloat.of_Z (int_of_digits (NilEmpty.string_of_uint d))).
Proof.
  intros Hd. unfold PyFloat.float_of_str.
  pose proof (span_uint is_digit d "" (fun c H => H) I) as E.
  rewrite append_vacio in E. rewrite E.
  rewrite append_vacio.
  pose proof (uint_truthy d Hd) as Ht.
  destruct (NilEmpty.string_of_uint d); [discriminate | reflexivity].
Qed.

(** X1: a whole number written in decimal and followed, after any white
    space, by its unit is read back as that number: minutes by
    [_parse_minutos] for "min" and "minutos", kilometres by [_parse_dist_km]
    and kilometres per hour by [_parse_vel_kmh] as the double nearest to it.
    The text before the number is any ASCII text without digits (for the two
    float parsers: without digits, dots and commas), the text after the unit
    is ASCII, and the unit "min", "minutos" or "km" ends a word.  The number
    is within the range that [str] and [int] convert without reaching the
    digit limit of the interpreter. *)
Theorem entero_con_unidad :
  forall (pre sep post : string) (n : Z),
    0 <= n < 10 ^ 4300 ->
    solo_ascii pre = true -> solo_ascii post = true ->
    solo_espacios sep = true ->
    (sin_digitos pre = true -> word_end post = true ->
       _parse_minutos (pre ++ str_of_Z n ++ sep ++ "min" ++ post) = Some n
       /\ _parse_minutos (pre ++ str_of_Z n ++ sep ++ "minutos" ++ post) = Some n)
    /\ (sin_numericos pre = true -> word_end post = true ->
        _parse_dist_km (pre ++ str_of_Z n ++ sep ++ "km" ++ post)
          = Some (PyFloat.of_Z n))
    /\ (sin_numericos pre = true ->
        _parse_vel_kmh (pre ++ str_of_Z n ++ sep ++ "km/h" ++ post)
          = Some (PyFloat.of_Z n)).
Proof.
  intros pre sep post n Hn _ _ Hs.
  assert (Hn0 : 0 <= n) by lia.
  pose proof (int_of_digits_str n Hn0) as Hint.
  destruct (str_of_Z_uint n Hn0) as (d & Hd & E). rewrite E in *.
  pose proof (uint_truthy d Hd) as Ht.
  split; [|split].
  - intros Hpre Hpost.
    destruct (minutos_at_uint d sep post Hd Hs Hpost) as [E1 E2].
    unfold _parse_minutos.
    split;
      (rewrite truthy_app_r by now apply truthy_app_l);
      (rewrite search_pre by
         (intros c t Hc; apply minutos_at_no_digito; now apply (sin_digitos_In pre)));
      [rewrite (search_some _ _ _ E1) | rewrite (search_some _ _ _ E2)];
      now rewrite Hint.
  - intros Hpre Hpost.
    destruct (km_at_uint d sep post Hd Hs) as [E1 _]. specialize (E1 Hpost).
    unfold _parse_dist_km.
    rewrite truthy_app_r by now apply truthy_app_l.
    rewrite search_pre by
      (intros c t Hc; apply km_at_no_num; now apply (sin_numericos_In pre)).
    rewrite (search_some _ _ _ E1), coma_a_punto_uint, float_of_str_uint by trivial.
    now rewrite Hint.
  - intros Hpre.
    destruct (km_at_uint d sep post Hd Hs) as [_ E2].
    unfold _parse_vel_kmh.
    rewrite truthy_app_r by now apply truthy_app_l.
    rewrite search_pre by
      (intros c t Hc; apply kmh_at_no_num; now apply (sin_numericos_In pre)).
    rewrite (search_some _ _ _ E2), coma_a_punto_uint, float_of_str_uint by trivial.
    now rewrite Hint.
Qed.

Lemma entero_con_unidad_witness :
  (_parse_minutos ("Ahora: " ++ str_of_Z 12 ++ " " ++ "min" ++ " aprox") = Some 12
   /\ _parse_minutos ("Ahora: " ++ str_of_Z 12 ++ " " ++ "minutos" ++ " aprox") = Some 12)
  /\ _parse_dist_km ("Largo: " ++ str_of_Z 12 ++ " " ++ "km" ++ " aprox")
      = Some (PyFloat.of_Z 12)
  /\ _parse_vel_kmh ("Largo: " ++ str_of_Z 12 ++ " " ++ "km/h" ++ " aprox")
      = Some (PyFloat.of_Z 12).
Proof.
  assert (H : 0 <= 12 < 10 ^ 4300) by (split; vm_compute; congruence).
  destruct (entero_con_unidad "Ahora: " " " " aprox" 12 H eq_refl eq_refl eq_refl)
    as (A & _ & _).
  destruct (entero_con_unidad "Largo: " " " " aprox" 12 H eq_refl eq_refl eq_refl)
    as (_ & B & C).
  split; [exact (A eq_refl eq_refl) | split; [exact (B eq_refl eq_refl) | exact (C eq_refl)]].
Defined.

(** *** Texts without digits *)

Lemma span_sin_digitos (s : string) :
  sin_digitos s = true -> span is_digit s = (EmptyString, s).
Proof.
  destruct s as [|c t]; [reflexivity|]. cbn [sin_digitos span]. intros H.
  apply andb_prop in H. destruct H as [H _]. now destruct (is_digit c).
Qed.

Lemma search_minutos_sin_digitos (s : string) :
  sin_digitos s = true -> search minutos_at s = None.
Proof.
  induction s as [|c t IH]; [reflexivity|]. intros H.
  cbn [search]. cbn [sin_digitos] in H. apply andb_prop in H. destruct H as [Hc Ht].
  rewrite minutos_at_no_digito by now destruct (is_digit c).
  now apply IH.
Qed.

Lemma span_fst_sin_digitos (p : ascii -> bool) (s : string) :
  sin_digitos s = true -> sin_digitos (fst (span p s)) = true.
Proof.
  induction s as [|c t IH]; [reflexivity|]. cbn [sin_digitos span]. intros H.
  apply andb_prop in H. destruct H as [Hc Ht].
  destruct (p c); [|reflexivity].
  specialize (IH Ht). destruct (span p t) as [a b]. cbn in *. now rewrite Hc, IH.
Qed.

Lemma span_snd_sin_digitos (p : ascii -> bool) (s : string) :
  sin_digitos s = true -> sin_digitos (snd (span p s)) = true.
Proof.
  induction s as [|c t IH]; [reflexivity|]. cbn [sin_digitos span]. intros H.
  destruct (p c).
  - apply andb_prop in H. destruct H as [Hc Ht].
    specialize (IH Ht). now destruct (span p t).
  - exact H.
Qed.

Lemma kmh_at_fst (s g : string) :
  kmh_at s = Some g -> g = fst (span is_num_char s).
Proof.
  unfold kmh_at. destruct (span is_num_char s) as [g0 r1]. cbn [fst].
  destruct (truthy g0); [|discriminate].
  destruct (span is_space r1) as [x r2].
  destruct (match_ci "km" r2) as [r3|]; [|discriminate].
  destruct (match_ci "h" r3), (match_ci "/" r3) as [r4|];
    try destruct (match_ci "h" r4); congruence.
Qed.

Lemma km_at_fst (s g : string) :
  km_at s = Some g -> g = fst (span is_num_char s).
Proof.
  unfold km_at. destruct (span is_num_char s) as [g0 r1]. cbn [fst].
  destruct (truthy g0); [|discriminate].
  destruct (span is_space r1) as [x r2].
  destruct (match_ci "km" r2) as [r3|]; [|discriminate].
  destruct (word_end r3); congruence.
Qed.

Lemma search_sin_digitos (at_ : string -> option string) (s : string) :
  (forall x g, at_ x = Some g -> g = fst (span is_num_char x)) ->
  sin_digitos s = true ->
  forall g, search at_ s = Some g -> sin_digitos g = true.
Proof.
  intros Hat. induction s as [|c t IH]; intros Hs g; cbn [search].
  - destruct (at_ "") as [g0|] eqn:E; [|discriminate].
    intros [= <-]. rewrite (Hat _ _ E). reflexivity.
  - destruct (at_ (String c t)) as [g0|] eqn:E.
    + intros [= <-]. rewrite (Hat _ _ E). now apply span_fst_sin_digitos.
    + apply IH. cbn [sin_digitos] in Hs. now apply andb_prop in Hs.
Qed.

Lemma coma_a_punto_sin_digitos (g : string) :
  sin_digitos g = true -> sin_digitos (coma_a_punto g) = true.
Proof.
  unfold coma_a_punto. induction g as [|c t IH]; [reflexivity|].
  cbn [sin_digitos subst_chars]. intros H. apply andb_prop in H. destruct H as [Hc Ht].
  destruct (is_char "," c); cbn [append sin_digitos]; [now apply IH|].
  now rewrite Hc, IH.
Qed.

Lemma float_of_str_sin_digitos (s : string) :
  sin_digitos s = true -> PyFloat.float_of_str s = None.
Proof.
  intros H. unfold PyFloat.float_of_str. rewrite (span_sin_digitos s H).
  destruct s as [|c t]; [reflexivity|].
  destruct (Ascii.eqb c "."); [|reflexivity].
  cbn [sin_digitos] in H. apply andb_prop in H. destruct H as [_ Ht].
  rewrite (span_sin_digitos t Ht). now destruct t.
Qed.

Lemma parsers_sin_digitos (s : string) :
  sin_digitos s = true ->
  _parse_minutos s = None /\ _parse_vel_kmh s = None /\ _parse_dist_km s = None.
Proof.
  intros H. unfold _parse_minutos, _parse_vel_kmh, _parse_dist_km.
  destruct (truthy s); [|now repeat split].
  rewrite (search_minutos_sin_digitos s H).
  split; [reflexivity|]. split.
  - destruct (search kmh_at s) as [g|] eqn:E; [|reflexivity].
    apply float_of_str_sin_digitos, coma_a_punto_sin_digitos.
    exact (search_sin_digitos kmh_at s kmh_at_fst H g E).
  - destruct (search km_at s) as [g|] eqn:E; [|reflexivity].
    apply float_of_str_sin_digitos, coma_a_punto_sin_digitos.
    exact (search_sin_digitos km_at s km_at_fst H g E).
Qed.

Lemma rev_onto_sin_digitos (s : string) :
  forall acc, sin_digitos (rev_onto s acc) = sin_digitos s && sin_digitos acc.
Proof.
  induction s as [|c t IH]; intros acc; cbn [rev_onto sin_digitos]; [reflexivity|].
  rewrite IH. cbn [sin_digitos]. destruct (is_digit c); cbn; [|reflexivity].
  now rewrite andb_false_r.
Qed.

Lemma strip_sin_digitos (s : string) :
  sin_digitos s = true -> sin_digitos (strip s) = true.
Proof.
  intros H. unfold strip, rstrip, lstrip, rev.
  rewrite rev_onto_sin_digitos, andb_true_r.
  apply span_snd_sin_digitos.
  rewrite rev_onto_sin_digitos, andb_true_r.
  now apply span_snd_sin_digitos.
Qed.

(** X2: an ASCII text without any digit gives no minutes, no speed and no
    distance; a record whose three texts are such texts is normalised to a
    segment without minutes, speed, distance or duration, its duration shown
    as the empty text. *)
Theorem sin_digitos_sin_numeros :
  (forall s : string,
     solo_ascii s = true -> sin_digitos s = true ->
     _parse_minutos s = None /\ _parse_vel_kmh s = None /\ _parse_dist_km s = None)
  /\ (forall r : RawRec,
        solo_ascii (current r ++ historic r ++ dist r) = true ->
        sin_digitos (current r) = true -> sin_digitos (historic r) = true ->
        sin_digitos (dist r) = true ->
        let t := normalizar r in
        tiempo_min t = None /\ vel_kmh t = None /\ dist_km t = None
        /\ tiempo_seg t = None /\ tiempo_mmss t = "").
Proof.
  split; [intros s _; apply parsers_sin_digitos|].
  intros r _ Hc Hh Hd.
  destruct (parsers_sin_digitos _ (strip_sin_digitos _ Hc)) as (C1 & C2 & _).
  destruct (parsers_sin_digitos _ (strip_sin_digitos _ Hh)) as (H1 & H2 & _).
  destruct (parsers_sin_digitos _ (strip_sin_digitos _ Hd)) as (_ & _ & D3).
  unfold normalizar, _parse_stat_to_min_vel.
  rewrite C1, C2, H1, H2, D3.
  destruct (truthy (strip (current r))), (truthy (strip (historic r)));
    cbn; now repeat split.
Qed.

Lemma sin_digitos_sin_numeros_witness :
  _parse_minutos "pocos min" = None
  /\ _parse_vel_kmh "rapido km/h" = None
  /\ _parse_dist_km "., km" = None
  /\ tiempo_seg (normalizar (mkRawRec "Ave X" "pocos min" "" ", km" None "watch")) = None
  /\ tiempo_mmss (normalizar (mkRawRec "Ave X" "pocos min" "" ", km" None "watch")) = "".
Proof.
  destruct sin_digitos_sin_numeros as [A B].
  destruct (A "pocos min" eq_refl eq_refl) as (A1 & _ & _).
  destruct (A "rapido km/h" eq_refl eq_refl) as (_ & A2 & _).
  destruct (A "., km" eq_refl eq_refl) as (_ & _ & A3).
  destruct (B (mkRawRec "Ave X" "pocos min" "" ", km" None "watch")
              eq_refl eq_refl eq_refl eq_refl) as (_ & _ & _ & B4 & B5).
  repeat split; assumption.
Defined.

End ParserFacts.

(* ------------------------------------------------------------------ *)
(** * Further properties of the normaliser and the deduplicator *)

Module DetectFacts.

Import PyStr Models Analyzer AnalyzerTerms ParserTerms AnalyzerFacts.

Lemma append_no_vacio (a b : string) : b <> "" -> (a ++ b)%string <> "".
Proof. destruct a; cbn; [trivial | discriminate]. Qed.

(** X3: the two duration fields of a normalised record agree: when the
    seconds are absent the text is empty, and when they are present the text
    is their rendering as minutes and seconds, [f"{s // 60:02d}:{s % 60:02d}"],
    whether the duration was read as minutes or derived from the distance and
    the speed. *)
Theorem duracion_en_pareja :
  forall r : RawRec,
    match tiempo_seg (normalizar r) with
    | None => tiempo_mmss (normalizar r) = ""
    | Some s => tiempo_mmss (normalizar r) = mmss s /\ mmss s <> ""
    end.
Proof.
  intros r.
  destruct (normalizar_campos r) as (_ & _ & _ & _ & Hs & Hm & _).
  rewrite Hs, Hm. unfold duracion_de.
  assert (Hne : forall s, mmss s <> "").
  { intros s. unfold mmss. apply append_no_vacio. discriminate. }
  destruct (minutos_de r) as [m|].
  - cbn [fst snd]. split; [|apply Hne].
    unfold mmss. rewrite Z.div_mul, Z.mod_mul by lia. reflexivity.
  - unfold _tiempo_desde_dist_y_vel.
    destruct (_parse_dist_km _) as [d|]; [|reflexivity].
    destruct (vel_de r) as [v|]; [|reflexivity].
    destruct (PyFloat.le v f0); [reflexivity|].
    destruct (PyFloat.round_half_even _) as [s|]; [|reflexivity].
    cbn [fst snd]. split; [reflexivity | apply Hne].
Qed.

(** *** What the loop keeps *)

Lemma visto_In (k : string) (vistos : list string) :
  visto k vistos = true <-> In k vistos.
Proof.
  unfold visto. rewrite existsb_exists. split.
  - intros (x & Hx & E). apply String.eqb_eq in E. now subst.
  - intros H. exists k. split; [exact H | apply String.eqb_refl].
Qed.

Lemma dedup_claves (brut : list RawRec) :
  forall vistos,
    NoDup (map clave (dedup vistos brut))
    /\ (forall r, In r (dedup vistos brut) ->
          In r brut /\ truthy (strip (name r)) = true
          /\ visto (clave r) vistos = false).
Proof.
  induction brut as [|r rest IH]; intros vistos; cbn [dedup].
  - split; [constructor | intros r []].
  - destruct (truthy (strip (name r))) eqn:Hn; cbn [negb].
    + destruct (visto (clave r) vistos) eqn:Hv.
      * destruct (IH vistos) as [N P]. split; [exact N|].
        intros x Hx. destruct (P x Hx) as (A & B & C). repeat split; trivial. now right.
      * destruct (IH (clave r :: vistos)) as [N P]. split.
        -- cbn [map]. constructor; [|exact N].
           intros Hin. apply in_map_iff in Hin. destruct Hin as (x & E & Hx).
           destruct (P x Hx) as (_ & _ & C).
           rewrite visto_cons, E, String.eqb_refl in C. discriminate.
        -- intros x [<- | Hx]; [repeat split; trivial; now left|].
           destruct (P x Hx) as (A & B & C).
           rewrite visto_cons in C. apply orb_false_elim in C.
           repeat split; trivial; [now right | tauto].
    + destruct (IH vistos) as [N P]. split; [exact N|].
      intros x Hx. destruct (P x Hx) as (A & B & C). repeat split; trivial. now right.
Qed.

Lemma dedup_length (brut : list RawRec) :
  forall vistos, (List.length (dedup vistos brut) <= List.length brut)%nat.
Proof.
  induction brut as [|r rest IH]; intros vistos; cbn [dedup List.length]; [lia|].
  destruct (negb _); [specialize (IH vistos); lia|].
  destruct (visto _ _); [specialize (IH vistos); lia|].
  cbn [List.length]. specialize (IH (clave r :: vistos)). lia.
Qed.

(** X4: in what [detect_all] returns, no two records have the same key
    (name, distance text, visible statistic: the current text or else the
    historic one), every record has a name that is not empty, and there are
    no more records than were extracted. *)
Theorem detect_all_sin_repetidos :
  forall brut : list RawRec,
    NoDup (map clave_tramo (detect_all brut))
    /\ Forall (fun t => nombre t <> "") (detect_all brut)
    /\ (List.length (detect_all brut) <= List.length brut)%nat.
Proof.
  intros brut. rewrite detect_all_dedup.
  destruct (dedup_claves brut []) as [N P].
  split; [|split].
  - rewrite map_map.
    rewrite (map_ext _ clave (fun r => clave_tramo_normalizar r)). exact N.
  - apply Forall_forall. intros t Ht. apply in_map_iff in Ht.
    destruct Ht as (r & <- & Hr). destruct (P r Hr) as (_ & Hn & _).
    destruct (normalizar_campos r) as (E & _). rewrite E.
    intros H0. now rewrite H0 in Hn.
  - rewrite length_map. apply dedup_length.
Qed.

Lemma dedup_app (l1 l2 : list RawRec) :
  forall vistos,
    dedup vistos (l1 ++ l2)%list
      = (dedup vistos l1 ++ dedup (claves_tras vistos l1) l2)%list.
Proof.
  unfold claves_tras.
  induction l1 as [|r rest IH]; intros vistos; [reflexivity|].
  change ((r :: rest) ++ l2)%list with (r :: (rest ++ l2))%list.
  cbn [dedup].
  destruct (negb _); [apply IH|].
  destruct (visto _ _); [apply IH|].
  cbn [app map List.rev]. rewrite IH. f_equal. f_equal.
  now rewrite <- app_assoc.
Qed.

Lemma claves_tras_completas (brut : list RawRec) (r0 : RawRec) :
  forall vistos,
    In r0 brut -> truthy (strip (name r0)) = true ->
    In (clave r0) (claves_tras vistos brut).
Proof.
  unfold claves_tras.
  induction brut as [|r rest IH]; intros vistos Hin Hn; [destruct Hin|].
  cbn [dedup]. destruct Hin as [-> | Hin].
  - rewrite Hn. cbn [negb].
    destruct (visto (clave r0) vistos) eqn:Hv.
    + apply in_or_app. right. now apply visto_In.
    + cbn [map List.rev]. apply in_or_app. left. apply in_or_app. right. now left.
  - destruct (negb _); [now apply IH|].
    destruct (visto (clave r) vistos) eqn:Hv; [now apply IH|].
    cbn [map List.rev]. specialize (IH (clave r :: vistos) Hin Hn).
    apply in_app_or in IH. apply in_or_app.
    destruct IH as [H | [<- | H]].
    + left. apply in_or_app. now left.
    + left. apply in_or_app. right. now left.
    + now right.
Qed.

Lemma dedup_vistos (extra : list RawRec) :
  forall vistos,
    (forall r, In r extra -> truthy (strip (name r)) = true ->
               In (clave r) vistos) ->
    dedup vistos extra = [].
Proof.
  induction extra as [|r rest IH]; intros vistos H; cbn [dedup]; [reflexivity|].
  destruct (truthy (strip (name r))) eqn:Hn; cbn [negb].
  - rewrite (proj2 (visto_In _ _) (H r (or_introl eq_refl) Hn)).
    apply IH. intros x Hx. apply H. now right.
  - apply IH. intros x Hx. apply H. now right.
Qed.

(** X5: records that come after a batch and only repeat keys of named
    records of that batch (or have no name) add nothing to what [detect_all]
    returns; in particular a batch extracted twice in a row gives what the
    batch gives once. *)
Theorem detect_all_repetidos :
  forall brut extra : list RawRec,
    ya_vistos brut extra = true ->
    detect_all (brut ++ extra)%list = detect_all brut.
Proof.
  intros brut extra H. rewrite !detect_all_dedup, dedup_app.
  rewrite (dedup_vistos extra); [now rewrite app_nil_r|].
  intros r Hr Hn. unfold ya_vistos in H. rewrite forallb_forall in H.
  specialize (H r Hr). rewrite Hn in H. cbn [negb orb] in H.
  apply existsb_exists in H. destruct H as (r0 & Hr0 & E).
  apply andb_prop in E. destruct E as [En Ek]. apply String.eqb_eq in Ek.
  rewrite <- Ek. now apply claves_tras_completas.
Qed.

Lemma detect_all_repetidos_witness :
  detect_all ([tramo_repetido; tramo_otro] ++ [tramo_repetido; tramo_otro])%list
    = detect_all [tramo_repetido; tramo_otro].
Proof. apply detect_all_repetidos. reflexivity. Defined.

End DetectFacts.

(* ------------------------------------------------------------------ *)
(** * Saving with retries, and recovery *)

Module SaveFacts.

Import PyStr Models Storage StorageTerms SaveTerms SheetTerms DominioTerms.
Import StorageFacts.

Local Open Scope list_scope.

Lemma atomic_save_sale (ruta : string) (st : World) :
  truthy ruta = true -> sale_bien (saves st) = true ->
  atomic_save_workbook ruta st = (Ok ruta, tras_guardar st (saves st) []).
Proof.
  intros Hr Hs. unfold atomic_save_workbook. rewrite Hr. cbn [negb].
  unfold tras_guardar. destruct st as [w a wl mk d sv lg]. cbn in *.
  destruct sv as [|[] rest]; [reflexivity | reflexivity | discriminate].
Qed.

(** A save that goes through at attempt [k + 1] of [k + 1 + m]. *)
Lemma safe_save_sale (ruta : string) (e : PyFloat.float) (m : nat) :
  truthy ruta = true ->
  forall (k : nat) (st : World) (resto : list bool),
    saves st = repeat false k ++ resto -> sale_bien resto = true ->
    safe_save_workbook ruta (k + S m) e st
      = (Ok ruta, tras_guardar st resto (reintentos k e)).
Proof.
  intros Hr. unfold safe_save_workbook.
  induction k as [|k IH]; intros st resto Hs Hb.
  - cbn [repeat app] in Hs. cbn [Nat.add safe_save_turns].
    unfold try_except. rewrite (atomic_save_sale ruta st Hr) by now rewrite Hs.
    now rewrite Hs.
  - cbn [repeat app] in Hs.
    replace (S k + S m)%nat with (S (S (k + m))) by lia.
    rewrite (safe_save_otro ruta e (k + m) st _ Hr Hs).
    replace (S (k + m)) with (k + S m)%nat by lia.
    rewrite (IH _ resto) by (trivial; reflexivity).
    unfold tras_guardar. cbn. rewrite <- !app_assoc. reflexivity.
Qed.

(** X6: with a path that is not empty and a workbook, [safe_save_workbook]
    returns the path at the first attempt that goes through: after [k]
    failed attempts, [k] below [intentos], each followed by the delay, the
    saved file is the workbook in memory, which is left as it was, like the
    path and the side files; no attempt is made after the one that went
    through. *)
Theorem guardado_con_reintentos :
  forall (ruta : string) (espera_s : PyFloat.float) (k m : nat)
         (st : World) (w : Workbook) (resto : list bool),
    truthy ruta = true -> wb st = Some w ->
    saves st = repeat false k ++ resto -> sale_bien resto = true ->
    safe_save_workbook ruta (k + S m) espera_s st
      = (Ok ruta,
         mkWorld (Some w) (archivo_excel st) (wal_file st) (mark_file st)
                 (Some w) (tl resto)
                 (log st ++ reintentos k espera_s ++ [EvSave true])).
Proof.
  intros ruta e k m st w resto Hr Hw Hs Hb.
  rewrite (safe_save_sale ruta e m Hr k st resto Hs Hb).
  unfold tras_guardar. now rewrite Hw.
Qed.

Lemma guardado_con_reintentos_witness :
  safe_save_workbook "Captura_Waze.xlsx" (2 + 3) espera_def mundo_dos_fallos
  = (Ok "Captura_Waze.xlsx"%string,
     mkWorld (Some libro_ej) (Some "Captura_Waze.xlsx"%string) None None
             (Some libro_ej) [false]
             [EvSave false; EvSleep espera_def; EvSave false; EvSleep espera_def;
              EvSave true]).
Proof.
  exact (guardado_con_reintentos "Captura_Waze.xlsx" espera_def 2 2
           mundo_dos_fallos libro_ej [true; false]
           eq_refl eq_refl eq_refl eq_refl).
Defined.

Lemma safe_save_sin_ruta (e : PyFloat.float) (n : nat) :
  forall st : World,
    safe_save_turns (S n) "" e st
      = (Raise ValueError, con_efectos st (repeat (EvSleep e) n)).
Proof.
  induction n as [|n IH]; intros st.
  - cbn. unfold con_efectos. destruct st; cbn. now rewrite app_nil_r.
  - change (safe_save_turns (S (S n)) "" e st)
      with ((sleep e ;;; safe_save_turns (S n) "" e) st).
    unfold bind, sleep, modify. rewrite IH.
    unfold con_efectos. destruct st; cbn. now rewrite <- app_assoc.
Qed.

(** X7: two edges of [safe_save_workbook].  With an empty path every
    attempt raises [ValueError] before anything is written: the call waits
    through the delay between the attempts all the same, then raises
    [ValueError], the state otherwise untouched.  With no attempt at all
    ([intentos = 0]) it returns the path without saving anything. *)
Theorem guardado_sin_ruta :
  forall (espera_s : PyFloat.float) (st : World),
    (forall n,
       safe_save_workbook "" (S n) espera_s st
         = (Raise ValueError, con_efectos st (repeat (EvSleep espera_s) n)))
    /\ (forall ruta, safe_save_workbook ruta 0 espera_s st = (Ok ruta, st)).
Proof.
  intros e st. split.
  - intros n. apply safe_save_sin_ruta.
  - reflexivity.
Qed.

Section Recuperar.

Variable py_hash : string -> Z.
Variable ahora : datetime.

Lemma recuperar_casos (st : World) :
  recover_from_wal py_hash ahora st = (Ok tt, st)
  \/ recover_from_wal py_hash ahora st = _wal_clear st
  \/ recover_from_wal py_hash ahora st = (Raise TypeError, snd (_wal_clear st)).
Proof.
  unfold recover_from_wal.
  destruct (sin_ruta st); [now left|].
  destruct (wal_file st) as [lines|]; [|now left].
  destruct (mark_file st); [right; now left|].
  destruct (leer_wal lines); [right; now left|].
  right. right. reflexivity.
Qed.

(** X8: whatever it finds, [recover_from_wal] leaves the workbook in memory,
    the saved file, the path and the coming outcomes of saving as they were:
    it appends no row and attempts no save.  Each of the two side files is
    left as it was or deleted, never written, and the only effect it can
    add is the clearing of the side files. *)
Theorem recuperacion_no_toca_el_libro :
  forall st : World,
    let st' := snd (recover_from_wal py_hash ahora st) in
    wb st' = wb st /\ disk st' = disk st /\ saves st' = saves st
    /\ archivo_excel st' = archivo_excel st
    /\ (wal_file st' = wal_file st \/ wal_file st' = None)
    /\ (mark_file st' = mark_file st \/ mark_file st' = None)
    /\ (log st' = log st \/ log st' = (log st ++ [EvClear])%list).
Proof.
  intros st st'. subst st'.
  destruct (recuperar_casos st) as [E | [E | E]]; rewrite E; cbn;
    repeat split; auto.
Qed.

End Recuperar.

Lemma sin_ruta_truthy (st : World) : sin_ruta st = false -> truthy (ruta_de st) = true.
Proof.
  unfold sin_ruta, ruta_de. destruct (archivo_excel st) as [p|]; [|discriminate].
  now destruct (truthy p).
Qed.

(** X9: on a workbook with plain titles and a batch of plain records, no two
    of the titles involved differing in the case of their letters only (the
    reordering then finds every sheet it asks for), when one of the five
    attempts of the save goes through, [guardar_tramos] leaves as saved file
    exactly the workbook it leaves in memory: the rows of the batch, the
    sheets in their final order. *)
Theorem guardar_tramos_guarda_el_libro :
  forall (py_hash : string -> Z) (ahora : datetime) (tramos : list TramoNorm)
         (st : World) (w0 : Workbook) (k : nat) (resto : list bool),
    wb st = Some w0 -> sin_ruta st = false ->
    titulos_llanos (sheetnames w0) = true -> lote_llano tramos = true ->
    sin_choques (sheetnames w0 ++ titulos_del_lote py_hash tramos) = true ->
    saves st = repeat false k ++ resto -> (k < intentos_def)%nat ->
    sale_bien resto = true ->
    exists c st' w',
      guardar_tramos py_hash ahora tramos st = (Ok c, st')
      /\ wb st' = Some w' /\ disk st' = Some w' /\ saves st' = tl resto.
Proof.
  intros py_hash ahora tramos st w0 k resto Hw Hr _ _ _ Hs Hk Hb.
  destruct (guardar_tramos_pasos py_hash ahora tramos st w0 Hw Hr)
    as (st1 & c & st2 & st3 & r & st4 & H1 & Hw1 & Eb & Eo & Es & Eg).
  assert (H13 : hojas st st3).
  { eapply marco_trans; [exact H1|].
    eapply marco_trans; [eapply hojas_bucle, Eb | eapply hojas_ordenar, Eo]. }
  destruct H13 as (_ & _ & _ & _ & Hsv & Hwb & _).
  destruct (wb st3) as [w3|] eqn:Ew3; [|exfalso; apply Hwb; congruence].
  rewrite <- Hsv in Hs.
  replace intentos_def with (k + S (intentos_def - S k))%nat in Es by lia.
  rewrite (safe_save_sale _ _ _ (sin_ruta_truthy st Hr) k st3 resto Hs Hb) in Es.
  injection Es as _ <-.
  exists c, (tras_guardar st3 resto (reintentos k espera_def)), w3.
  split; [exact Eg|]. unfold tras_guardar. cbn. now rewrite Ew3.
Qed.

Lemma guardar_tramos_guarda_el_libro_witness :
  exists c st' w',
    guardar_tramos hash_ej ahora_ej [tramo_ej] mundo_dos_fallos = (Ok c, st')
    /\ wb st' = Some w' /\ disk st' = Some w' /\ saves st' = [false].
Proof.
  apply (guardar_tramos_guarda_el_libro hash_ej ahora_ej [tramo_ej]
           mundo_dos_fallos libro_ej 2 [true; false]);
    try (vm_compute; reflexivity).
  unfold intentos_def. lia.
Defined.

End SaveFacts.

(* ------------------------------------------------------------------ *)
(** * The sheet names *)

Module NombreFacts.

Import PyStr Models Storage StorageTerms ParserTerms DominioTerms StorageFacts.

Lemma con_prohibidos_app (a b : string) :
  con_prohibidos (a ++ b) = con_prohibidos a || con_prohibidos b.
Proof.
  induction a as [|c a IH]; [reflexivity|].
  cbn [append con_prohibidos]. now rewrite IH, orb_assoc.
Qed.

Lemma con_prohibidos_take (n : nat) :
  forall s, con_prohibidos s = false -> con_prohibidos (take n s) = false.
Proof.
  induction n as [|n IH]; intros [|c s]; cbn [take con_prohibidos]; trivial.
  intros H. apply orb_false_elim in H. destruct H as [Hc Hs].
  now rewrite Hc, IH.
Qed.

Lemma con_prohibidos_subst (s : string) :
  con_prohibidos (subst_chars _sheet_forbidden " " s) = false.
Proof.
  induction s as [|c s IH]; [reflexivity|]. cbn [subst_chars].
  destruct (_sheet_forbidden c) eqn:E.
  - cbn [append con_prohibidos]. now rewrite IH.
  - cbn [con_prohibidos]. now rewrite E, IH.
Qed.

Lemma digito_permitido (c : ascii) : is_digit c = true -> _sheet_forbidden c = false.
Proof. destruct c as [[] [] [] [] [] [] [] []]; vm_compute; intros; congruence. Qed.

Lemma solo_ascii_app (a b : string) :
  solo_ascii (a ++ b) = solo_ascii a && solo_ascii b.
Proof.
  induction a as [|c a IH]; [reflexivity|].
  cbn [append solo_ascii]. now rewrite IH, andb_assoc.
Qed.

Lemma solo_ascii_rev_onto (s : string) :
  forall acc, solo_ascii (rev_onto s acc) = solo_ascii s && solo_ascii acc.
Proof.
  induction s as [|c t IH]; intros acc; cbn [rev_onto solo_ascii]; [reflexivity|].
  rewrite IH. cbn [solo_ascii]. destruct (code c <? 128); cbn; [reflexivity|].
  now rewrite andb_false_r.
Qed.

Lemma solo_ascii_span_snd (p : ascii -> bool) (s : string) :
  solo_ascii s = true -> solo_ascii (snd (span p s)) = true.
Proof.
  induction s as [|c t IH]; [reflexivity|]. cbn [solo_ascii span]. intros H.
  destruct (p c); [|exact H].
  apply andb_prop in H. destruct H as [_ Ht].
  specialize (IH Ht). now destruct (span p t).
Qed.

Lemma solo_ascii_strip (s : string) :
  solo_ascii s = true -> solo_ascii (strip s) = true.
Proof.
  intros H. unfold strip, rstrip, lstrip, rev.
  rewrite solo_ascii_rev_onto, andb_true_r.
  apply solo_ascii_span_snd.
  rewrite solo_ascii_rev_onto, andb_true_r.
  now apply solo_ascii_span_snd.
Qed.

Lemma solo_ascii_subst (p : ascii -> bool) (by_ s : string) :
  solo_ascii by_ = true -> solo_ascii s = true ->
  solo_ascii (subst_chars p by_ s) = true.
Proof.
  intros Hb. induction s as [|c t IH]; [reflexivity|].
  cbn [solo_ascii subst_chars]. intros H.
  apply andb_prop in H. destruct H as [Hc Ht].
  destruct (p c).
  - rewrite solo_ascii_app, Hb. now apply IH.
  - cbn [solo_ascii]. rewrite Hc. now apply IH.
Qed.

Lemma solo_ascii_take (n : nat) :
  forall s, solo_ascii s = true -> solo_ascii (take n s) = true.
Proof.
  induction n as [|n IH]; intros [|c s]; cbn [take solo_ascii]; trivial.
  intros H. apply andb_prop in H. destruct H as [Hc Hs].
  now rewrite Hc, IH.
Qed.

Lemma digito_ascii (c : ascii) : is_digit c = true -> (code c <? 128) = true.
Proof. destruct c as [[] [] [] [] [] [] [] []]; vm_compute; intros; congruence. Qed.

Lemma base_de_ascii (s : string) :
  solo_ascii s = true -> solo_ascii (base_de s) = true.
Proof.
  intros H. unfold base_de.
  apply solo_ascii_take.
  repeat (apply solo_ascii_subst; [reflexivity|]).
  now apply solo_ascii_strip.
Qed.

(** X16: for a name of the segment written in ASCII, whatever the value of
    [hash], the sheet name that [nombre_hoja_seguro] gives is a title Excel
    accepts and openpyxl takes as given: it is not empty, is written in
    ASCII, has between 4 and 31 characters and none of the characters that
    a sheet title may not hold (colon, backslash, slash, question mark,
    star, square brackets); it ends in an underscore and three decimal
    digits. *)
Theorem nombre_hoja_seguro_valido :
  forall (py_hash : string -> Z) (nombre_original : string),
    solo_ascii nombre_original = true ->
    (4 <= String.length (nombre_hoja_seguro py_hash nombre_original) <= 31)%nat
    /\ con_prohibidos (nombre_hoja_seguro py_hash nombre_original) = false
    /\ titulo_valido (nombre_hoja_seguro py_hash nombre_original) = true
    /\ exists base d,
         nombre_hoja_seguro py_hash nombre_original = (base ++ "_" ++ d)%string
         /\ tres_digitos d = true.
Proof.
  intros py_hash s Hs.
  destruct (nombre_hoja_seguro_forma py_hash s) as (E & H3).
  pose proof (take_length 27 (subst_chars _sheet_forbidden " "
       (subst_chars (is_char "/") " /"
          (subst_chars (is_char ":") " -" (strip s))))) as Hb.
  fold (base_de s) in Hb.
  assert (Hp : con_prohibidos (base_de s) = false).
  { unfold base_de. apply con_prohibidos_take, con_prohibidos_subst. }
  pose proof (base_de_ascii s Hs) as Ha.
  set (t := nombre_hoja_seguro py_hash s) in *.
  assert (Hl : (4 <= String.length t <= 31)%nat).
  { rewrite E, string_length_app.
    destruct (sufijo_de py_hash s) as [|a [|b [|c [|? ?]]]]; try discriminate.
    change (String.length ("_" ++ String a (String b (String c "")))%string)
      with 4%nat.
    lia. }
  assert (Hc : con_prohibidos t = false /\ solo_ascii t = true).
  { rewrite E, con_prohibidos_app, solo_ascii_app, Hp, Ha.
    destruct (sufijo_de py_hash s) as [|a [|b [|c [|? ?]]]]; try discriminate.
    cbn in H3. apply andb_prop in H3. destruct H3 as [H3 Hc].
    apply andb_prop in H3. destruct H3 as [Ha' Hb'].
    cbn [append con_prohibidos solo_ascii orb andb].
    change (_sheet_forbidden "_") with false.
    change (code "_" <? 128) with true.
    now rewrite (digito_permitido a Ha'), (digito_permitido b Hb'),
                (digito_permitido c Hc), (digito_ascii a Ha'),
                (digito_ascii b Hb'), (digito_ascii c Hc). }
  destruct Hc as [Hc Hasc].
  split; [exact Hl|]. split; [exact Hc|]. split.
  - unfold titulo_valido. rewrite Hasc, Hc.
    replace (String.length t <=? 31)%nat with true
      by (symmetry; apply Nat.leb_le; lia).
    destruct t; [cbn in Hl; lia | reflexivity].
  - now exists (base_de s), (sufijo_de py_hash s).
Qed.

Lemma nombre_hoja_seguro_valido_witness :
  (4 <= String.length (nombre_hoja_seguro hash_ej "Av. Norte/Sur: km 4") <= 31)%nat
  /\ con_prohibidos (nombre_hoja_seguro hash_ej "Av. Norte/Sur: km 4") = false
  /\ titulo_valido (nombre_hoja_seguro hash_ej "Av. Norte/Sur: km 4") = true
  /\ exists base d,
       nombre_hoja_seguro hash_ej "Av. Norte/Sur: km 4" = (base ++ "_" ++ d)%string
       /\ tres_digitos d = true.
Proof.
  exact (nombre_hoja_seguro_valido hash_ej "Av. Norte/Sur: km 4"%string eq_refl).
Defined.

End NombreFacts.

(* ------------------------------------------------------------------ *)
(** * Inserting and reordering sheets *)

Module SheetFacts.

Import PyStr Models Storage StorageTerms SaveTerms SheetTerms DominioTerms.
Import StorageFacts.

Local Open Scope list_scope.

(** *** Looking a sheet up after the list of sheets was rearranged *)

Lemma get_sheet_app (t : string) (l1 l2 : Workbook) :
  get_sheet t (l1 ++ l2) =
    match get_sheet t l1 with
    | Some s => Some s
    | None => get_sheet t l2
    end.
Proof.
  induction l1 as [|x l1 IH]; [reflexivity|].
  rewrite <- app_comm_cons. cbn [get_sheet].
  now destruct (String.eqb (title x) t).
Qed.

Lemma get_sheet_without (n t : string) (l : Workbook) :
  get_sheet t (without n l) = if String.eqb n t then None else get_sheet t l.
Proof.
  unfold without. induction l as [|x l IH]; cbn [filter get_sheet].
  - now destruct (String.eqb n t).
  - destruct (String.eqb (title x) n) eqn:E; cbn [negb].
    + apply String.eqb_eq in E. rewrite IH, E.
      now destruct (String.eqb n t).
    + cbn [get_sheet]. rewrite IH.
      destruct (String.eqb (title x) t) eqn:E'; [|reflexivity].
      apply String.eqb_eq in E'. subst t. rewrite String.eqb_sym. now rewrite E.
Qed.

Lemma get_sheet_firstn_none (t : string) (i : nat) :
  forall l : Workbook, get_sheet t l = None -> get_sheet t (firstn i l) = None.
Proof.
  induction i as [|i IH]; intros [|x l]; cbn [firstn get_sheet]; trivial.
  destruct (String.eqb (title x) t); [discriminate | apply IH].
Qed.

Lemma get_sheet_insert_at (t : string) (i : nat) (x : Sheet) (l : Workbook) :
  get_sheet (title x) l = None ->
  get_sheet t (insert_at i x l) =
    if String.eqb (title x) t then Some x else get_sheet t l.
Proof.
  intros Hx. unfold insert_at. rewrite get_sheet_app. cbn [get_sheet].
  destruct (String.eqb (title x) t) eqn:E.
  - apply String.eqb_eq in E. subst t. now rewrite get_sheet_firstn_none.
  - rewrite <- get_sheet_app. now rewrite firstn_skipn.
Qed.

Lemma get_sheet_al_final (n : string) (x : Sheet) (l : Workbook) :
  get_sheet n l = Some x ->
  forall t, get_sheet t (without n l ++ [x]) = get_sheet t l.
Proof.
  intros Hx t. rewrite get_sheet_app, get_sheet_without. cbn [get_sheet].
  rewrite (get_sheet_title _ _ _ Hx).
  destruct (String.eqb n t) eqn:E.
  - apply String.eqb_eq in E. now subst t.
  - now destruct (get_sheet t l).
Qed.

Lemma get_sheet_al_frente (n : string) (x : Sheet) (l : Workbook) :
  get_sheet n l = Some x ->
  forall t, get_sheet t (insert_at O x (without n l)) = get_sheet t l.
Proof.
  intros Hx t. change (insert_at O x (without n l)) with (x :: without n l).
  cbn [get_sheet].
  rewrite get_sheet_without, (get_sheet_title _ _ _ Hx).
  destruct (String.eqb n t) eqn:E; [|reflexivity].
  apply String.eqb_eq in E. now subst t.
Qed.

Lemma get_sheet_none_mem (t : string) (w : Workbook) :
  get_sheet t w = None -> mem t (sheetnames w) = false.
Proof.
  intros H. destruct (mem t (sheetnames w)) eqn:E; [|reflexivity].
  destruct (get_sheet_mem t w E) as (sh & Hs). congruence.
Qed.

Lemma remove_first_nuevo (n : string) (x : Sheet) (w : Workbook) :
  get_sheet n w = None -> title x = n -> remove_first n (w ++ [x]) = w.
Proof.
  intros Hn Hx. induction w as [|y w IH].
  - cbn. now rewrite Hx, String.eqb_refl.
  - rewrite <- app_comm_cons. cbn [remove_first]. cbn [get_sheet] in Hn. destruct (String.eqb (title y) n); [discriminate|].
    now rewrite IH.
Qed.

Lemma append_row_ausente (t : string) (r : row) (w : Workbook) :
  get_sheet t w = None -> append_row t r w = w.
Proof.
  intros H. unfold append_row. induction w as [|y w IH]; [reflexivity|].
  cbn [get_sheet] in H. cbn [map].
  destruct (String.eqb (title y) t); [discriminate|]. now rewrite IH.
Qed.

Lemma get_sheet_append_row (t' t : string) (r : row) (w : Workbook) :
  get_sheet t' (append_row t r w) =
    match get_sheet t' w with
    | Some sh =>
        Some (if String.eqb (title sh) t
              then mkSheet (title sh) (rows sh ++ [r]) else sh)
    | None => None
    end.
Proof.
  unfold append_row. induction w as [|y w IH]; [reflexivity|].
  cbn [map get_sheet].
  destruct (String.eqb (title y) t) eqn:E; cbn [title];
    destruct (String.eqb (title y) t'); trivial; now rewrite E.
Qed.

Lemma sheetnames_insert_at (i : nat) (x : Sheet) (l : Workbook) :
  sheetnames (insert_at i x l) = insert_at i (title x) (sheetnames l).
Proof.
  unfold sheetnames, insert_at. rewrite map_app. cbn [map].
  now rewrite firstn_map, skipn_map.
Qed.

Lemma sheetnames_without (n : string) (l : Workbook) :
  sheetnames (without n l)
    = filter (fun s => negb (String.eqb s n)) (sheetnames l).
Proof.
  unfold sheetnames, without. induction l as [|x l IH]; [reflexivity|].
  cbn [filter map]. destruct (String.eqb (title x) n); cbn [negb map]; now rewrite IH.
Qed.

Lemma set_wb_log (e : event) (w w' w'' : Workbook) (st : World) :
  set_wb (Some w) (add_log e (set_wb (Some w') (set_wb (Some w'') st)))
    = add_log e (set_wb (Some w) st).
Proof. reflexivity. Qed.

(** *** Inserting the sheet of a segment of the watchlist *)

Section Insertar.

Variable titulo : string.
Variable st : World.
Variable w0 : Workbook.
Hypothesis Hw : wb st = Some w0.
Hypothesis Hn : mem titulo (sheetnames w0) = false.

Let ws : Sheet := mkSheet titulo [encabezados].
Let w1 : Workbook := w0 ++ [ws].
Let sta : World := set_wb (Some (create_sheet titulo None w0)) st.
Let st1 : World := add_log (EvAppend titulo encabezados) (set_wb (Some w1) sta).

Lemma insertar_w1 (t : string) :
  get_sheet t w1 = if String.eqb titulo t then Some ws else get_sheet t w0.
Proof.
  unfold w1. rewrite get_sheet_app. cbn [get_sheet title ws].
  destruct (String.eqb titulo t) eqn:E.
  - apply String.eqb_eq in E. subst t. now rewrite (get_sheet_none _ _ Hn).
  - now destruct (get_sheet t w0).
Qed.

Lemma insertar_cabeza : _poner_encabezados titulo sta = (Ok tt, st1).
Proof.
  unfold _poner_encabezados.
  rewrite (bind_ok _ _ _ _ _ (get_wb_ok sta _ eq_refl)).
  unfold create_sheet. rewrite (get_sheet_app_new titulo w0 Hn). cbn [rows].
  rewrite (ws_append_ok titulo encabezados sta _ eq_refl eq_refl).
  unfold st1, w1, ws, create_sheet. do 4 f_equal.
  unfold append_row. rewrite map_app. fold (append_row titulo encabezados w0).
  rewrite append_row_ausente by now apply get_sheet_none.
  cbn. now rewrite String.eqb_refl.
Qed.

Lemma insertar_nombres_w1 : sheetnames w1 = sheetnames w0 ++ [titulo].
Proof. unfold w1, sheetnames. now rewrite map_app. Qed.

(** With the sheet of the unusual traffic in the workbook the insertion goes
    through: it adds the effect of the header row, leaves the titles in the
    order computed from the titles found, and every sheet can be looked up as
    before, the new one with its header row. *)
Lemma insertar_ok :
  mem inus_name (sheetnames w0 ++ [titulo]) = true ->
  exists wf,
    _insertar_hoja_watchlist_en_posicion titulo st
      = (Ok tt, add_log (EvAppend titulo encabezados) (set_wb (Some wf) st))
    /\ sheetnames wf = orden_tras_insertar (sheetnames w0) titulo
    /\ forall t, get_sheet t wf
                 = if String.eqb titulo t then Some ws else get_sheet t w0.
Proof.
  intros Hi.
  unfold _insertar_hoja_watchlist_en_posicion. rewrite Hw, Hn.
  unfold bind at 1. unfold bind at 1. unfold put_wb at 1, modify at 1.
  fold sta. rewrite insertar_cabeza.
  rewrite (bind_ok _ _ _ _ _ (get_wb_ok st1 w1 eq_refl)).
  rewrite (insertar_w1 titulo), String.eqb_refl.
  assert (Hrm : remove_first titulo w1 = w0)
    by (apply remove_first_nuevo; [now apply get_sheet_none | reflexivity]).
  rewrite Hrm.
  set (ti := S (index_of titulo _)).
  assert (Hcur : forall t, get_sheet t (insert_at ti ws w0) = get_sheet t w1).
  { intros t. rewrite insertar_w1.
    apply get_sheet_insert_at. now apply get_sheet_none. }
  rewrite <- insertar_nombres_w1 in Hi.
  destruct (get_sheet_mem inus_name w1 Hi) as (ws_inus & Hinus1).
  rewrite Hinus1.
  unfold orden_tras_insertar. fold ti. rewrite <- insertar_nombres_w1.
  destruct (mem desc_name (sheetnames w1)) eqn:Hd.
  - destruct (get_sheet_mem desc_name w1 Hd) as (ws_desc & Hdesc).
    rewrite Hdesc. unfold bind, ret, put_wb, modify.
    eexists. split; [reflexivity|]. split.
    + rewrite sheetnames_insert_at, sheetnames_without.
      rewrite (get_sheet_title _ _ _ Hinus1). do 2 f_equal.
      unfold sheetnames at 1. rewrite map_app. cbn [map].
      rewrite (get_sheet_title _ _ _ Hdesc). f_equal.
      fold (sheetnames (without desc_name (insert_at ti ws w0))).
      now rewrite sheetnames_without, sheetnames_insert_at.
    + intros t. rewrite <- insertar_w1.
      assert (Hfin : forall t', get_sheet t'
                        (without desc_name (insert_at ti ws w0) ++ [ws_desc])
                      = get_sheet t' w1).
      { intros t'. rewrite get_sheet_al_final; [apply Hcur|].
        now rewrite Hcur. }
      rewrite get_sheet_al_frente; [apply Hfin|]. now rewrite Hfin.
  - unfold bind, ret, put_wb, modify.
    eexists. split; [reflexivity|]. split.
    + rewrite sheetnames_insert_at, sheetnames_without.
      rewrite (get_sheet_title _ _ _ Hinus1). do 2 f_equal.
      now rewrite sheetnames_insert_at.
    + intros t. rewrite <- insertar_w1.
      rewrite get_sheet_al_frente; [apply Hcur|]. now rewrite Hcur.
Qed.

(** Without that sheet the insertion raises [KeyError] after the new sheet
    was created at the end and given its header row. *)
Lemma insertar_sin_inusual :
  mem inus_name (sheetnames w0 ++ [titulo]) = false ->
  _insertar_hoja_watchlist_en_posicion titulo st
    = (Raise KeyError,
       add_log (EvAppend titulo encabezados) (set_wb (Some w1) st)).
Proof.
  intros Hi.
  unfold _insertar_hoja_watchlist_en_posicion. rewrite Hw, Hn.
  unfold bind at 1. unfold bind at 1. unfold put_wb at 1, modify at 1.
  fold sta. rewrite insertar_cabeza.
  rewrite (bind_ok _ _ _ _ _ (get_wb_ok st1 w1 eq_refl)).
  rewrite (insertar_w1 titulo), String.eqb_refl.
  assert (Hinus1 : get_sheet inus_name w1 = None).
  { apply get_sheet_none. now rewrite insertar_nombres_w1. }
  rewrite Hinus1.
  destruct (mem desc_name (sheetnames w1)) eqn:Hd.
  - destruct (get_sheet_mem desc_name w1 Hd) as (ws_desc & Hdesc).
    rewrite Hdesc. reflexivity.
  - reflexivity.
Qed.

End Insertar.

(** *** The order after an insertion *)

Lemma insert_sorted_cabeza (a : string) (l : list string) :
  match l with [] => True | y :: _ => key_le a y end ->
  insert_sorted a l = a :: l.
Proof.
  destruct l as [|y l]; [reflexivity|]. cbn [insert_sorted].
  intros Hy. unfold key_lt. unfold key_le in Hy. now rewrite Hy.
Qed.

(** Sorting a sorted list with one more title at its end places that title
    and moves nothing else. *)
Lemma sort_lower_snoc (x : string) (watch : list string) :
  StronglySorted key_le watch ->
  exists l1 l2, watch = l1 ++ l2 /\ sort_lower (watch ++ [x]) = l1 ++ x :: l2.
Proof.
  induction 1 as [|a w Hs IH Ha].
  - now exists [], [].
  - destruct IH as (l1 & l2 & Ew & E).
    unfold sort_lower in *. rewrite <- app_comm_cons. cbn [fold_right]. rewrite E.
    subst w. apply Forall_app in Ha. destruct Ha as [Ha1 Ha2].
    destruct l1 as [|y l1].
    + cbn [List.app insert_sorted]. destruct (key_lt x a).
      * exists [], (a :: l2). split; [reflexivity|].
        cbn [List.app]. rewrite insert_sorted_cabeza; [reflexivity|].
        destruct l2; [exact I | now inversion Ha2].
      * now exists [a], l2.
    + exists (a :: y :: l1), l2. split; [reflexivity|].
      rewrite <- !app_comm_cons. apply insert_sorted_cabeza.
      now inversion Ha1.
Qed.

Lemma index_of_app (x : string) (l1 l2 : list string) :
  ~ In x l1 -> index_of x (l1 ++ x :: l2) = List.length l1.
Proof.
  induction l1 as [|y l1 IH]; intros H.
  - cbn. now rewrite String.eqb_refl.
  - rewrite <- app_comm_cons. cbn [index_of List.length].
    destruct (String.eqb y x) eqn:E.
    + apply String.eqb_eq in E. subst. exfalso. apply H. now left.
    + rewrite IH; [reflexivity|]. intros Hin. apply H. now right.
Qed.

Lemma insert_at_app {A : Type} (x : A) (l1 l2 : list A) :
  insert_at (List.length l1) x (l1 ++ l2) = l1 ++ x :: l2.
Proof.
  unfold insert_at. rewrite firstn_app, skipn_app, Nat.sub_diag.
  rewrite firstn_all, skipn_all. cbn. now rewrite app_nil_r.
Qed.

Lemma insert_at_S {A : Type} (i : nat) (x a : A) (l : list A) :
  insert_at (S i) x (a :: l) = a :: insert_at i x l.
Proof. reflexivity. Qed.

Lemma filter_distintos (n : string) (l : list string) :
  Forall (fun s => s <> n) l ->
  filter (fun s => negb (String.eqb s n)) l = l.
Proof.
  induction 1 as [|y l Hy _ IH]; [reflexivity|]. cbn [filter].
  apply String.eqb_neq in Hy. rewrite Hy. cbn [negb]. now rewrite IH.
Qed.

Lemma es_watchlist_distinto (s : string) :
  es_watchlist s = true -> s <> inus_name /\ s <> desc_name.
Proof.
  unfold es_watchlist. intros H. apply negb_true_iff, orb_false_elim in H.
  destruct H as [H1 H2]. now apply String.eqb_neq in H1, H2.
Qed.

Lemma filter_todos {A : Type} (p : A -> bool) (l : list A) :
  Forall (fun x => p x = true) l -> filter p l = l.
Proof.
  induction 1 as [|y l Hy _ IH]; [reflexivity|]. cbn [filter]. now rewrite Hy, IH.
Qed.

Lemma filter_ninguno {A : Type} (p : A -> bool) (l : list A) :
  Forall (fun x => p x = false) l -> filter p l = [].
Proof.
  induction 1 as [|y l Hy _ IH]; [reflexivity|]. cbn [filter]. now rewrite Hy, IH.
Qed.

Lemma mem_false_In (t : string) (l : list string) : mem t l = false <-> ~ In t l.
Proof.
  rewrite <- mem_In. destruct (mem t l); split; congruence.
Qed.

(** From titles in the order of the module, the insertion of a new title of
    the watchlist gives the titles in that order again, the new title at its
    sorted place. *)
Lemma orden_tras_insertar_canonico (names watch fin : list string) (titulo : string) :
  canonico names watch fin ->
  mem titulo names = false -> es_watchlist titulo = true ->
  orden_tras_insertar names titulo
    = inus_name :: sort_lower (watch ++ [titulo]) ++ fin
  /\ canonico (orden_tras_insertar names titulo) (sort_lower (watch ++ [titulo])) fin.
Proof.
  intros (En & Hs & Hwl & Hfin) Hn Ht.
  assert (Hfw : Forall (fun s => es_watchlist s = false) fin).
  { destruct Hfin as [-> | ->]; repeat constructor. }
  assert (Hfilt : filter es_watchlist names = watch).
  { rewrite En. cbn [filter]. change (es_watchlist inus_name) with false. cbv iota.
    rewrite filter_app, (filter_todos _ _ Hwl), (filter_ninguno _ _ Hfw).
    apply app_nil_r. }
  destruct (sort_lower_snoc titulo watch Hs) as (l1 & l2 & Ew & Es).
  assert (Hnw : ~ In titulo watch).
  { apply mem_false_In in Hn. intros H. apply Hn. rewrite En.
    right. apply in_or_app. now left. }
  assert (Hwl' : Forall (fun s => es_watchlist s = true) (l1 ++ titulo :: l2)).
  { rewrite <- Es. apply Forall_forall. intros s Hin.
    rewrite sort_lower_In, in_app_iff in Hin. destruct Hin as [Hin | [<- | []]]; trivial.
    rewrite Forall_forall in Hwl. now apply Hwl. }
  assert (Hni : Forall (fun s => s <> inus_name) (l1 ++ titulo :: l2 ++ fin)).
  { rewrite app_comm_cons, app_assoc. apply Forall_app. split.
    - eapply Forall_impl; [|exact Hwl']. intros s H. now apply es_watchlist_distinto.
    - destruct Hfin as [-> | ->]; repeat constructor. discriminate. }
  assert (Hnd : Forall (fun s => s <> desc_name) (inus_name :: l1 ++ titulo :: l2)).
  { constructor; [discriminate|].
    eapply Forall_impl; [|exact Hwl']. intros s H. now apply es_watchlist_distinto. }
  assert (E : orden_tras_insertar names titulo
              = inus_name :: sort_lower (watch ++ [titulo]) ++ fin).
  { unfold orden_tras_insertar. rewrite Hfilt, Es.
    rewrite index_of_app by (intros H; apply Hnw; rewrite Ew; apply in_or_app; now left).
    assert (Hm : mem desc_name (names ++ [titulo])
                 = match fin with [] => false | _ => true end).
    { rewrite En. destruct Hfin as [-> | ->].
      - apply mem_false_In. rewrite app_nil_r. intros Hin.
        rewrite <- app_comm_cons in Hin. destruct Hin as [Hin | Hin]; [discriminate|].
        apply in_app_or in Hin. destruct Hin as [Hin | [Hin | []]].
        + rewrite Forall_forall in Hwl. specialize (Hwl _ Hin). discriminate.
        + subst titulo. discriminate.
      - apply mem_In. apply in_or_app. left. right. apply in_or_app. right. now left. }
    rewrite Hm.
    rewrite En, Ew, insert_at_S, <- app_assoc, insert_at_app.
    change (insert_at O inus_name ?l) with (inus_name :: l).
    f_equal.
    destruct Hfin as [-> | ->].
    + rewrite !app_nil_r in *. cbn [filter].
      change (String.eqb inus_name inus_name) with true. cbn [negb].
      now rewrite (filter_distintos inus_name _ Hni).
    + assert (Ea : inus_name :: l1 ++ titulo :: l2 ++ [desc_name]
                   = (inus_name :: l1 ++ titulo :: l2) ++ [desc_name]).
      { cbn [List.app]. f_equal. rewrite <- app_assoc. reflexivity. }
      assert (Ei : filter (fun s => negb (String.eqb s desc_name))
                     (inus_name :: l1 ++ titulo :: l2 ++ [desc_name])
                   = inus_name :: l1 ++ titulo :: l2).
      { rewrite Ea, filter_app, (filter_distintos desc_name _ Hnd).
        replace (filter (fun s => negb (String.eqb s desc_name)) [desc_name])
          with (@nil string) by reflexivity.
        apply app_nil_r. }
      cbv iota. rewrite Ei, <- Ea. cbn [filter].
      change (String.eqb inus_name inus_name) with true. cbn [negb].
      rewrite (filter_distintos inus_name _ Hni).
      rewrite <- app_assoc. reflexivity. }
  split; [exact E|].
  rewrite E. split; [reflexivity|]. split; [apply sort_lower_sorted|].
  split; [now rewrite Es | exact Hfin].
Qed.

(** X10: inserting the sheet of a new segment of the watchlist into a
    workbook with plain titles whose sheets are in the order of the module
    (unusual traffic first, the watchlist sorted by title in lower case, the
    unknown segments last when there) goes through and leaves the sheets in
    that order, the new title at its sorted place; the new sheet holds the
    header row only, and every other sheet is found under its title exactly
    as before.  The title is one openpyxl takes as given: valid, and new
    also when the case of the letters is ignored. *)
Theorem insertar_mantiene_orden :
  forall (titulo : string) (st : World) (w0 : Workbook) (watch fin : list string),
    wb st = Some w0 ->
    titulos_llanos (sheetnames w0) = true -> titulo_valido titulo = true ->
    canonico (sheetnames w0) watch fin ->
    mem titulo (sheetnames w0) = false -> sin_choque titulo (sheetnames w0) = true ->
    es_watchlist titulo = true ->
    exists wf,
      _insertar_hoja_watchlist_en_posicion titulo st
        = (Ok tt, add_log (EvAppend titulo encabezados) (set_wb (Some wf) st))
      /\ canonico (sheetnames wf) (sort_lower (watch ++ [titulo])) fin
      /\ forall t, get_sheet t wf
                   = if String.eqb titulo t then Some (mkSheet titulo [encabezados])
                     else get_sheet t w0.
Proof.
  intros titulo st w0 watch fin Hw _ _ Hc Hn _ Ht.
  assert (Hi : mem inus_name (sheetnames w0 ++ [titulo]) = true).
  { destruct Hc as (E & _). rewrite E. reflexivity. }
  destruct (insertar_ok titulo st w0 Hw Hn Hi) as (wf & E & En & Hl).
  exists wf. split; [exact E|]. split; [|exact Hl].
  rewrite En. now apply orden_tras_insertar_canonico.
Qed.

Lemma insertar_mantiene_orden_witness :
  exists wf,
    _insertar_hoja_watchlist_en_posicion "Main St" mundo_en_orden
      = (Ok tt, add_log (EvAppend "Main St" encabezados)
                  (set_wb (Some wf) mundo_en_orden))
    /\ canonico (sheetnames wf) (sort_lower (["a-Blvd"; "Z-Ave"] ++ ["Main St"]))%string
                [desc_name]
    /\ forall t, get_sheet t wf
                 = if String.eqb "Main St" t then Some (mkSheet "Main St" [encabezados])
                   else get_sheet t libro_en_orden.
Proof.
  apply (insertar_mantiene_orden "Main St" mundo_en_orden libro_en_orden
           ["a-Blvd"; "Z-Ave"]%string [desc_name]); try reflexivity.
  split; [reflexivity|]. split.
  - repeat constructor.
  - split; [repeat constructor | now right].
Defined.



(** *** Reordering *)

Lemma pick_all_elegir (names : list string) (w : Workbook) (st : World) :
  (forall n, In n names -> mem n (sheetnames w) = true) ->
  pick_all names w st = (Ok (elegir names w), st).
Proof.
  induction names as [|n ns IH]; intros H; cbn [pick_all]; [reflexivity|].
  destruct (get_sheet_mem n w (H n (or_introl eq_refl))) as (sh & E).
  unfold elegir. cbn [flat_map]. rewrite E.
  rewrite (bind_ok _ _ _ _ _ (IH (fun m Hm => H m (or_intror Hm)))).
  reflexivity.
Qed.

Lemma get_sheet_elegir (names : list string) (w : Workbook) (t : string) :
  get_sheet t (elegir names w) = if mem t names then get_sheet t w else None.
Proof.
  unfold elegir. induction names as [|n ns IH]; [reflexivity|].
  cbn [flat_map mem existsb]. fold (mem t ns).
  destruct (get_sheet n w) as [sh|] eqn:E.
  - cbn [List.app get_sheet]. rewrite (get_sheet_title _ _ _ E).
    rewrite String.eqb_sym.
    destruct (String.eqb t n) eqn:Et; cbn [orb]; [|exact IH].
    apply String.eqb_eq in Et. now subst.
  - cbn [List.app]. rewrite IH.
    destruct (String.eqb t n) eqn:Et; cbn [orb]; [|reflexivity].
    apply String.eqb_eq in Et. subst. rewrite E. now destruct (mem n ns).
Qed.

Lemma sheetnames_elegir (names : list string) (w : Workbook) :
  (forall n, In n names -> mem n (sheetnames w) = true) ->
  sheetnames (elegir names w) = names.
Proof.
  unfold elegir, sheetnames. induction names as [|n ns IH]; intros H; [reflexivity|].
  cbn [flat_map].
  destruct (get_sheet_mem n w (H n (or_introl eq_refl))) as (sh & E). rewrite E.
  cbn [List.app map]. rewrite (get_sheet_title _ _ _ E).
  now rewrite IH by (intros m Hm; apply H; now right).
Qed.

Lemma new_order_mem_iff (names : list string) (t : string) :
  mem inus_name names = true ->
  mem t (new_order_of names) = mem t names.
Proof.
  intros Hi. destruct (mem t names) eqn:E.
  - apply mem_In. apply mem_In in E. unfold new_order_of.
    rewrite !in_app_iff. cbn [In].
    destruct (String.eqb t inus_name) eqn:E1;
      [apply String.eqb_eq in E1; now left; left|].
    destruct (String.eqb t desc_name) eqn:E2.
    + apply String.eqb_eq in E2. subst t. right. right.
      apply mem_In in E. rewrite E. now left.
    + right. left. rewrite sort_lower_In, filter_In. split; [exact E|].
      unfold es_watchlist. now rewrite E1, E2.
  - apply mem_false_In. intros H. apply (new_order_mem names Hi) in H. congruence.
Qed.

(** The workbook that reordering leaves, from the workbook it finds. *)
Lemma ordenar_desde (st : World) (w : Workbook) :
  wb st = Some w -> mem inus_name (sheetnames w) = true ->
  _ordenar_hojas_watchlist st
    = (Ok tt, set_wb (Some (elegir (new_order_of (sheetnames w)) w)) st)
  /\ forall t, get_sheet t (elegir (new_order_of (sheetnames w)) w) = get_sheet t w.
Proof.
  intros Hw Hi. split.
  - unfold _ordenar_hojas_watchlist. rewrite Hw, Hi. cbn [bind ret].
    rewrite (bind_ok _ _ _ _ _ (get_wb_ok st w Hw)).
    rewrite (bind_ok _ _ _ _ _
               (pick_all_elegir _ w st (new_order_mem _ Hi))).
    reflexivity.
  - intros t. rewrite get_sheet_elegir, new_order_mem_iff by exact Hi.
    destruct (mem t (sheetnames w)) eqn:E; [reflexivity|].
    symmetry. now apply get_sheet_none.
Qed.

Lemma con_inusual_mem (w : Workbook) :
  mem inus_name (sheetnames (con_inusual w)) = true.
Proof.
  unfold con_inusual. destruct (mem inus_name (sheetnames w)) eqn:E; [exact E|].
  reflexivity.
Qed.

Lemma asegurar_wb (st : World) (w : Workbook) :
  wb st = Some w -> wb (asegurar_inusual st) = Some (con_inusual w).
Proof.
  intros H. unfold asegurar_inusual, con_inusual. rewrite H.
  now destruct (mem inus_name (sheetnames w)).
Qed.

(** Reordering always goes through: it makes sure of the sheet of the
    unusual traffic, then rebuilds the list of the sheets from the titles in
    their new order. *)
Lemma ordenar_todo (st : World) (w0 : Workbook) :
  wb st = Some w0 ->
  _ordenar_hojas_watchlist st
    = (Ok tt,
       set_wb (Some (elegir (new_order_of (sheetnames (con_inusual w0)))
                            (con_inusual w0)))
              (asegurar_inusual st)).
Proof.
  intros Hw. destruct (mem inus_name (sheetnames w0)) eqn:Hi.
  - destruct (ordenar_desde st w0 Hw Hi) as [E _]. rewrite E.
    unfold asegurar_inusual, con_inusual. now rewrite Hw, Hi.
  - unfold _ordenar_hojas_watchlist. rewrite Hw, Hi.
    set (w1 := create_sheet inus_name (Some O) w0).
    set (sta := set_wb (Some w1) st).
    assert (Hp : _poner_encabezados inus_name sta
                 = (Ok tt, asegurar_inusual st)).
    { unfold _poner_encabezados.
      rewrite (bind_ok _ _ _ _ _ (get_wb_ok sta w1 eq_refl)).
      change (get_sheet inus_name w1) with (Some (mkSheet inus_name [])).
      cbn [rows].
      rewrite (ws_append_ok inus_name encabezados sta w1 eq_refl eq_refl).
      unfold asegurar_inusual, con_inusual. rewrite Hw, Hi.
      unfold sta, w1, create_sheet, insert_at. cbn [firstn skipn List.app].
      unfold append_row. cbn [map title]. fold (append_row inus_name encabezados w0).
      rewrite append_row_ausente by now apply get_sheet_none.
      reflexivity. }
    unfold bind at 1. unfold bind at 1. unfold put_wb at 1, modify at 1.
    fold w1. fold sta. rewrite Hp.
    pose proof (asegurar_wb st w0 Hw) as Hw1.
    rewrite (bind_ok _ _ _ _ _ (get_wb_ok _ _ Hw1)).
    rewrite (bind_ok _ _ _ _ _
               (pick_all_elegir _ _ _ (new_order_mem _ (con_inusual_mem w0)))).
    reflexivity.
Qed.

Lemma elegir_ext (names : list string) (w w' : Workbook) :
  (forall n, In n names -> get_sheet n w = get_sheet n w') ->
  elegir names w = elegir names w'.
Proof.
  unfold elegir. induction names as [|n ns IH]; intros H; [reflexivity|].
  cbn [flat_map]. rewrite (H n (or_introl eq_refl)).
  now rewrite IH by (intros m Hm; apply H; now right).
Qed.

Lemma elegir_todas (w : Workbook) :
  NoDup (sheetnames w) -> elegir (sheetnames w) w = w.
Proof.
  induction w as [|x w IH]; intros H; [reflexivity|].
  unfold sheetnames in *. cbn [map] in *. inversion H as [|? ? Hx Hnd]; subst.
  change (elegir (title x :: map title w) (x :: w))
    with ((match get_sheet (title x) (x :: w) with Some sh => [sh] | None => [] end)
          ++ elegir (map title w) (x :: w)).
  cbn [get_sheet]. rewrite String.eqb_refl.
  cbn [List.app]. f_equal.
  transitivity (elegir (map title w) w); [|now apply IH].
  apply elegir_ext.
  intros n Hn. cbn [get_sheet].
  destruct (String.eqb (title x) n) eqn:E; [|reflexivity].
  apply String.eqb_eq in E. subst n. contradiction.
Qed.

Lemma elegir_perm (names names' : list string) (w : Workbook) :
  Permutation names names' -> Permutation (elegir names w) (elegir names' w).
Proof. intros H. unfold elegir. now apply Permutation_flat_map. Qed.

Lemma new_order_NoDup (names : list string) :
  NoDup names -> NoDup (new_order_of names).
Proof.
  intros H. unfold new_order_of.
  assert (Hw : NoDup (sort_lower (filter es_watchlist names))).
  { eapply Permutation_NoDup; [symmetry; apply sort_lower_perm|].
    now apply NoDup_filter. }
  assert (Hin : forall s, In s (sort_lower (filter es_watchlist names)) ->
                          s <> inus_name /\ s <> desc_name).
  { intros s Hs. rewrite sort_lower_In, filter_In in Hs.
    apply es_watchlist_distinto, Hs. }
  cbn [List.app]. constructor.
  - intros Hi. apply in_app_or in Hi. destruct Hi as [Hi | Hi].
    + now destruct (Hin _ Hi).
    + destruct (mem desc_name names); [|destruct Hi].
      destruct Hi as [Hi | []]. discriminate.
  - apply NoDup_app; [exact Hw | |].
    + destruct (mem desc_name names); repeat constructor. intros [].
    + intros s Hs Hd. destruct (mem desc_name names); [|destruct Hd].
      destruct Hd as [<- | []]. now destruct (Hin _ Hs).
Qed.

Lemma new_order_perm (names : list string) :
  NoDup names -> mem inus_name names = true ->
  Permutation (new_order_of names) names.
Proof.
  intros Hnd Hi. apply NoDup_Permutation; [now apply new_order_NoDup | exact Hnd|].
  intros s. rewrite <- !mem_In. now rewrite new_order_mem_iff.
Qed.

Lemma con_inusual_NoDup (w : Workbook) :
  NoDup (sheetnames w) -> NoDup (sheetnames (con_inusual w)).
Proof.
  intros H. unfold con_inusual.
  destruct (mem inus_name (sheetnames w)) eqn:E; [exact H|].
  unfold sheetnames. cbn [map title]. constructor; [|exact H].
  now apply mem_false_In.
Qed.

(** X12: on a workbook whose titles are plain and pairwise distinct, as
    openpyxl keeps them, and none of which is the title of the unusual
    traffic in another case of its letters, [_ordenar_hojas_watchlist]
    returns normally, and the sheets it leaves
    are the sheets it found, each one with its rows, only in another order,
    plus the sheet of the unusual traffic with its header row when that
    sheet was missing; their titles are that sheet first, the watchlist
    sorted by title in lower case, then the sheet of the unknown segments
    when there is one. *)
Theorem ordenar_es_permutacion :
  forall (st : World) (w0 : Workbook),
    wb st = Some w0 -> NoDup (sheetnames w0) ->
    titulos_llanos (sheetnames w0) = true ->
    sin_choque inus_name (sheetnames w0) = true ->
    exists w',
      _ordenar_hojas_watchlist st = (Ok tt, set_wb (Some w') (asegurar_inusual st))
      /\ Permutation w' (con_inusual w0)
      /\ sheetnames w' = new_order_of (sheetnames (con_inusual w0))
      /\ forall t, get_sheet t w' = get_sheet t (con_inusual w0).
Proof.
  intros st w0 Hw Hnd _ _.
  exists (elegir (new_order_of (sheetnames (con_inusual w0))) (con_inusual w0)).
  pose proof (con_inusual_mem w0) as Hi.
  pose proof (con_inusual_NoDup w0 Hnd) as Hnd'.
  split; [now apply ordenar_todo|]. split; [|split].
  - eapply Permutation_trans;
      [apply elegir_perm, new_order_perm; assumption|].
    now rewrite elegir_todas.
  - apply sheetnames_elegir. now apply new_order_mem.
  - intros t. rewrite get_sheet_elegir, new_order_mem_iff by exact Hi.
    destruct (mem t (sheetnames (con_inusual w0))) eqn:E; [reflexivity|].
    symmetry. now apply get_sheet_none.
Qed.

Lemma ordenar_es_permutacion_witness :
  exists w',
    _ordenar_hojas_watchlist mundo_desordenado
      = (Ok tt, set_wb (Some w') (asegurar_inusual mundo_desordenado))
    /\ Permutation w' (con_inusual libro_desordenado)
    /\ sheetnames w' = new_order_of (sheetnames (con_inusual libro_desordenado))
    /\ forall t, get_sheet t w' = get_sheet t (con_inusual libro_desordenado).
Proof.
  apply (ordenar_es_permutacion mundo_desordenado libro_desordenado eq_refl);
    [|reflexivity|reflexivity].
  repeat (constructor; [cbn; intuition discriminate|]). constructor.
Defined.

Lemma sort_lower_ordenada (l : list string) :
  StronglySorted key_le l -> sort_lower l = l.
Proof.
  induction 1 as [|a l Hs IH Ha]; [reflexivity|].
  unfold sort_lower in *. cbn [fold_right]. rewrite IH.
  apply insert_sorted_cabeza. destruct l; [exact I | now inversion Ha].
Qed.

Lemma new_order_idem (names : list string) :
  new_order_of (new_order_of names) = new_order_of names.
Proof.
  assert (Hf : filter es_watchlist (new_order_of names)
               = sort_lower (filter es_watchlist names)).
  { unfold new_order_of. rewrite !filter_app. cbn [filter].
    change (es_watchlist inus_name) with false. cbv iota.
    rewrite (filter_ninguno es_watchlist (if mem desc_name names then _ else _))
      by (destruct (mem desc_name names); repeat constructor).
    cbn [List.app]. rewrite app_nil_r. apply filter_todos.
    apply Forall_forall. intros s Hs. rewrite sort_lower_In, filter_In in Hs. tauto. }
  unfold new_order_of at 1. rewrite mem_desc_new_order, Hf.
  rewrite (sort_lower_ordenada _ (sort_lower_sorted _)). reflexivity.
Qed.

Lemma elegir_idem (names : list string) (w : Workbook) :
  elegir names (elegir names w) = elegir names w.
Proof.
  apply elegir_ext. intros n Hn. rewrite get_sheet_elegir.
  now rewrite (proj2 (mem_In n names) Hn).
Qed.

Lemma set_wb_mismo (st : World) (w : Workbook) :
  wb st = Some w -> set_wb (Some w) st = st.
Proof. destruct st. cbn. now intros ->. Qed.

(** X13: reordering is idempotent: run on the state that a first run left,
    [_ordenar_hojas_watchlist] returns normally and changes nothing,
    whatever the order of the sheets was before (the titles being plain,
    and none the one of the unusual traffic in another case of its
    letters). *)
Theorem ordenar_idempotente :
  forall st : World,
    titulos_llanos (titulos st) = true ->
    sin_choque inus_name (titulos st) = true ->
    _ordenar_hojas_watchlist (snd (_ordenar_hojas_watchlist st))
      = (Ok tt, snd (_ordenar_hojas_watchlist st)).
Proof.
  intros st _ _. destruct (wb st) as [w0|] eqn:Hw.
  - rewrite (ordenar_todo st w0 Hw). cbn [snd].
    set (N := new_order_of (sheetnames (con_inusual w0))).
    set (w' := elegir N (con_inusual w0)).
    set (st' := set_wb (Some w') (asegurar_inusual st)).
    assert (Hn : sheetnames w' = N).
    { apply sheetnames_elegir, new_order_mem, con_inusual_mem. }
    assert (Hi : mem inus_name (sheetnames w') = true) by now rewrite Hn.
    destruct (ordenar_desde st' w' eq_refl Hi) as [E _]. rewrite E.
    f_equal. rewrite Hn. unfold N at 1. rewrite new_order_idem. fold N.
    unfold w'. rewrite elegir_idem. fold w'.
    now apply set_wb_mismo.
  - unfold _ordenar_hojas_watchlist. rewrite Hw. cbn [snd]. now rewrite Hw.
Qed.

Lemma ordenar_idempotente_witness :
  _ordenar_hojas_watchlist (snd (_ordenar_hojas_watchlist mundo_desordenado))
    = (Ok tt, snd (_ordenar_hojas_watchlist mundo_desordenado)).
Proof. exact (ordenar_idempotente mundo_desordenado eq_refl eq_refl). Defined.

End SheetFacts.

(* ------------------------------------------------------------------ *)
(** * What a batch leaves and what it counts *)

Module GuardarFacts.

Import PyStr Models Storage StorageTerms SaveTerms SheetTerms DominioTerms.
Import StorageFacts SheetFacts.

Local Open Scope list_scope.

(** *** Sheets and rows are only ever added *)

#[export] Instance crece_marco : Marco crece.
Proof.
  split.
  - intros st t sh H. exists sh, []. split; [exact H | now rewrite app_nil_r].
  - intros a b c Hab Hbc t sh H.
    destruct (Hab t sh H) as (sh1 & m1 & H1 & E1).
    destruct (Hbc t sh1 H1) as (sh2 & m2 & H2 & E2).
    exists sh2, (m1 ++ m2). split; [exact H2|]. now rewrite E2, E1, app_assoc.
Qed.

Lemma crece_mismas (st st' : World) :
  (forall t, hoja_de st' t = hoja_de st t) -> crece st st'.
Proof.
  intros H t sh Hs. exists sh, []. rewrite H. split; [exact Hs | now rewrite app_nil_r].
Qed.

Lemma crece_libro (st st' : World) :
  wb st' = wb st -> crece st st'.
Proof. intros H. apply crece_mismas. intros t. unfold hoja_de. now rewrite H. Qed.

Lemma crece_guardado (st st' : World) : guardado st st' -> crece st st'.
Proof. intros (H & _). now apply crece_libro. Qed.

Lemma crece_hojas (st st' : World) (w w' : Workbook) :
  wb st = Some w -> wb st' = Some w' ->
  (forall t sh, get_sheet t w = Some sh -> get_sheet t w' = Some sh) ->
  crece st st'.
Proof.
  intros Hw Hw' H t sh Hs. unfold hoja_de in *. rewrite Hw in Hs. rewrite Hw'.
  exists sh, []. split; [now apply H | now rewrite app_nil_r].
Qed.

Lemma crece_ws_append (t : string) (r : row) : preserves crece (ws_append t r).
Proof.
  intros st res st' H. unfold ws_append in H.
  destruct (row_illegal r); [injection H as _ <-; apply marco_refl|].
  unfold bind, get_wb in H. destruct (wb st) as [w|] eqn:Hw.
  - cbn in H. injection H as _ <-.
    intros t' sh Hs. unfold hoja_de in *. rewrite Hw in Hs. cbn [wb add_log set_wb].
    rewrite get_sheet_append_row, Hs.
    destruct (String.eqb (title sh) t).
    + eexists _, [r]. split; reflexivity.
    + exists sh, []. split; [reflexivity | now rewrite app_nil_r].
  - injection H as _ <-. apply marco_refl.
Qed.

Lemma crece_lookup (t : string) : preserves crece (lookup t).
Proof.
  intros st res st' H. unfold lookup, bind, get_wb in H.
  destruct (wb st) as [w|]; [destruct (get_sheet t w)|];
    injection H as _ <-; apply marco_refl.
Qed.

Lemma crece_poner_encabezados (t : string) : preserves crece (_poner_encabezados t).
Proof.
  intros st res st' H. unfold _poner_encabezados, bind, get_wb in H.
  destruct (wb st) as [w|]; [|injection H as _ <-; apply marco_refl].
  destruct (get_sheet t w) as [sh|]; [|injection H as _ <-; apply marco_refl].
  destruct (rows sh); [now apply (crece_ws_append _ _ _ _ _ H)|].
  injection H as _ <-. apply marco_refl.
Qed.

Lemma crece_crear (n : string) (idx : option nat) (st : World) (w : Workbook) :
  wb st = Some w -> mem n (sheetnames w) = false ->
  crece st (set_wb (Some (create_sheet n idx w)) st).
Proof.
  intros Hw Hn. eapply crece_hojas; [exact Hw | reflexivity |].
  intros t sh Hs.
  assert (E : forall i, get_sheet t (insert_at i (mkSheet n []) w) = Some sh).
  { intros i. rewrite get_sheet_insert_at by now apply get_sheet_none.
    cbn [title]. destruct (String.eqb n t) eqn:E; [|exact Hs].
    apply String.eqb_eq in E. subst t. now rewrite (get_sheet_none _ _ Hn) in Hs. }
  destruct idx as [i|]; cbn [create_sheet]; [apply E|].
  rewrite get_sheet_app, Hs. reflexivity.
Qed.

Lemma crece_insertar (titulo : string) :
  preserves crece (_insertar_hoja_watchlist_en_posicion titulo).
Proof.
  intros st res st' H.
  destruct (wb st) as [w0|] eqn:Hw.
  - destruct (mem titulo (sheetnames w0)) eqn:Hn.
    + unfold _insertar_hoja_watchlist_en_posicion in H. rewrite Hw, Hn in H.
      injection H as _ <-. apply marco_refl.
    + assert (Hnew : forall t sh, get_sheet t w0 = Some sh ->
                       (if String.eqb titulo t
                        then Some (mkSheet titulo [encabezados])
                        else get_sheet t w0) = Some sh).
      { intros t sh Hs. destruct (String.eqb titulo t) eqn:E; [|exact Hs].
        apply String.eqb_eq in E. subst t.
        now rewrite (get_sheet_none _ _ Hn) in Hs. }
      destruct (mem inus_name (sheetnames w0 ++ [titulo])) eqn:Hi.
      * destruct (insertar_ok titulo st w0 Hw Hn Hi) as (wf & E & _ & Hl).
        rewrite E in H. injection H as _ <-.
        eapply crece_hojas; [exact Hw | reflexivity |].
        intros t sh Hs. rewrite Hl. now apply Hnew.
      * rewrite (insertar_sin_inusual titulo st w0 Hw Hn Hi) in H.
        injection H as _ <-.
        eapply crece_hojas; [exact Hw | reflexivity |].
        intros t sh Hs. rewrite get_sheet_app, Hs. reflexivity.
  - unfold _insertar_hoja_watchlist_en_posicion in H. rewrite Hw in H.
    injection H as _ <-. apply marco_refl.
Qed.

Lemma get_sheet_con_inusual (w : Workbook) (t : string) (sh : Sheet) :
  get_sheet t w = Some sh -> get_sheet t (con_inusual w) = Some sh.
Proof.
  intros Hs. unfold con_inusual.
  destruct (mem inus_name (sheetnames w)) eqn:Hi; [exact Hs|].
  cbn [get_sheet title]. destruct (String.eqb inus_name t) eqn:E; [|exact Hs].
  apply String.eqb_eq in E. subst t. now rewrite (get_sheet_none _ _ Hi) in Hs.
Qed.

Lemma crece_ordenar : preserves crece _ordenar_hojas_watchlist.
Proof.
  intros st res st' H. destruct (wb st) as [w0|] eqn:Hw.
  - rewrite (ordenar_todo st w0 Hw) in H. injection H as _ <-.
    apply (crece_hojas _ _ w0
             (elegir (new_order_of (sheetnames (con_inusual w0))) (con_inusual w0))
             Hw); [reflexivity|].
    intros t sh Hs.
    rewrite get_sheet_elegir, new_order_mem_iff by apply con_inusual_mem.
    apply get_sheet_con_inusual in Hs. rewrite Hs.
    destruct (mem t (sheetnames (con_inusual w0))) eqn:E; [reflexivity|].
    now rewrite (get_sheet_none _ _ E) in Hs.
  - unfold _ordenar_hojas_watchlist in H. rewrite Hw in H.
    injection H as _ <-. apply marco_refl.
Qed.

Lemma crece_safe_save (ruta : string) (n : nat) (e : PyFloat.float) :
  preserves crece (safe_save_workbook ruta n e).
Proof.
  intros st res st' H. eapply crece_guardado, guardado_safe_save, H.
Qed.

Ltac crece_paso :=
  repeat match goal with
    | |- Marco _ => exact _
    | |- preserves _ (ret _) => apply preserves_ret
    | |- preserves _ (raise _) => apply preserves_raise
    | |- preserves _ get_wb => apply preserves_get_wb
    | |- preserves _ (ws_append _ _) => apply crece_ws_append
    | |- preserves _ (lookup _) => apply crece_lookup
    | |- preserves _ (_poner_encabezados _) => apply crece_poner_encabezados
    | |- preserves _ (_insertar_hoja_watchlist_en_posicion _) => apply crece_insertar
    | |- preserves _ _ordenar_hojas_watchlist => apply crece_ordenar
    | |- preserves _ (safe_save_workbook _ _ _) => apply crece_safe_save
    | |- preserves _ (bind _ _) => apply preserves_bind; [| | intros ?]
    | |- preserves _ (try_except _ _) => apply preserves_try_except; [| | intros ?]
    | |- preserves _ (if ?b then _ else _) => destruct b
    end.

(** A step that reads the workbook first may rely on what it read. *)
Lemma preserves_desde_libro {A : Type} (R : World -> World -> Prop)
  (k : Workbook -> M A) :
  Marco R ->
  (forall w st r st', wb st = Some w -> k w st = (r, st') -> R st st') ->
  preserves R (w <- get_wb ;; k w).
Proof.
  intros HR H st r st' E. unfold bind, get_wb in E.
  destruct (wb st) as [w|] eqn:Hw.
  - now apply (H w st r st' Hw).
  - injection E as _ <-. apply marco_refl.
Qed.

Lemma preserves_tras {A B : Type} (R : World -> World -> Prop)
  (m : M A) (k : A -> M B) (st : World) (r : result B) (st' : World) :
  Marco R ->
  (forall a s1, m st = (a, s1) -> R st s1) ->
  (forall a, preserves R (k a)) ->
  bind m k st = (r, st') -> R st st'.
Proof.
  intros HR Hm Hk E. unfold bind in E.
  destruct (m st) as [[a|e] s1] eqn:E1.
  - eapply marco_trans; [exact (Hm _ _ eq_refl) | exact (Hk a _ _ _ E)].
  - injection E as _ <-. exact (Hm _ _ eq_refl).
Qed.

Section Crece.

Variable py_hash : string -> Z.
Variable ahora : datetime.

Lemma crece_cuerpo (t : TramoNorm) (n : string) (c : Z * Z * Z) :
  preserves crece (cuerpo py_hash ahora t n c).
Proof.
  unfold cuerpo. destruct c as [[g u] i].
  destruct (es_usual t) as [[]|].
  - crece_paso.
  - crece_paso.
  - apply preserves_desde_libro; [exact _|].
    intros w st r st' Hw E.
    eapply preserves_tras in E; [exact E | exact _ | | intros ?; crece_paso].
    intros a s1 E1. destruct (mem desc_name (sheetnames w)) eqn:Hd.
    + exact (crece_lookup _ _ _ _ E1).
    + unfold bind, put_wb, modify in E1.
      eapply marco_trans; [exact (crece_crear desc_name None st w Hw Hd)|].
      exact (crece_poner_encabezados _ _ _ _ E1).
Qed.

Lemma crece_bucle (tramos : list TramoNorm) :
  forall c, preserves crece (bucle py_hash ahora tramos c).
Proof.
  induction tramos as [|t rest IH]; intros c; cbn [bucle].
  - crece_paso.
  - apply preserves_bind; [exact _ | | exact IH].
    apply preserves_try_except; [exact _ | apply crece_cuerpo | intros ?; crece_paso].
Qed.

Lemma crece_guardar_tramos (tramos : list TramoNorm) :
  preserves crece (guardar_tramos py_hash ahora tramos).
Proof.
  intros st r st' E. unfold guardar_tramos in E.
  destruct (wb st) as [w0|] eqn:Hw; [|injection E as _ <-; apply marco_refl].
  destruct (sin_ruta st); [injection E as _ <-; apply marco_refl|].
  eapply preserves_tras in E; [exact E | exact _ | |].
  - intros a s1 E1. destruct (mem inus_name (sheetnames w0)) eqn:Hi.
    + injection E1 as _ <-. apply marco_refl.
    + unfold put_wb, modify in E1. injection E1 as _ <-.
      exact (crece_crear inus_name (Some O) st w0 Hw Hi).
  - intros _. crece_paso. apply crece_bucle.
Qed.

(** X14: [guardar_tramos] only ever adds: every sheet that the workbook
    held before the call and whose rows are full rows (of as many cells as
    the header, so that none of them is what a refused append left behind)
    is still there after it, under the same title, with the rows it had, in
    their order, at its start; this holds for every batch, also when rows
    are refused or the save fails. *)
Theorem guardar_tramos_solo_agrega :
  forall (tramos : list TramoNorm) (st : World) (t : string) (sh : Sheet),
    hoja_de st t = Some sh ->
    Forall (fun r => List.length r = List.length encabezados) (rows sh) ->
    exists sh' mas,
      hoja_de (snd (guardar_tramos py_hash ahora tramos st)) t = Some sh'
      /\ title sh' = t
      /\ rows sh' = rows sh ++ mas.
Proof.
  intros tramos st t sh H _.
  destruct (guardar_tramos py_hash ahora tramos st) as [r st'] eqn:E.
  destruct (crece_guardar_tramos tramos st r st' E t sh H) as (sh' & mas & H' & Hr).
  exists sh', mas. cbn [snd]. split; [exact H'|]. split; [|exact Hr].
  unfold hoja_de in H'. destruct (wb st'); [|discriminate].
  eapply get_sheet_title, H'.
Qed.

End Crece.

Lemma guardar_tramos_solo_agrega_witness :
  exists sh' mas,
    hoja_de (snd (guardar_tramos hash_ej ahora_ej lote_orden mundo_en_orden))
            "a-Blvd" = Some sh'
    /\ title sh' = "a-Blvd"%string
    /\ rows sh' = rows (mkSheet "a-Blvd" [encabezados]) ++ mas.
Proof.
  exact (guardar_tramos_solo_agrega hash_ej ahora_ej lote_orden mundo_en_orden
           "a-Blvd" (mkSheet "a-Blvd" [encabezados]) eq_refl
           (Forall_cons encabezados eq_refl (Forall_nil _))).
Defined.

(** *** Every acceptable row is counted *)

Lemma get_sheet_some_mem (t : string) (w : Workbook) (sh : Sheet) :
  get_sheet t w = Some sh -> mem t (sheetnames w) = true.
Proof.
  intros H. destruct (mem t (sheetnames w)) eqn:E; [reflexivity|].
  now rewrite (get_sheet_none _ _ E) in H.
Qed.

Lemma hoja_de_libro (st : World) (t : string) :
  hoja_de st t <> None ->
  exists w, wb st = Some w /\ mem t (sheetnames w) = true.
Proof.
  unfold hoja_de. destruct (wb st) as [w|]; [|congruence].
  destruct (get_sheet t w) as [sh|] eqn:E; [|congruence].
  intros _. exists w. split; [reflexivity|]. eapply get_sheet_some_mem, E.
Qed.

Lemma crece_hoja (st st' : World) (t : string) :
  crece st st' -> hoja_de st t <> None -> hoja_de st' t <> None.
Proof.
  intros H Hs. destruct (hoja_de st t) as [sh|] eqn:E; [|congruence].
  destruct (H t sh E) as (sh' & mas & E' & _). congruence.
Qed.

Lemma terna_eq (a b c a' b' c' : Z) :
  a = a' -> b = b' -> c = c' -> (a, b, c) = (a', b', c').
Proof. now intros -> -> ->. Qed.

Section Exacto.

Variable py_hash : string -> Z.
Variable ahora : datetime.

Lemma cuerpo_exacto (t : TramoNorm) (n : string) (c : Z * Z * Z) (st : World) :
  hoja_de st inus_name <> None ->
  exists st',
    cuerpo py_hash ahora t n c st =
      (if row_illegal (fila ahora n t) then Raise IllegalCharacterError
       else Ok (contar t c), st').
Proof.
  intros Hin. destruct (hoja_de_libro st inus_name Hin) as (w & Hw & Hi).
  destruct c as [[g u] i].
  assert (Hfin : forall hoja s1 w1 (c' : Z * Z * Z), wb s1 = Some w1 ->
            exists st',
              (ws_append hoja (fila ahora n t) ;;; ret c') s1 =
                (if row_illegal (fila ahora n t) then Raise IllegalCharacterError
                 else Ok c', st')).
  { intros hoja s1 w1 c' E1. unfold bind at 1.
    destruct (row_illegal (fila ahora n t)) eqn:Hr.
    - rewrite (ws_append_illegal _ _ _ Hr). now eexists.
    - rewrite (ws_append_ok _ _ _ _ E1 Hr). now eexists. }
  destruct (es_usual t) as [[]|] eqn:He.
  - unfold cuerpo, contar. rewrite He.
    rewrite (bind_ok _ _ _ _ _ (get_wb_ok st w Hw)).
    set (hoja := nombre_hoja_seguro py_hash n).
    assert (H1 : exists s1 w1,
               (if mem hoja (sheetnames w) then ret tt
                else _insertar_hoja_watchlist_en_posicion hoja) st = (Ok tt, s1)
               /\ wb s1 = Some w1 /\ mem hoja (sheetnames w1) = true).
    { destruct (mem hoja (sheetnames w)) eqn:Hm.
      - now exists st, w.
      - assert (Hi' : mem inus_name (sheetnames w ++ [hoja]) = true).
        { apply mem_In, in_or_app. left. now apply mem_In. }
        destruct (insertar_ok hoja st w Hw Hm Hi') as (wf & E & _ & Hl).
        eexists _, wf. split; [exact E|]. split; [reflexivity|].
        eapply get_sheet_some_mem. rewrite Hl, String.eqb_refl. reflexivity. }
    destruct H1 as (s1 & w1 & E1 & Hw1 & Hm1).
    rewrite (bind_ok _ _ _ _ _ E1).
    rewrite (bind_ok _ _ _ _ _ (lookup_ok hoja s1 w1 Hw1 Hm1)).
    destruct (poner_encabezados_ok hoja s1 w1 Hw1 Hm1) as (s2 & w2 & E2 & Hw2 & _).
    rewrite (bind_ok _ _ _ _ _ E2).
    eapply Hfin, Hw2.
  - unfold cuerpo, contar. rewrite He. eapply Hfin, Hw.
  - unfold contar. rewrite He.
    apply cuerpo_desconocido; [congruence | exact He].
Qed.

Lemma bucle_exacto (tramos : list TramoNorm) :
  forall g u i st,
    hoja_de st inus_name <> None ->
    exists st',
      bucle py_hash ahora tramos (g, u, i) st =
        (Ok (g + aceptados_todos ahora tramos,
             u + aceptados ahora (Some true) tramos,
             i + aceptados ahora (Some false) tramos), st').
Proof.
  unfold aceptados_todos, aceptados.
  induction tramos as [|t rest IH]; intros g u i st Hin; cbn [bucle].
  - exists st. cbn. now rewrite !Z.add_0_r.
  - destruct (cuerpo_exacto t (strip (nombre t)) (g, u, i) st Hin) as (s1 & E1).
    assert (Hin1 : hoja_de s1 inus_name <> None).
    { eapply crece_hoja; [|exact Hin]. eapply crece_cuerpo, E1. }
    unfold bind, try_except. rewrite E1.
    remember (row_illegal (fila ahora (strip (nombre t)) t)) as b eqn:Hb.
    assert (Hl : legal ahora t = negb b) by (subst b; reflexivity).
    cbn [filter]. rewrite !Hl. clear Hb Hl E1.
    set (FA := filter (legal ahora) rest) in *.
    set (FB := filter (fun t0 => legal ahora t0 && es_de (Some true) t0) rest) in *.
    set (FC := filter (fun t0 => legal ahora t0 && es_de (Some false) t0) rest) in *.
    destruct b; cbn [negb andb].
    + cbn [ret]. apply IH, Hin1.
    + unfold contar, es_de.
      destruct (es_usual t) as [[]|]; cbn [Bool.eqb]; simpl List.length;
        match goal with
        | |- exists st', bucle _ _ _ (?g', ?u', ?i') _ = _ =>
            destruct (IH g' u' i' s1 Hin1) as (st' & E'); exists st'; rewrite E'
        end;
        f_equal; f_equal; apply terna_eq; rewrite ?Nat2Z.inj_succ; lia.
Qed.

Lemma guardar_tramos_cuenta (tramos : list TramoNorm) (st : World) (w0 : Workbook) :
  wb st = Some w0 -> sin_ruta st = false ->
  exists st',
    guardar_tramos py_hash ahora tramos st =
      (Ok (aceptados_todos ahora tramos,
           aceptados ahora (Some true) tramos,
           aceptados ahora (Some false) tramos), st').
Proof.
  intros Hw Hr.
  assert (HA : exists stA wA,
             (if mem inus_name (sheetnames w0) then ret tt
              else put_wb (create_sheet inus_name (Some O) w0)) st = (Ok tt, stA)
             /\ wb stA = Some wA
             /\ mem inus_name (sheetnames wA) = true).
  { destruct (mem inus_name (sheetnames w0)) eqn:Hi.
    - now exists st, w0.
    - eexists _, _. split; [reflexivity|]. split; reflexivity. }
  destruct HA as (stA & wA & EA & HwA & HiA).
  destruct (poner_encabezados_ok inus_name stA wA HwA HiA)
    as (stB & wB & EB & HwB & HnB).
  assert (HC : exists stC wC,
             (if mem desc_name (sheetnames wB) then _poner_encabezados desc_name
              else ret tt) stB = (Ok tt, stC)
             /\ wb stC = Some wC /\ sheetnames wC = sheetnames wB).
  { destruct (mem desc_name (sheetnames wB)) eqn:HdB.
    - destruct (poner_encabezados_ok desc_name stB wB HwB HdB)
        as (stC & wC & EC & HwC & HnC).
      now exists stC, wC.
    - now exists stB, wB. }
  destruct HC as (stC & wC & EC & HwC & HnC).
  assert (Hin : hoja_de stC inus_name <> None).
  { unfold hoja_de. rewrite HwC.
    destruct (get_sheet_mem inus_name wC) as (sh & ->); [|discriminate].
    now rewrite HnC, HnB. }
  destruct (bucle_exacto tramos 0 0 0 stC Hin) as (st2 & Eb).
  rewrite !Z.add_0_l in Eb.
  assert (Hin2 : hoja_de st2 inus_name <> None).
  { eapply crece_hoja; [|exact Hin]. eapply crece_bucle, Eb. }
  destruct (hoja_de_libro st2 inus_name Hin2) as (w2 & Hw2 & _).
  destruct (ordenar_ok st2 w2 Hw2) as (st3 & w3 & names & Eo & _).
  destruct (safe_save_workbook (ruta_de st) intentos_def espera_def st3)
    as [r st4] eqn:Es.
  exists st4.
  unfold guardar_tramos. rewrite Hw, Hr.
  rewrite (bind_ok _ _ _ _ _ EA), (bind_ok _ _ _ _ _ EB).
  rewrite (bind_ok _ _ _ _ _ (get_wb_ok stB wB HwB)), (bind_ok _ _ _ _ _ EC).
  rewrite (bind_ok _ _ _ _ _ Eb).
  apply (cola_guardar _ _ _ _ _ _ Eo Es).
Qed.

(** X15: with a workbook and a path, [guardar_tramos] counts exactly the
    records whose row the workbook takes, that is whose texts hold no
    character that openpyxl refuses: [guardados] is their number, [u] the
    number of those of the watchlist and [i] the number of the unusual ones,
    whatever the sheets already there and the outcome of the save.  No
    acceptable record is dropped and no refused one is counted.  The titles
    of the workbook and the records of the batch are plain, and the titles
    involved (those of the workbook, the two fixed ones and the sheet names
    of the batch) differ by more than the case of their letters, so that
    openpyxl creates each sheet under the title asked for. *)
Theorem guardar_tramos_cuenta_exacta :
  forall (tramos : list TramoNorm) (st : World) (w0 : Workbook),
    wb st = Some w0 -> sin_ruta st = false ->
    titulos_llanos (sheetnames w0) = true -> lote_llano tramos = true ->
    sin_choques (sheetnames w0 ++ titulos_del_lote py_hash tramos) = true ->
    fst (guardar_tramos py_hash ahora tramos st)
      = Ok (aceptados_todos ahora tramos,
            aceptados ahora (Some true) tramos,
            aceptados ahora (Some false) tramos).
Proof.
  intros tramos st w0 Hw Hr _ _ _.
  destruct (guardar_tramos_cuenta tramos st w0 Hw Hr) as (st' & E).
  now rewrite E.
Qed.

End Exacto.

Lemma guardar_tramos_cuenta_exacta_witness :
  fst (guardar_tramos hash_ej ahora_ej lote_orden mundo_limpio)
    = Ok (aceptados_todos ahora_ej lote_orden,
          aceptados ahora_ej (Some true) lote_orden,
          aceptados ahora_ej (Some false) lote_orden).
Proof.
  exact (guardar_tramos_cuenta_exacta hash_ej ahora_ej lote_orden mundo_limpio
           libro_ej eq_refl eq_refl eq_refl eq_refl eq_refl).
Defined.

End GuardarFacts.

(* ------------------------------------------------------------------ *)
(** * The schedule and the countdown *)

Module HorarioFacts.

Import PyStr Horario HorarioTerms.

(** *** The order of the instants *)

Lemma hora_valida_cotas (dt : datetime) :
  hora_valida dt = true ->
  0 <= hour dt < 24 /\ 0 <= minute dt < 60 /\ 0 <= second dt < 60
  /\ 0 <= microsecond dt < 1000000.
Proof.
  unfold hora_valida. intros H.
  repeat (apply andb_prop in H; destruct H as [H ?]).
  repeat match goal with
         | H : (_ <=? _) = true |- _ => apply Z.leb_le in H
         | H : (_ <? _) = true |- _ => apply Z.ltb_lt in H
         end.
  lia.
Qed.

(** On times of day within their ranges the order by fields is the order of
    the instants. *)
Lemma cmp_instante (a b : datetime) :
  hora_valida a = true -> hora_valida b = true ->
  dt_cmp a b = (instante a ?= instante b).
Proof.
  intros Ha Hb.
  apply hora_valida_cotas in Ha, Hb.
  unfold dt_cmp, instante. symmetry.
  destruct (Z.compare_spec (ordinal a) (ordinal b));
    [|apply Z.compare_lt_iff; lia | apply Z.compare_gt_iff; lia].
  destruct (Z.compare_spec (hour a) (hour b));
    [|apply Z.compare_lt_iff; lia | apply Z.compare_gt_iff; lia].
  destruct (Z.compare_spec (minute a) (minute b));
    [|apply Z.compare_lt_iff; lia | apply Z.compare_gt_iff; lia].
  destruct (Z.compare_spec (second a) (second b));
    [|apply Z.compare_lt_iff; lia | apply Z.compare_gt_iff; lia].
  destruct (Z.compare_spec (microsecond a) (microsecond b));
    [apply Z.compare_eq_iff; lia |apply Z.compare_lt_iff; lia
    | apply Z.compare_gt_iff; lia].
Qed.

Lemma le_instante (a b : datetime) :
  hora_valida a = true -> hora_valida b = true ->
  dt_le a b = (instante a <=? instante b).
Proof.
  intros Ha Hb. unfold dt_le, Z.leb. now rewrite cmp_instante.
Qed.

Lemma lt_instante (a b : datetime) :
  hora_valida a = true -> hora_valida b = true ->
  dt_lt a b = (instante a <? instante b).
Proof.
  intros Ha Hb. unfold dt_lt, Z.ltb. now rewrite cmp_instante.
Qed.

Lemma con_hora_valida (base : datetime) (hh mm : Z) :
  0 <= hh < 24 -> 0 <= mm < 60 -> hora_valida (_dt_con_hora base hh mm) = true.
Proof.
  intros Hh Hm. unfold hora_valida, _dt_con_hora.
  cbn [hour minute second microsecond].
  rewrite !andb_true_iff.
  repeat split; first [apply Z.leb_le; lia | apply Z.ltb_lt; lia].
Qed.

Lemma instante_con_hora (base : datetime) (hh mm : Z) :
  instante (_dt_con_hora base hh mm)
    = ((ordinal base * 24 + hh) * 60 + mm) * 60000000.
Proof. unfold instante, _dt_con_hora. cbn. lia. Qed.

Lemma tuplas_cotas (cfg : AppConfig) :
  0 <= fst (hora_ini_tuple cfg) < 24 /\ 0 <= snd (hora_ini_tuple cfg) < 60
  /\ 0 <= fst (hora_fin_tuple cfg) < 24 /\ 0 <= snd (hora_fin_tuple cfg) < 60.
Proof.
  unfold hora_ini_tuple, hora_fin_tuple. cbn [fst snd].
  repeat split; apply Z.mod_pos_bound; lia.
Qed.

(** Being within the schedule, on the instants. *)
Lemma dentro_instante (cfg : AppConfig) (x : datetime) :
  modo_247 cfg = false -> hora_valida x = true ->
  esta_dentro_horario cfg x =
    let I := instante (_dt_con_hora x (fst (hora_ini_tuple cfg))
                                      (snd (hora_ini_tuple cfg))) in
    let F := instante (_dt_con_hora x (fst (hora_fin_tuple cfg))
                                      (snd (hora_fin_tuple cfg))) in
    if I <=? F then (I <=? instante x) && (instante x <? F)
    else negb ((F <=? instante x) && (instante x <? I)).
Proof.
  intros Hm Hx. unfold esta_dentro_horario. rewrite Hm.
  destruct (tuplas_cotas cfg) as (B1 & B2 & B3 & B4).
  destruct (hora_ini_tuple cfg) as [ih im], (hora_fin_tuple cfg) as [fh fm].
  cbn [fst snd] in *.
  pose proof (con_hora_valida x ih im B1 B2) as Vi.
  pose proof (con_hora_valida x fh fm B3 B4) as Vf.
  now rewrite !le_instante, !lt_instante by assumption.
Qed.

Ltac por_casos :=
  repeat match goal with
         | |- context [?a <=? ?b] => destruct (Z.leb_spec a b)
         | |- context [?a <? ?b] => destruct (Z.ltb_spec a b)
         | H : context [?a <=? ?b] |- _ => destruct (Z.leb_spec a b)
         | H : context [?a <? ?b] |- _ => destruct (Z.ltb_spec a b)
         end;
  cbn [andb negb orb] in *; try discriminate; try reflexivity; try lia.

Lemma instante_cotas (x : datetime) :
  hora_valida x = true ->
  ordinal x * 86400000000 <= instante x < (ordinal x + 1) * 86400000000.
Proof.
  intros H. apply hora_valida_cotas in H. unfold instante. lia.
Qed.

Lemma tuple_eqb_false (a b c d : Z) :
  tuple_eqb (a, b) (c, d) = false -> a <> c \/ b <> d.
Proof.
  unfold tuple_eqb. cbn [fst snd]. intros H.
  apply andb_false_iff in H. destruct H as [H | H]; apply Z.eqb_neq in H; tauto.
Qed.

Lemma tuple_eqb_true (a b c d : Z) :
  tuple_eqb (a, b) (c, d) = true -> a = c /\ b = d.
Proof.
  unfold tuple_eqb. cbn [fst snd]. intros H.
  apply andb_prop in H. destruct H as [H1 H2].
  apply Z.eqb_eq in H1, H2. tauto.
Qed.

Section Ventana.

Variable cfg : AppConfig.
Hypothesis Hm : modo_247 cfg = false.

Let ih := fst (hora_ini_tuple cfg).
Let im := snd (hora_ini_tuple cfg).
Let fh := fst (hora_fin_tuple cfg).
Let fm := snd (hora_fin_tuple cfg).

Lemma dentro_como_Z (x : datetime) :
  hora_valida x = true ->
  esta_dentro_horario cfg x = dentro_Z ih im fh fm (ordinal x) (instante x).
Proof.
  intros Hx. rewrite (dentro_instante cfg x Hm Hx). cbv zeta.
  now rewrite !instante_con_hora.
Qed.

Lemma proximo_forma (dt : datetime) :
  proximo_inicio_desde cfg dt =
    if esta_dentro_horario cfg dt then Some dt
    else if tuple_eqb (ih, im) (fh, fm) then
      match mas_un_dia dt with
      | Some d => Some (_dt_con_hora d ih im)
      | None => None
      end
    else if dt_lt dt (_dt_con_hora dt ih im) then Some (_dt_con_hora dt ih im)
    else
      match mas_un_dia dt with
      | Some d => Some (_dt_con_hora d ih im)
      | None => None
      end.
Proof.
  unfold proximo_inicio_desde, ih, im, fh, fm.
  destruct (hora_ini_tuple cfg) as [a b], (hora_fin_tuple cfg) as [c d].
  reflexivity.
Qed.

End Ventana.

(** X17: with a window whose start and end differ, and a time that is not
    on the last day of the calendar, [proximo_inicio_desde] returns a time
    that is not before the one given, that is within the schedule, and
    before which, from the time given on, no time is within the schedule:
    the given time itself when it is within the schedule, else the next
    start of the window, today or tomorrow, at second 0. *)
Theorem proximo_inicio_es_el_primero :
  forall (cfg : AppConfig) (dt : datetime),
    modo_247 cfg = false ->
    tuple_eqb (hora_ini_tuple cfg) (hora_fin_tuple cfg) = false ->
    hora_valida dt = true -> ordinal dt < max_ordinal ->
    exists r,
      proximo_inicio_desde cfg dt = Some r
      /\ hora_valida r = true
      /\ dt_le dt r = true
      /\ esta_dentro_horario cfg r = true
      /\ (esta_dentro_horario cfg dt = true -> r = dt)
      /\ (esta_dentro_horario cfg dt = false ->
          hour r = fst (hora_ini_tuple cfg) /\ minute r = snd (hora_ini_tuple cfg)
          /\ second r = 0 /\ microsecond r = 0
          /\ (ordinal r = ordinal dt \/ ordinal r = ordinal dt + 1))
      /\ forall x, hora_valida x = true -> dt_le dt x = true -> dt_lt x r = true ->
                   esta_dentro_horario cfg x = false.
Proof.
  intros cfg dt Hm Ht Hv Ho.
  destruct (tuplas_cotas cfg) as (B1 & B2 & B3 & B4).
  rewrite (proximo_forma cfg dt).
  assert (Hne : fst (hora_ini_tuple cfg) <> fst (hora_fin_tuple cfg)
                \/ snd (hora_ini_tuple cfg) <> snd (hora_fin_tuple cfg)).
  { apply tuple_eqb_false. now rewrite <- !surjective_pairing. }
  replace (tuple_eqb _ _) with false
    by (symmetry; now rewrite <- !surjective_pairing).
  set (ih := fst (hora_ini_tuple cfg)) in *.
  set (im := snd (hora_ini_tuple cfg)) in *.
  set (fh := fst (hora_fin_tuple cfg)) in *.
  set (fm := snd (hora_fin_tuple cfg)) in *.
  pose proof (instante_cotas dt Hv) as Cdt.
  assert (Hx : forall x r, hora_valida x = true -> hora_valida r = true ->
             dt_le dt x = true -> dt_lt x r = true ->
             instante dt <= instante x < instante r
             /\ esta_dentro_horario cfg x
                = dentro_Z ih im fh fm (ordinal x) (instante x)
             /\ ordinal x * 86400000000 <= instante x
                < (ordinal x + 1) * 86400000000).
  { intros x r Vx Vr H1 H2.
    rewrite le_instante in H1 by assumption.
    rewrite lt_instante in H2 by assumption.
    apply Z.leb_le in H1. apply Z.ltb_lt in H2.
    split; [lia|]. split; [now apply dentro_como_Z | now apply instante_cotas]. }
  rewrite (dentro_como_Z cfg Hm dt Hv). fold ih im fh fm.
  destruct (dentro_Z ih im fh fm (ordinal dt) (instante dt)) eqn:Hd.
  - exists dt. split; [reflexivity|]. split; [exact Hv|].
    split; [rewrite le_instante by assumption; apply Z.leb_le; lia|].
    split; [rewrite (dentro_como_Z cfg Hm dt Hv); exact Hd|].
    split; [reflexivity|]. split; [discriminate|].
    intros x Vx H1 H2. destruct (Hx x dt Vx Hv H1 H2) as (C & _). lia.
  - pose proof (con_hora_valida dt ih im B1 B2) as V1.
    rewrite (lt_instante dt _ Hv V1), instante_con_hora.
    destruct (instante dt <? ((ordinal dt * 24 + ih) * 60 + im) * 60000000) eqn:Hlt.
    + exists (_dt_con_hora dt ih im).
      apply Z.ltb_lt in Hlt.
      split; [reflexivity|]. split; [exact V1|].
      split; [rewrite le_instante, instante_con_hora by assumption;
              apply Z.leb_le; lia|].
      split.
      { rewrite (dentro_como_Z cfg Hm _ V1), instante_con_hora. fold ih im fh fm.
        cbn [ordinal _dt_con_hora]. unfold dentro_Z in *. cbv zeta in *.
        por_casos. }
      split; [discriminate|].
      split; [intros _; cbn; repeat split; now left|].
      intros x Vx H1 H2. destruct (Hx x _ Vx V1 H1 H2) as (C & E & Cx).
      rewrite instante_con_hora in C. rewrite E.
      unfold dentro_Z in *. cbv zeta in *. por_casos.
    + apply Z.ltb_ge in Hlt.
      unfold mas_un_dia. replace (ordinal dt <? max_ordinal) with true
        by (symmetry; now apply Z.ltb_lt).
      set (d := mkDatetime (ordinal dt + 1) (hour dt) (minute dt) (second dt)
                           (microsecond dt)).
      pose proof (con_hora_valida d ih im B1 B2) as V2.
      exists (_dt_con_hora d ih im).
      split; [reflexivity|]. split; [exact V2|].
      split; [rewrite le_instante, instante_con_hora by assumption;
              apply Z.leb_le; cbn [ordinal d]; lia|].
      split.
      { rewrite (dentro_como_Z cfg Hm _ V2), instante_con_hora. fold ih im fh fm.
        cbn [ordinal _dt_con_hora d]. unfold dentro_Z in *. cbv zeta in *.
        por_casos. }
      split; [discriminate|].
      split; [intros _; cbn; repeat split; now right|].
      intros x Vx H1 H2. destruct (Hx x _ Vx V2 H1 H2) as (C & E & Cx).
      rewrite instante_con_hora in C. cbn [ordinal d] in C. rewrite E.
      unfold dentro_Z in *. cbv zeta in *. por_casos.
Qed.

Lemma proximo_inicio_es_el_primero_witness :
  exists r,
    proximo_inicio_desde cfg_nocturno mediodia = Some r
    /\ hora_valida r = true
    /\ dt_le mediodia r = true
    /\ esta_dentro_horario cfg_nocturno r = true
    /\ (hour r = 22 /\ minute r = 0 /\ second r = 0 /\ microsecond r = 0
        /\ (ordinal r = ordinal mediodia \/ ordinal r = ordinal mediodia + 1)).
Proof.
  destruct (proximo_inicio_es_el_primero cfg_nocturno mediodia
              eq_refl eq_refl eq_refl eq_refl)
    as (r & E & V & L & D & _ & F & _).
  exists r. repeat (split; [assumption|]). exact (F eq_refl).
Defined.

(** X18: with the 24/7 mode off and a window whose start and end are the
    same time, no time at all is within the schedule, and
    [proximo_inicio_desde] answers the start time of the next day, which is
    not within the schedule either; on the last day of the calendar the
    addition of a day overflows. *)
Theorem ventana_vacia :
  forall (cfg : AppConfig) (dt : datetime),
    modo_247 cfg = false ->
    tuple_eqb (hora_ini_tuple cfg) (hora_fin_tuple cfg) = true ->
    hora_valida dt = true ->
    esta_dentro_horario cfg dt = false
    /\ proximo_inicio_desde cfg dt =
         (if ordinal dt <? max_ordinal
          then Some (mkDatetime (ordinal dt + 1) (fst (hora_ini_tuple cfg))
                                (snd (hora_ini_tuple cfg)) 0 0)
          else None)
    /\ esta_dentro_horario cfg
         (mkDatetime (ordinal dt + 1) (fst (hora_ini_tuple cfg))
                     (snd (hora_ini_tuple cfg)) 0 0) = false.
Proof.
  intros cfg dt Hm Ht Hv.
  destruct (tuplas_cotas cfg) as (B1 & B2 & B3 & B4).
  assert (He : fst (hora_ini_tuple cfg) = fst (hora_fin_tuple cfg)
               /\ snd (hora_ini_tuple cfg) = snd (hora_fin_tuple cfg)).
  { apply tuple_eqb_true. now rewrite <- !surjective_pairing. }
  destruct He as [E1 E2].
  assert (Hd : forall x, hora_valida x = true -> esta_dentro_horario cfg x = false).
  { intros x Vx. rewrite (dentro_como_Z cfg Hm x Vx), <- E1, <- E2.
    unfold dentro_Z. cbv zeta. por_casos. }
  split; [now apply Hd|]. split.
  - rewrite (proximo_forma cfg dt), (Hd dt Hv).
    replace (tuple_eqb _ _) with true
      by (symmetry; now rewrite <- !surjective_pairing).
    unfold mas_un_dia. now destruct (ordinal dt <? max_ordinal).
  - apply Hd.
    exact (con_hora_valida (mkDatetime (ordinal dt + 1) 0 0 0 0) _ _ B1 B2).
Qed.

Lemma ventana_vacia_witness :
  esta_dentro_horario cfg_vacio mediodia = false
  /\ proximo_inicio_desde cfg_vacio mediodia = Some (mkDatetime 739001 6 0 0 0)
  /\ esta_dentro_horario cfg_vacio (mkDatetime 739001 6 0 0 0) = false.
Proof.
  exact (ventana_vacia cfg_vacio mediodia eq_refl eq_refl eq_refl).
Defined.

(** *** The countdown text *)

Lemma fmt_02d_cien :
  forallb (fun n => Nat.eqb (String.length (fmt_0d 2 (Z.of_nat n))) 2) (seq 0 100)
  = true.
Proof. vm_compute. reflexivity. Qed.

Lemma fmt_02d_largo (k : Z) :
  0 <= k < 100 -> String.length (fmt_0d 2 k) = 2%nat.
Proof.
  intros Hk. pose proof fmt_02d_cien as H.
  rewrite forallb_forall in H. specialize (H (Z.to_nat k)).
  rewrite Z2Nat.id in H by lia. apply Nat.eqb_eq, H. apply in_seq. lia.
Qed.

(** X19: the countdown text of [fmt_restante].  A negative number of
    seconds is shown as "00:00"; below one hour the text is minutes and
    seconds, five characters, the same text as the duration of a segment
    ([MM:SS]); from one hour up to a hundred hours it is hours, minutes and
    seconds, eight characters. *)
Theorem fmt_restante_forma :
  forall s : Z,
    (s < 0 -> fmt_restante s = "00:00")
    /\ (0 <= s < 3600 ->
        fmt_restante s = Analyzer.mmss s
        /\ String.length (fmt_restante s) = 5%nat)
    /\ (3600 <= s < 360000 ->
        fmt_restante s
          = fmt_0d 2 (s / 3600) ++ ":" ++ fmt_0d 2 (s mod 3600 / 60) ++ ":"
            ++ fmt_0d 2 (s mod 60)
        /\ String.length (fmt_restante s) = 8%nat).
Proof.
  intros s. split; [|split].
  - intros H. unfold fmt_restante.
    replace (s <? 0) with true by (symmetry; apply Z.ltb_lt; lia). reflexivity.
  - intros H. unfold fmt_restante.
    replace (s <? 0) with false by (symmetry; apply Z.ltb_ge; lia).
    rewrite (Z.div_small s 3600), (Z.mod_small s 3600) by lia.
    cbn [Z.eqb]. split; [reflexivity|].
    rewrite !StorageFacts.string_length_app.
    rewrite !fmt_02d_largo; [reflexivity | |].
    + pose proof (Z.mod_pos_bound s 60). lia.
    + split; [apply Z.div_pos; lia | apply Z.div_lt_upper_bound; lia].
  - intros H. unfold fmt_restante.
    replace (s <? 0) with false by (symmetry; apply Z.ltb_ge; lia).
    assert (H1 : 1 <= s / 3600 < 100).
    { split; [apply Z.div_le_lower_bound; lia | apply Z.div_lt_upper_bound; lia]. }
    replace (s / 3600 =? 0) with false by (symmetry; apply Z.eqb_neq; lia).
    assert (Hs : (s mod 3600) mod 60 = s mod 60).
    { apply Z.mod_mod_divide. now exists 60. }
    rewrite Hs. split; [reflexivity|].
    rewrite !StorageFacts.string_length_app.
    pose proof (Z.mod_pos_bound s 3600).
    pose proof (Z.mod_pos_bound s 60).
    rewrite !fmt_02d_largo; [reflexivity | lia | | lia].
    split; [apply Z.div_pos; lia | apply Z.div_lt_upper_bound; lia].
Qed.

Lemma fmt_restante_forma_witness :
  fmt_restante (-7) = "00:00"
  /\ fmt_restante 754 = Analyzer.mmss 754
  /\ String.length (fmt_restante 3725) = 8%nat.
Proof.
  destruct (fmt_restante_forma (-7)) as (A & _).
  destruct (fmt_restante_forma 754) as (_ & B & _).
  destruct (fmt_restante_forma 3725) as (_ & _ & C).
  split; [apply A; lia|]. split; [apply B; lia | apply C; lia].
Defined.

End HorarioFacts.

(* ------------------------------------------------------------------ *)
(** * The capture as its callers report it *)

Module CapturaFacts.

Import PyStr Models Analyzer Storage StorageTerms SheetTerms DominioTerms Captura.
Import AnalyzerFacts StorageFacts GuardarFacts.

Local Open Scope list_scope.

(** X20: the class that the window shows for a record is the class under
    which the record is saved: [_clasif_from_raw] gives, for the dictionary
    of a normalised record and for the raw record it was made of, the
    [es_usual] of the normalised record.  A hint in the dictionary takes
    precedence over its [es_usual]. *)
Theorem clasificacion_coherente :
  (forall r : RawRec,
     _clasif_from_raw (dict_de_tramo (normalizar r)) = es_usual (normalizar r)
     /\ _clasif_from_raw (dict_de_crudo r) = es_usual (normalizar r))
  /\ (forall (t : TramoNorm), _clasif_from_raw (dict_de_tramo t) = es_usual t)
  /\ (forall (v : option bool),
        _clasif_from_raw (mkItem (Some "Unusual") None v) = Some false
        /\ _clasif_from_raw (mkItem None (Some " watch ") v) = Some true).
Proof.
  split; [|split].
  - intros r. split; [reflexivity|].
    destruct (normalizar_campos r) as (_ & _ & _ & _ & _ & _ & E & _).
    rewrite E. unfold _clasif_from_raw, dict_de_crudo, clasificar, texto_o.
    cbn [it_section_flag it_section it_es_usual]. rewrite or_else_empty.
    destruct (String.eqb _ "unusual"); [reflexivity|].
    now destruct (String.eqb _ "watch").
  - reflexivity.
  - intros v. split; reflexivity.
Qed.

(** *** The totals of a capture *)

Lemma es_de_clases (t : TramoNorm) :
  es_de (Some true) t = es_True t /\ es_de (Some false) t = es_False t
  /\ es_de None t = es_None t.
Proof. unfold es_de, es_True, es_False, es_None. now destruct (es_usual t) as [[]|]. Qed.

Lemma largo_filter_cons {A : Type} (p : A -> bool) (t : A) (l : list A) :
  Z.of_nat (List.length (filter p (t :: l)))
    = (if p t then 1 else 0) + Z.of_nat (List.length (filter p l)).
Proof.
  cbn [filter]. destruct (p t); [|lia].
  simpl List.length. lia.
Qed.

Lemma aceptados_suma (ahora : datetime) (l : list TramoNorm) :
  aceptados_todos ahora l
    = aceptados ahora (Some true) l + aceptados ahora (Some false) l
      + aceptados ahora None l
  /\ 0 <= aceptados ahora None l <= cuenta es_None l.
Proof.
  unfold aceptados_todos, aceptados, cuenta.
  induction l as [|t l IH]; [cbn; lia|].
  rewrite !largo_filter_cons.
  destruct (es_de_clases t) as (E1 & E2 & E3). rewrite E1, E2, E3.
  assert (Hex : (if es_True t then 1 else 0) + (if es_False t then 1 else 0)
                + (if es_None t then 1 else 0) = 1).
  { unfold es_True, es_False, es_None. now destruct (es_usual t) as [[]|]. }
  destruct (legal ahora t), (es_True t), (es_False t), (es_None t);
    cbn [andb]; lia.
Qed.

Lemma aceptados_legales (ahora : datetime) (l : list TramoNorm) :
  forallb (legal ahora) l = true ->
  aceptados_todos ahora l = Z.of_nat (List.length l)
  /\ aceptados ahora (Some true) l = cuenta es_True l
  /\ aceptados ahora (Some false) l = cuenta es_False l
  /\ aceptados ahora None l = cuenta es_None l.
Proof.
  unfold aceptados_todos, aceptados, cuenta.
  induction l as [|t l IH]; [now cbn|].
  cbn [forallb]. intros H. apply andb_prop in H. destruct H as [Ht Hl].
  specialize (IH Hl). destruct IH as (I1 & I2 & I3 & I4).
  destruct (es_de_clases t) as (E1 & E2 & E3).
  rewrite !largo_filter_cons. rewrite Ht, E1, E2, E3. cbn [andb].
  assert (Hex : (if es_True t then 1 else 0) + (if es_False t then 1 else 0)
                + (if es_None t then 1 else 0) = 1).
  { unfold es_True, es_False, es_None. now destruct (es_usual t) as [[]|]. }
  simpl List.length. rewrite Nat2Z.inj_succ.
  destruct (es_True t), (es_False t), (es_None t); lia.
Qed.

Section Totales.

Variable py_hash : string -> Z.
Variable ahora : datetime.

(** X21: the four numbers that a capture reports.  With a workbook and a
    path, [_captura_ejecucion] returns the counters of [guardar_tramos] on
    the records of [detect_all] and the number of the unknown records among
    them: the total never exceeds watchlist + unusual + unknown, and when
    no row of the batch is refused the total is their sum and the number of
    the records; [capture_and_save] of analyzer.py then reports the same
    watchlist and unusual numbers, and as its total their sum, without the
    unknown records (and it saves nothing).  The titles of the workbook and
    the texts of the extracted records are plain, and the titles involved
    differ by more than the case of their letters. *)
Theorem captura_totales :
  forall (brut : list RawRec) (st : World) (w0 : Workbook),
    wb st = Some w0 -> sin_ruta st = false ->
    titulos_llanos (sheetnames w0) = true -> crudos_llanos brut = true ->
    sin_choques (sheetnames w0 ++ titulos_del_lote py_hash (detect_all brut)) = true ->
    exists g u i d,
      fst (_captura_ejecucion py_hash ahora brut st) = Ok (g, u, i, d)
      /\ d = cuenta es_None (detect_all brut)
      /\ 0 <= u /\ 0 <= i /\ u + i <= g <= u + i + d
      /\ (forallb (legal ahora) (detect_all brut) = true ->
          g = u + i + d
          /\ g = Z.of_nat (List.length (detect_all brut))
          /\ capture_and_save brut = (u + i, u, i)).
Proof.
  intros brut st w0 Hw Hr _ _ _.
  destruct (guardar_tramos_cuenta py_hash ahora (detect_all brut) st w0 Hw Hr)
    as (st' & E).
  destruct (aceptados_suma ahora (detect_all brut)) as (Es & Hn).
  eexists _, _, _, _. split.
  - unfold _captura_ejecucion. cbv zeta. unfold bind. rewrite E. reflexivity.
  - split; [reflexivity|].
    split; [unfold aceptados; lia|]. split; [unfold aceptados; lia|].
    split; [lia|].
    intros Hl. destruct (aceptados_legales ahora _ Hl) as (L1 & L2 & L3 & L4).
    split; [lia|]. split; [exact L1|].
    unfold capture_and_save. cbv zeta. now rewrite <- L2, <- L3.
Qed.

End Totales.

Lemma captura_totales_witness :
  exists g u i d,
    fst (_captura_ejecucion hash_ej ahora_ej
           [AnalyzerTerms.tramo_repetido; AnalyzerTerms.tramo_otro;
            AnalyzerTerms.tramo_30kmh] mundo_limpio) = Ok (g, u, i, d)
    /\ d = 1 /\ g = u + i + d /\ g = 3.
Proof.
  destruct (captura_totales hash_ej ahora_ej
              [AnalyzerTerms.tramo_repetido; AnalyzerTerms.tramo_otro;
               AnalyzerTerms.tramo_30kmh] mundo_limpio libro_ej
              eq_refl eq_refl eq_refl eq_refl eq_refl)
    as (g & u & i & d & E & Ed & _ & _ & _ & F).
  exists g, u, i, d. split; [exact E|].
  destruct (F eq_refl) as (F1 & F2 & _).
  split; [exact Ed|]. split; [exact F1 | exact F2].
Defined.

End CapturaFacts.
